(** * code_saturne: the study-manager XML accessor and the solid-particle model

    A shallow embedding of
      - [python/code_saturne/studymanager/cs_studymanager_parser.py]
        (class [Parser]: a DOM-traversal layer over [xml.dom.minidom]);
      - [python/code_saturne/model/SolidModel.py]
        (the [setCouplingStatus] / [getCouplingStatus] pair);
      - [python/code_saturne/gui/case/QMegEditorView.py]
        (the symbols and the first text of the formula editor).

    Python values are modelled as follows.
      - [str]: [string]; a character is a code point below 256.
      - a DOM node: the inductive [Node], one constructor per minidom node
        class that a parsed document can contain;
      - [node.attributes]: a finite map from attribute names to values;
      - a [dict] with string keys: [gmap string _];
      - an exception or [sys.exit]: the [outcome] monad. *)

From Stdlib Require Import ZArith Ascii String List Lia.
From stdpp Require Import base decidable option list strings gmap fin_maps pretty.

Local Open Scope string_scope.
Local Open Scope list_scope.
Local Open Scope Z_scope.

Set Warnings "-register-all".

(** ** Outcomes of a Python call *)

Inductive exn : Type :=
| KeyError
| ValueError
| AttributeError
| TypeError
| NameError
| UnboundLocalError
| PyException.

Inductive outcome (A : Type) : Type :=
| Return (a : A)
| Raise (e : exn)
| Exit (code : Z).

Arguments Return {A} a.
Arguments Raise {A} e.
Arguments Exit {A} code.

#[global] Instance outcome_ret : MRet outcome := @Return.

#[global] Instance outcome_bind : MBind outcome := fun A B k m =>
  match m with
  | Return a => k a
  | Raise e => Raise e
  | Exit c => Exit c
  end.

(** [try: body / except: handler] with a bare [except], which also catches
    [SystemExit]. *)
Definition try_except {A : Type} (body : outcome A) (handler : outcome A) : outcome A :=
  match body with
  | Return a => Return a
  | _ => handler
  end.

Definition succeeds {A : Type} (m : outcome A) : bool :=
  match m with Return _ => true | _ => false end.

(** ** Python string primitives *)

Module PyStr.

(** [str.isspace] on one code point below 256. *)
Definition isspace (c : ascii) : bool :=
  let n := nat_of_ascii c in
  (((9 <=? n) && (n <=? 13)) || ((28 <=? n) && (n <=? 32))
   || (n =? 133) || (n =? 160))%nat.

Fixpoint lstrip (s : string) : string :=
  match s with
  | EmptyString => EmptyString
  | String c s' => if isspace c then lstrip s' else s
  end.

Fixpoint rstrip (s : string) : string :=
  match s with
  | EmptyString => EmptyString
  | String c s' =>
      match rstrip s' with
      | EmptyString => if isspace c then EmptyString else String c EmptyString
      | r => String c r
      end
  end.

(** [s.strip()] *)
Definition strip (s : string) : string := rstrip (lstrip s).

(** [re.split(sep, s)] for a one-character literal pattern, which is
    [s.split(sep)]: the result is never empty. *)
Fixpoint split (sep : ascii) (s : string) : list string :=
  match s with
  | EmptyString => [EmptyString]
  | String c s' =>
      if Ascii.eqb c sep then EmptyString :: split sep s'
      else match split sep s' with
           | tok :: toks => String c tok :: toks
           | [] => [String c EmptyString]
           end
  end.

(** [s.find(c)]: the index of the first occurrence, or -1. *)
Fixpoint find (c : ascii) (s : string) : Z :=
  match s with
  | EmptyString => -1
  | String c' s' =>
      if Ascii.eqb c' c then 0
      else let i := find c s' in if i <? 0 then -1 else i + 1
  end.

Definition len (s : string) : Z := Z.of_nat (String.length s).

(** Index normalisation of a slice bound: a negative bound counts from the
    end, and the result is clamped to [0, len]. *)
Definition clamp (n i : Z) : Z :=
  let j := if i <? 0 then i + n else i in
  Z.max 0 (Z.min n j).

(** [s[lo:hi]]; [None] is an omitted bound. *)
Definition slice (lo hi : option Z) (s : string) : string :=
  let n := len s in
  let a := match lo with Some i => clamp n i | None => 0 end in
  let b := match hi with Some i => clamp n i | None => n end in
  String.substring (Z.to_nat a) (Z.to_nat (b - a)) s.

Definition is_digit (c : ascii) : bool :=
  let n := nat_of_ascii c in ((48 <=? n) && (n <=? 57))%nat.

Definition digit_val (c : ascii) : Z := Z.of_nat (nat_of_ascii c) - 48.

(** The digits of an integer literal after the sign: decimal digits, with
    single underscores allowed between two digits. [prev] tells whether the
    previous character was a digit. *)
Fixpoint int_digits (prev : bool) (acc : Z) (s : string) : option Z :=
  match s with
  | EmptyString => if prev then Some acc else None
  | String c s' =>
      if is_digit c then int_digits true (10 * acc + digit_val c) s'
      else if Ascii.eqb c "_" then
             if prev then
               match s' with
               | String d _ => if is_digit d then int_digits false acc s' else None
               | EmptyString => None
               end
             else None
           else None
  end.

(** The whitespace that [int] skips around a literal: the whitespace of C
    (tab to carriage return, and the space) and, above 127, the code points
    that are spaces. The separators U+001C to U+001F, which [str.strip]
    removes, are not skipped. *)
Definition int_space (c : ascii) : bool :=
  let n := nat_of_ascii c in
  (((9 <=? n) && (n <=? 13)) || (n =? 32) || (n =? 133) || (n =? 160))%nat.

Fixpoint int_lstrip (s : string) : string :=
  match s with
  | EmptyString => EmptyString
  | String c s' => if int_space c then int_lstrip s' else s
  end.

Fixpoint int_rstrip (s : string) : string :=
  match s with
  | EmptyString => EmptyString
  | String c s' =>
      match int_rstrip s' with
      | EmptyString => if int_space c then EmptyString else String c EmptyString
      | r => String c r
      end
  end.

(** [sys.get_int_max_str_digits()], at its default. *)
Definition max_str_digits : Z := 4300.

(** The digits of a literal; underscores and the sign are not counted. *)
Fixpoint digit_count (s : string) : Z :=
  match s with
  | EmptyString => 0
  | String c s' => (if is_digit c then 1 else 0) + digit_count s'
  end.

(** [int(s)] in base 10: whitespace around the literal is skipped, one sign
    is accepted, and a literal of more than [max_str_digits] digits is
    refused; [None] stands for the [ValueError]. *)
Definition int (s : string) : option Z :=
  match int_rstrip (int_lstrip s) with
  | EmptyString => None
  | String c r =>
      if max_str_digits <? digit_count (String c r) then None
      else if Ascii.eqb c "-" then Z.opp <$> int_digits false 0 r
      else if Ascii.eqb c "+" then int_digits false 0 r
      else int_digits false 0 (String c r)
  end.

(** [str(n)] for an integer. *)
Definition str (n : Z) : string := pretty n.

End PyStr.

(** ** The DOM of [xml.dom.minidom] *)

(** The node classes a parsed document contains. [attributes] is the
    [NamedNodeMap] of an element: attribute names are unique. *)
Inductive Node : Type :=
| Element (tagName : string) (attributes : gmap string string) (childNodes : list Node)
| Text (data : string)
| CDATASection (data : string)
| Comment (data : string)
| ProcessingInstruction (target data : string)
| DocumentType (name : string).

(** A [Document] is given by its child nodes: the root element and, around it,
    comments, processing instructions and the document type. *)
Definition Document : Type := list Node.

Module Dom.

Definition nodeName (n : Node) : string :=
  match n with
  | Element tag _ _ => tag
  | Text _ => "#text"
  | CDATASection _ => "#cdata-section"
  | Comment _ => "#comment"
  | ProcessingInstruction target _ => target
  | DocumentType name => name
  end.

(** [n.nodeType == minidom.Node.ELEMENT_NODE] *)
Definition is_element (n : Node) : bool :=
  match n with Element _ _ _ => true | _ => false end.

Definition childNodes (n : Node) : list Node :=
  match n with Element _ _ cs => cs | _ => [] end.

Definition firstChild (n : Node) : option Node := head (childNodes n).

(** [doc.firstChild] and [doc.documentElement] of a document. *)
Definition doc_firstChild (doc : Document) : option Node := head doc.

Definition documentElement (doc : Document) : option Node :=
  List.find is_element doc.

(** [n.data]: character data, comments and processing instructions carry
    it; other nodes have no such attribute. *)
Definition data (n : Node) : outcome string :=
  match n with
  | Text d | CDATASection d | Comment d | ProcessingInstruction _ d => Return d
  | Element _ _ _ | DocumentType _ => Raise AttributeError
  end.

(** [o.data] where [o] may be [None]. *)
Definition data_of (o : option Node) : outcome string :=
  match o with
  | Some n => data n
  | None => Raise AttributeError
  end.

(** [n.attributes[k].value] *)
Definition attr (n : Node) (k : string) : outcome string :=
  match n with
  | Element _ attrs _ =>
      match attrs !! k with
      | Some v => Return v
      | None => Raise KeyError
      end
  | _ => Raise TypeError
  end.

(** [n.getAttribute(k)] of an element: the empty string when absent. *)
Definition getAttribute (n : Node) (k : string) : outcome string :=
  match n with
  | Element _ attrs _ => Return (default "" (attrs !! k))
  | _ => Raise AttributeError
  end.

(** [k in n.attributes.keys()] *)
Definition has_key (n : Node) (k : string) : outcome bool :=
  match n with
  | Element _ attrs _ => Return (bool_decide (is_Some (attrs !! k)))
  | _ => Raise AttributeError
  end.

(** The helper behind [getElementsByTagName]: the elements below the given
    children whose tag is [name] (or any, for "*"), in document order. *)
Fixpoint elements_below (name : string) (n : Node) : list Node :=
  match n with
  | Element _ _ cs =>
      (fix go (l : list Node) : list Node :=
         match l with
         | [] => []
         | c :: l' =>
             (match c with
              | Element tag _ _ =>
                  if (String.eqb name "*" || String.eqb tag name)%bool
                  then [c] else []
              | _ => []
              end) ++ elements_below name c ++ go l'
         end) cs
  | _ => []
  end.

(** [n.getElementsByTagName(name)]: defined on elements only. *)
Definition getElementsByTagName (n : Node) (name : string) : outcome (list Node) :=
  match n with
  | Element _ _ _ => Return (elements_below name n)
  | _ => Raise AttributeError
  end.

(** [o.getElementsByTagName(name)] where [o] may be [None]. *)
Definition getElementsByTagName_of (o : option Node) (name : string)
  : outcome (list Node) :=
  match o with
  | Some n => getElementsByTagName n name
  | None => Raise AttributeError
  end.

(** [bool(n)]: a node is always true. *)
Definition truth (n : Node) : bool := true.

End Dom.

(** ** class Parser *)

Record Parser : Type := mkParser {
  filename : string;
  doc : Document;
  root : Node;
  repo : option string;
  dest : option string
}.

Section Parser_init.

(** [minidom.parse(XMLFileName)]: the document read from the file system,
    or [None] when the parser raises. *)
Variable minidom_parse : string -> option Document.

(** [Parser.__init__(XMLFileName, doc)] *)
Definition Parser_init (XMLFileName : string) (doc : option Document)
  : outcome Parser :=
  d ← match doc with
      | Some d => Return d
      | None =>
          match minidom_parse XMLFileName with
          | Some d => Return d
          | None => Exit 1
          end
      end;
  match Dom.doc_firstChild d with
  | None => Raise AttributeError
  | Some r =>
      if negb (String.eqb (Dom.nodeName r) "studymanager") then Exit 1
      else Return (mkParser XMLFileName d r None None)
  end.

End Parser_init.

Section write.

(** [doc.toxml()]: the serialisation of a document by minidom. *)
Variable toxml : Document -> string.

(** [Parser.write] *)
Definition write (self : Parser) : string := toxml (doc self).

End write.

(** [Parser.getStudiesLabel]: the loop over the study nodes. *)
Fixpoint getStudiesLabel_loop (nodes : list Node) (labels : list string)
  : outcome (list string) :=
  match nodes with
  | [] => Return labels
  | node :: rest =>
      label ← Dom.attr node "label";
      status ← Dom.attr node "status";
      if String.eqb status "on" then
        if negb (bool_decide (label ∈ labels))
        then getStudiesLabel_loop rest (labels ++ [label])
        else Exit 1
      else getStudiesLabel_loop rest labels
  end.

Definition getStudiesLabel (self : Parser) : outcome (list string) :=
  nodes ← Dom.getElementsByTagName (root self) "study";
  getStudiesLabel_loop nodes [].

(** [Parser.getStudyNode]: the loop; [None] when it ends without [break]. *)
Fixpoint getStudyNode_loop (l : string) (nodes : list Node) : outcome (option Node) :=
  match nodes with
  | [] => Return None
  | n :: rest =>
      label ← Dom.attr n "label";
      if String.eqb label l then
        status ← Dom.attr n "status";
        if negb (String.eqb status "on") then Raise ValueError
        else Return (Some n)
      else if negb (Dom.truth n) then Raise ValueError
      else getStudyNode_loop l rest
  end.

Definition getStudyNode (self : Parser) (l : string) : outcome (option Node) :=
  nodes ← Dom.getElementsByTagName (root self) "study";
  getStudyNode_loop l nodes.

(** [[tag.strip() for tag in re.split(',', text)]] *)
Definition split_tags (text : string) : list string :=
  PyStr.strip <$> PyStr.split "," text.

(** [Parser.getStudyTags]; the message of the error path formats the unbound
    name [l]. *)
Definition getStudyTags (studyNode : Node) : outcome (list string) :=
  status ← Dom.attr studyNode "status";
  if negb (String.eqb status "on") then Raise NameError
  else try_except (text ← Dom.attr studyNode "tags"; Return (split_tags text))
                  (Return []).

(** [Parser.getStudyKeywords] *)
Fixpoint getStudyKeywords_loop (nodes : list Node) (keywords : list string)
  : list string :=
  match nodes with
  | [] => keywords
  | node_kw :: rest =>
      match Dom.data_of (Dom.firstChild node_kw) with
      | Return text => getStudyKeywords_loop rest (keywords ++ split_tags text)
      | _ => getStudyKeywords_loop rest keywords
      end
  end.

Definition getStudyKeywords (studyNode : Node) : outcome (list string) :=
  nodes ← Dom.getElementsByTagName studyNode "study_keywords";
  Return (getStudyKeywords_loop nodes []).

(** [Parser.getStatusOnCasesLabels]; [attr] is [None] when omitted, and an
    empty name is false as well. *)
Definition supplied (attr : option string) : option string :=
  match attr with
  | Some a => if String.eqb a "" then None else Some a
  | None => None
  end.

Fixpoint getStatusOnCasesLabels_loop (attr : option string) (nodes : list Node)
    (labels : list string) : outcome (list string) :=
  match nodes with
  | [] => Return labels
  | node :: rest =>
      status ← Dom.attr node "status";
      if String.eqb status "on" then
        label ← Dom.attr node "label";
        let appended := labels ++ [label] in
        match supplied attr with
        | Some a =>
            v ← Dom.attr node a;
            if negb (String.eqb v "on")
            then getStatusOnCasesLabels_loop attr rest (removelast appended)
            else getStatusOnCasesLabels_loop attr rest appended
        | None => getStatusOnCasesLabels_loop attr rest appended
        end
      else getStatusOnCasesLabels_loop attr rest labels
  end.

Definition getStatusOnCasesLabels (self : Parser) (l : string) (attr : option string)
  : outcome (list string) :=
  study ← getStudyNode self l;
  nodes ← Dom.getElementsByTagName_of study "case";
  getStatusOnCasesLabels_loop attr nodes [].

(** [Parser.getDepends]: [args] is unbound until the loop body has run. *)
Fixpoint getDepends_loop (nodes : list Node) (args : option string)
  : outcome (option string) :=
  match nodes with
  | [] => Return args
  | node :: rest =>
      a ← Dom.attr node "args";
      getDepends_loop rest (Some a)
  end.

Definition getDepends (caseNode : Node) : outcome string :=
  nodes ← Dom.getElementsByTagName caseNode "depends";
  args ← getDepends_loop nodes None;
  match args with
  | Some a => Return a
  | None => Raise UnboundLocalError
  end.

(** The values stored in the dictionary of a case. *)
Inductive value : Type :=
| VNone
| VStr (s : string)
| VInt (z : Z)
| VList (l : list string)
| VNode (n : Node).

(** [bool(v)] *)
Definition truthy (v : value) : bool :=
  match v with
  | VNone => false
  | VStr s => negb (String.eqb s "")
  | VInt z => negb (z =? 0)
  | VList l => negb (bool_decide (l = []))
  | VNode n => Dom.truth n
  end.

Definition setup_filter_keys : list string := ["notebook"; "parametric"; "kw_args"].

Definition structural_tags : list string :=
  ["compare"; "prepro"; "script"; "data"; "depends"].

Definition mem (s : string) (l : list string) : bool := bool_decide (s ∈ l).

(** The deprecated options: the lookup of "compute" raises when that
    attribute is absent, and an attribute object is true. *)
Definition deprecated_check (node : Node) (deprecated_option : bool) : bool :=
  match try_except (_ ← Dom.attr node "compute"; Return true)
                   (Return deprecated_option) with
  | Return b => b
  | _ => deprecated_option
  end.

(** The dictionary used to set a missing run_id. *)
Definition count_label (list_case : gmap string Z) (label : string) : gmap string Z :=
  match list_case !! label with
  | Some c => <[label := c + 1]> list_case
  | None => <[label := 1]> list_case
  end.

Definition generated_run_id (list_case : gmap string Z) (label : string) : string :=
  ("run" ++ PyStr.str (default 0 (list_case !! label)))%string.

Definition run_id_value (node : Node) (list_case : gmap string Z) (label : string)
  : string :=
  match Dom.attr node "run_id" with
  | Return v => if negb (String.eqb v "") then v
                else generated_run_id list_case label
  | _ => generated_run_id list_case label
  end.

Definition n_procs_value (node : Node) : value :=
  match Dom.attr node "n_procs" with
  | Return v => VStr v
  | _ => VNone
  end.

Definition case_tags (node : Node) : list string :=
  match Dom.attr node "tags" with
  | Return tags => split_tags tags
  | _ => []
  end.

Definition tags_value (tags : list string) : value :=
  if (length tags =? 0)%nat then VNone else VList tags.

Definition depends_value (node : Node) : value :=
  match getDepends node with
  | Return depends => VStr depends
  | _ => VNone
  end.

(** [int(tmp[:ind]) * 60 + int(tmp[-2:])]; the [ValueError] of [int] is
    [None]. *)
Definition minutes (tmp : string) : option Z :=
  let ind := PyStr.find ":" tmp in
  h ← PyStr.int (PyStr.slice None (Some ind) tmp);
  m ← PyStr.int (PyStr.slice (Some (-2)) None tmp);
  Some (h * 60 + m).

Definition expected_time_value (node : Node) : value :=
  match Dom.attr node "expected_time" with
  | Return tmp =>
      match minutes tmp with
      | Some t => VInt t
      | None => VNone
      end
  | _ => VNone
  end.

(** The loop over the child nodes of a case. *)
Fixpoint case_children_loop (children : list Node) (d : gmap string value)
  : outcome (gmap string value) :=
  match children with
  | [] => Return d
  | n :: rest =>
      match n with
      | Element tagName _ cs =>
          if negb (bool_decide (cs = [])) then
            if negb (mem tagName structural_tags) then
              text ← Dom.data_of (head cs);
              case_children_loop rest (<[tagName := VStr text]> d)
            else case_children_loop rest d
          else
            if mem tagName setup_filter_keys then
              args ← Dom.getAttribute n "args";
              match d !! tagName with
              | None => Raise KeyError
              | Some v =>
                  if negb (truthy v)
                  then case_children_loop rest (<[tagName := VStr args]> d)
                  else match v with
                       | VStr s =>
                           case_children_loop rest
                             (<[tagName := VStr (s ++ " " ++ args)%string]> d)
                       | _ => Raise TypeError
                       end
              end
            else case_children_loop rest d
      | _ => case_children_loop rest d
      end
  end.

(** The dictionary of one enabled case, before the loop over its children. *)
Definition case_fields (node : Node) (label : string) (list_case : gmap string Z)
    (tags : list string) : gmap string value :=
  <["kw_args" := VNone]> (<["parametric" := VNone]> (<["notebook" := VNone]> (
  <["expected_time" := expected_time_value node]> (
  <["depends" := depends_value node]> (
  <["tags" := tags_value tags]> (
  <["n_procs" := n_procs_value node]> (
  <["run_id" := VStr (run_id_value node list_case label)]> (
  <["label" := VStr label]> (
  <["node" := VNode node]> ∅))))))))).

Record cases_state : Type := mkState {
  st_data : list (gmap string value);
  st_list_case : gmap string Z;
  st_deprecated_option : bool
}.

Section getStatusOnCasesKeywords.

Variable self : Parser.
Variable l : string.

(** The body of the loop for one case node. *)
Definition case_step (st : cases_state) (node : Node) : outcome cases_state :=
  status ← Dom.attr node "status";
  if String.eqb status "on" then
    label ← Dom.attr node "label";
    let deprecated_option := deprecated_check node (st_deprecated_option st) in
    let list_case := count_label (st_list_case st) label in
    study ← getStudyNode self l;
    study_tags ← match study with
                 | Some s => getStudyTags s
                 | None => Raise AttributeError
                 end;
    let d := case_fields node label list_case (case_tags node ++ study_tags) in
    d' ← case_children_loop (Dom.childNodes node) d;
    Return (mkState (st_data st ++ [d']) list_case deprecated_option)
  else Return st.

Fixpoint cases_loop (nodes : list Node) (st : cases_state) : outcome cases_state :=
  match nodes with
  | [] => Return st
  | node :: rest => st' ← case_step st node; cases_loop rest st'
  end.

(** [Parser.getStatusOnCasesKeywords(l)]; the warning on deprecated options
    is printed and not returned. *)
Definition getStatusOnCasesKeywords : outcome (list (gmap string value)) :=
  study ← getStudyNode self l;
  nodes ← Dom.getElementsByTagName_of study "case";
  st ← cases_loop nodes (mkState [] ∅ false);
  Return (st_data st).

End getStatusOnCasesKeywords.

(** [Parser.getAttribute(node, k, default)]; [default] is [None] when it is
    omitted or passed as [None]. The result is the attribute value or the
    default. *)
Definition getAttribute {D : Type} (node : Node) (k : string) (default : option D)
  : outcome (string + D) :=
  present ← Dom.has_key node k;
  if present : bool then
    v ← Dom.attr node k; Return (inl v)
  else
    match default with
    | None => Raise ValueError
    | Some d => Return (inr d)
    end.

Section getAttributeTuple.

(** Python's [float] type and the builtin conversion [float(s)] of a string;
    [None] is its [ValueError]. *)
Variable float : Type.
Variable float_of_str : string -> option float.

(** [tuple(float(s) for s in tokens)] *)
Fixpoint floats (tokens : list string) : outcome (list float) :=
  match tokens with
  | [] => Return []
  | s :: rest =>
      match float_of_str s with
      | None => Raise ValueError
      | Some x => xs ← floats rest; Return (x :: xs)
      end
  end.

(** [Parser.getAttributeTuple(node, k, default)] *)
Definition getAttributeTuple {D : Type} (node : Node) (k : string)
    (default : option D) : outcome (list float + D) :=
  present ← Dom.has_key node k;
  if present : bool then
    n ← Dom.attr node k;
    t ← floats (PyStr.split "," (PyStr.slice (Some 1) (Some (-1)) n));
    Return (inl t)
  else
    match default with
    | None => Raise ValueError
    | Some d => Return (inr d)
    end.

End getAttributeTuple.

(** ** class Parser: the other accessors *)

(** [Parser.getDataFromNode(father, childName)] *)
Definition getDataFromNode (father : Node) (childName : string)
  : outcome (option string) :=
  l ← Dom.getElementsByTagName father childName;
  match l with
  | [current] =>
      match Dom.firstChild current with
      | Some c => if Dom.truth c then d ← Dom.data c; Return (Some d) else Return None
      | None => Return None
      end
  | [] => Exit 1
  | _ :: _ :: _ => Exit 1
  end.

(** [Parser.getChild(father, childname)] *)
Definition getChild (father : Node) (childname : string) : outcome (option Node) :=
  l ← Dom.getElementsByTagName father childname;
  match l with
  | [] => Return None
  | [n] => Return (Some n)
  | _ :: _ :: _ => Exit 1
  end.

(** [Parser.getChildren(father, childname)] *)
Definition getChildren (father : Node) (childname : string) : outcome (list Node) :=
  Dom.getElementsByTagName father childname.

Definition set_repo (self : Parser) (r : option string) : Parser :=
  mkParser (filename self) (doc self) (root self) r (dest self).

Definition set_dest (self : Parser) (d : option string) : Parser :=
  mkParser (filename self) (doc self) (root self) (repo self) d.

(** [Parser.getRepository()]: the value returned and the parser with its
    field [__repo] as the call leaves it. *)
Definition getRepository (self : Parser) : outcome (option string * Parser) :=
  match repo self with
  | None =>
      r ← getDataFromNode (root self) "repository";
      Return (r, set_repo self r)
  | Some r => Return (Some r, self)
  end.

(** [Parser.getDestination()] *)
Definition getDestination (self : Parser) : outcome (option string * Parser) :=
  match dest self with
  | None =>
      d ← getDataFromNode (root self) "destination";
      Return (d, set_dest self d)
  | Some d => Return (Some d, self)
  end.

Section Paths.

(** [os.path.expanduser] and [os.path.abspath], which depend on the
    environment of the process. *)
Variable expanduser : string -> string.
Variable abspath : string -> string.

(** [Parser.setRepository(repo_path)] *)
Definition setRepository (self : Parser) (repo_path : string) : Parser :=
  let self1 := set_repo self (Some (expanduser repo_path)) in
  set_repo self1 (abspath <$> repo self1).

(** [Parser.setDestination(dest_path)] *)
Definition setDestination (self : Parser) (dest_path : string) : Parser :=
  let self1 := set_dest self (Some (expanduser dest_path)) in
  set_dest self1 (abspath <$> dest self1).

End Paths.

(** [str(node.attributes[k].value)] inside [try: ... except: None]. *)
Definition attr_or_None (node : Node) (k : string) : option string :=
  match Dom.attr node k with
  | Return v => Some v
  | _ => None
  end.

(** [Parser.getCompare(caseNode)]: the loop over the compare nodes, with the
    six lists it appends to, and the tuple
    [(compare, nodes, repo, dest, threshold, args)] it returns. *)
Fixpoint getCompare_loop (ns : list Node) (compare : list bool) (nodes : list Node)
    (repo dest : list string) (threshold args : list (option string))
  : outcome (list bool * list Node * list string * list string
             * list (option string) * list (option string)) :=
  match ns with
  | [] => Return (compare, nodes, repo, dest, threshold, args)
  | node :: rest =>
      let c := match Dom.attr node "status" with
               | Return status => String.eqb status "on"
               | _ => true
               end in
      r ← Dom.attr node "repo";
      d ← Dom.attr node "dest";
      getCompare_loop rest (compare ++ [c]) (nodes ++ [node]) (repo ++ [r])
        (dest ++ [d]) (threshold ++ [attr_or_None node "threshold"])
        (args ++ [attr_or_None node "args"])
  end.

Definition getCompare (caseNode : Node)
  : outcome (list bool * list Node * list string * list string
             * list (option string) * list (option string)) :=
  ns ← Dom.getElementsByTagName caseNode "compare";
  getCompare_loop ns [] [] [] [] [] [].

(** The loop shared, line for line, by [getPrepro] and [getPostPro]: the
    lists [(flags, label, nodes, args)]. *)
Fixpoint script_loop (ns : list Node) (flags : list bool) (label : list string)
    (nodes : list Node) (args : list string)
  : outcome (list bool * list string * list Node * list string) :=
  match ns with
  | [] => Return (flags, label, nodes, args)
  | node :: rest =>
      status ← Dom.attr node "status";
      lab ← Dom.attr node "label";
      script_loop rest (flags ++ [String.eqb status "on"]) (label ++ [lab])
        (nodes ++ [node]) (args ++ [default "" (attr_or_None node "args")])
  end.

(** [Parser.getPrepro(caseNode)] *)
Definition getPrepro (caseNode : Node)
  : outcome (list bool * list string * list Node * list string) :=
  ns ← Dom.getElementsByTagName caseNode "prepro";
  script_loop ns [] [] [] [].

(** [Parser.getPostPro(l)] *)
Definition getPostPro (self : Parser) (l : string)
  : outcome (list bool * list string * list Node * list string) :=
  study ← getStudyNode self l;
  ns ← Dom.getElementsByTagName_of study "postpro";
  script_loop ns [] [] [] [].

(** [Parser.getScript(caseNode)]: the tuple
    [(script, label, nodes, args, repo, dest)]. *)
Fixpoint getScript_loop (ns : list Node) (script : list bool) (label : list string)
    (nodes : list Node) (args : list string) (repo dest : list (option string))
  : outcome (list bool * list string * list Node * list string
             * list (option string) * list (option string)) :=
  match ns with
  | [] => Return (script, label, nodes, args, repo, dest)
  | node :: rest =>
      status ← Dom.attr node "status";
      lab ← Dom.attr node "label";
      getScript_loop rest (script ++ [String.eqb status "on"]) (label ++ [lab])
        (nodes ++ [node]) (args ++ [default "" (attr_or_None node "args")])
        (repo ++ [attr_or_None node "repo"]) (dest ++ [attr_or_None node "dest"])
  end.

Definition getScript (caseNode : Node)
  : outcome (list bool * list string * list Node * list string
             * list (option string) * list (option string)) :=
  ns ← Dom.getElementsByTagName caseNode "script";
  getScript_loop ns [] [] [] [] [] [].

(** [Parser.getSubplots(studyLabel)] and [Parser.getFigures(studyLabel)] *)
Definition getSubplots (self : Parser) (studyLabel : string) : outcome (list Node) :=
  study ← getStudyNode self studyLabel;
  Dom.getElementsByTagName_of study "subplot".

Definition getFigures (self : Parser) (studyLabel : string) : outcome (list Node) :=
  study ← getStudyNode self studyLabel;
  Dom.getElementsByTagName_of study "figure".

(** [Parser.getPltCommands(node)] *)
Fixpoint getPltCommands_loop (ns : list Node) (cmd : list string)
  : outcome (list string) :=
  match ns with
  | [] => Return cmd
  | n :: rest =>
      if (Dom.is_element n && negb (bool_decide (Dom.childNodes n = [])))%bool then
        if String.eqb (Dom.nodeName n) "plt_command" then
          text ← Dom.data_of (head (Dom.childNodes n));
          getPltCommands_loop rest (cmd ++ [text])
        else getPltCommands_loop rest cmd
      else getPltCommands_loop rest cmd
  end.

Definition getPltCommands (node : Node) : outcome (list string) :=
  ns ← Dom.getElementsByTagName node "plt_command";
  getPltCommands_loop ns [].

Section getMeasurement.

(** [os.walk(top)], the directories below [top] as triples
    [(root, dirs, files)] in the order of the walk, and [os.path.join]. *)
Variable os_walk : string -> list (string * list string * list string).
Variable os_path_join : list string -> string.

(** The loop over the walk: [filePath] becomes the first directory that
    holds [fileName], and the loop stops there. *)
Fixpoint walk_loop (fileName : string)
    (walk : list (string * list string * list string)) (filePath : string) : string :=
  match walk with
  | [] => filePath
  | (root, dirs, fs) :: rest =>
      if mem fileName fs then root else walk_loop fileName rest filePath
  end.

(** [os.path.join(self.getRepository(), ...)]: joining [None] is a
    [TypeError]. *)
Definition repository_path (r : option string) (parts : list string) : outcome string :=
  match r with
  | Some r => Return (os_path_join (r :: parts))
  | None => Raise TypeError
  end.

Fixpoint getMeasurement_loop (l : string) (ns : list Node) (self : Parser)
    (nodes : list (list Node)) (files : list string)
  : outcome (list (list Node) * list string * Parser) :=
  match ns with
  | [] => Return (nodes, files, self)
  | node :: rest =>
      plots ← Dom.getElementsByTagName node "plot";
      fileName ← Dom.attr node "file";
      filePath ← Dom.attr node "path";
      '(r, self1) ← getRepository self;
      top ← (if String.eqb filePath ""
             then repository_path r [l]
             else repository_path r [l; "POST"; filePath]);
      let found := walk_loop fileName (os_walk top) filePath in
      getMeasurement_loop l rest self1 (nodes ++ [plots])
        (files ++ [os_path_join [found; fileName]])
  end.

(** [Parser.getMeasurement(l)]: the pair [(nodes, files)], and the parser as
    the calls of [getRepository] leave it. *)
Definition getMeasurement (self : Parser) (l : string)
  : outcome (list (list Node) * list string * Parser) :=
  study ← getStudyNode self l;
  ns ← Dom.getElementsByTagName_of study "measurement";
  getMeasurement_loop l ns self [] [].

End getMeasurement.

(** [Parser.getStudyMetadata]: the dictionaries it builds have fixed keys
    and are records here. *)
Module Meta.

(** An entry of [data['cases']]. *)
Record case : Type := mkCase {
  name : string;
  tags : list string;
  vnvitem : list string
}.

(** [data['study']] *)
Record study : Type := mkStudy {
  study_name : string;
  keywords : list string;
  tags_study : list string;
  tags_cases : list string
}.

Definition named (case_name : string) (c : case) : bool :=
  String.eqb (name c) case_name.

(** The items of a description: [str(n.firstChild.data)] for each of them. *)
Fixpoint items_loop (ns : list Node) (vnv : list string) : outcome (list string) :=
  match ns with
  | [] => Return vnv
  | n :: rest =>
      text ← Dom.data_of (Dom.firstChild n);
      items_loop rest (vnv ++ [text])
  end.

(** The first pass, over the case descriptions; the message of its
    exception formats the unbound name [filename]. *)
Fixpoint descriptions_loop (ns : list Node) (cases : list case)
  : outcome (list case) :=
  match ns with
  | [] => Return cases
  | node_descr :: rest =>
      case_name ← Dom.attr node_descr "label";
      if existsb (named case_name) cases then Raise NameError
      else
        items ← Dom.getElementsByTagName node_descr "item";
        vnv ← items_loop items [];
        descriptions_loop rest (cases ++ [mkCase case_name [] vnv])
  end.

(** [case_id] after the loop over [enumerate(data['cases'])]: the index of
    the last entry with that name, or -1. *)
Fixpoint find_case_id (case_name : string) (cases : list case) (c_id case_id : Z) : Z :=
  match cases with
  | [] => case_id
  | c :: rest =>
      find_case_id case_name rest (c_id + 1)
        (if named case_name c then c_id else case_id)
  end.

Definition add_tags (ctags : list string) (c : case) : case :=
  mkCase (name c) (tags c ++ ctags) (vnvitem c).

(** The second pass, over the cases. *)
Fixpoint cases_loop (ns : list Node) (cases : list case) : outcome (list case) :=
  match ns with
  | [] => Return cases
  | node :: rest =>
      case_name ← Dom.attr node "label";
      let case_id := find_case_id case_name cases 0 (-1) in
      let ctags := case_tags node in
      let cases1 := if case_id <? 0 then cases ++ [mkCase case_name [] []] else cases in
      let case_id1 := if case_id <? 0 then Z.of_nat (length cases1) - 1 else case_id in
      let cases2 := if negb (bool_decide (ctags = []))
                    then alter (add_tags ctags) (Z.to_nat case_id1) cases1
                    else cases1 in
      cases_loop rest cases2
  end.

(** [list(dict.fromkeys(tmp))]: the keys in the order of their first
    occurrence. *)
Fixpoint fromkeys (tmp : list string) (keys : list string) : list string :=
  match tmp with
  | [] => keys
  | x :: rest => if mem x keys then fromkeys rest keys else fromkeys rest (keys ++ [x])
  end.

End Meta.

(** [Parser.getStudyMetadata(l)] *)
Definition getStudyMetadata (self : Parser) (l : string)
  : outcome (Meta.study * list Meta.case) :=
  study_node ← getStudyNode self l;
  keywords ← match study_node with
             | Some n => getStudyKeywords n
             | None => Raise AttributeError
             end;
  tags_study ← match study_node with
               | Some n => getStudyTags n
               | None => Raise AttributeError
               end;
  descriptions ← Dom.getElementsByTagName_of study_node "case_description";
  cases ← Meta.descriptions_loop descriptions [];
  nodes ← Dom.getElementsByTagName_of study_node "case";
  cases ← Meta.cases_loop nodes cases;
  let tmp := concat (Meta.tags <$> cases) in
  Return (Meta.mkStudy l keywords tags_study (Meta.fromkeys tmp []), cases).

(** Whether [getStatusOnCasesKeywords(l)] prints its warning on deprecated
    options: the value of [deprecated_option] after the loop. *)
Definition getStatusOnCasesKeywords_warns (self : Parser) (l : string) : outcome bool :=
  study ← getStudyNode self l;
  nodes ← Dom.getElementsByTagName_of study "case";
  st ← cases_loop self l nodes (mkState [] ∅ false);
  Return (st_deprecated_option st).

(** ** class SolidModel *)

Module Solid.

(** Modelled from the spec: the XML engine ([XMLengine], not among the
    sources) behind the model classes maps accessor calls to reads and writes
    of keys of a node. A node is the finite map from the keys of its data
    children to their text. *)
Definition XMLNode : Type := gmap string string.

(** Modelled from the spec: [node.xmlSetData(key, value)] writes [value]
    under [key]. *)
Definition xmlSetData (node : XMLNode) (key value : string) : XMLNode :=
  <[key := value]> node.

(** Modelled from the spec: [node.xmlGetString(key)] reads [key]; [None]
    when the key is not there. *)
Definition xmlGetString (node : XMLNode) (key : string) : option string :=
  node !! key.

(** The state of a [SolidModel]: the node 'solid_particles_properties' of
    [XMLThermo], when the document has one, and whether [self.ipp_node] is
    bound to it or is [None]. *)
Record SolidModel : Type := mkSolid {
  solid_particles_properties : option XMLNode;
  ipp_bound : bool
}.

(** Modelled from the spec: [XMLThermo.xmlInitNode] returns the node of that
    name and creates it, empty, when it is missing. *)
Definition xmlInitNode (m : SolidModel) : SolidModel :=
  match solid_particles_properties m with
  | Some _ => m
  | None => mkSolid (Some ∅) (ipp_bound m)
  end.

(** [SolidModel.__init_node] *)
Definition init_node (m : SolidModel) : SolidModel :=
  if negb (ipp_bound m) then mkSolid (solid_particles_properties (xmlInitNode m)) true
  else m.

(** [self.ipp_node], the node when bound. *)
Definition ipp_node (m : SolidModel) : option XMLNode :=
  if ipp_bound m then solid_particles_properties m else None.

Definition defaultValues_polydispersed : string := "off".

Section Coupling.

(** [Model.isOnOff] (not among the sources): the check of a status value. *)
Variable isOnOff : string -> outcome unit.

(** [SolidModel.setCouplingStatus(status)] *)
Definition setCouplingStatus (m : SolidModel) (status : string) : outcome SolidModel :=
  _ ← isOnOff status;
  let m1 := xmlInitNode m in
  let m2 := init_node m1 in
  match ipp_node m2 with
  | Some node =>
      Return (mkSolid (Some (xmlSetData node "polydispersion" status)) (ipp_bound m2))
  | None => Raise AttributeError
  end.

End Coupling.

(** [SolidModel.getCouplingStatus()] *)
Definition getCouplingStatus (m : SolidModel) : option string :=
  let status := Some defaultValues_polydispersed in
  match ipp_node m with
  | Some node => xmlGetString node "polydiserpsion"
  | None => status
  end.

(** A status check in the manner of [isOnOff], used to run the model. *)
Definition on_or_off (status : string) : outcome unit :=
  if (String.eqb status "on" || String.eqb status "off")%bool then Return tt
  else Raise ValueError.

(** The node that [setCouplingStatus] writes to: the existing node of the
    solid particle properties, or a new, empty one. *)
Definition node_before (m : SolidModel) : XMLNode :=
  default ∅ (solid_particles_properties m).

End Solid.

(** ** class QMegEditorView: the symbols and the expression of the editor *)

Module QMeg.

(** The loop of the constructor over [symbols], and over [required]: an
    indexed symbol such as 'x[0]' is entered under the text in front of its
    first bracket, when that text has not been entered for an indexed symbol
    before. *)
Fixpoint sym_loop (symbols : list (string * string))
    (sym : list (string * string)) (base : list string) : list (string * string) :=
  match symbols with
  | [] => sym
  | (s, l) :: symbols' =>
      if negb (PyStr.find "[" s =? -1) then
        let idx := PyStr.find "[" s in
        if negb (mem (PyStr.slice None (Some idx) s) base) then
          sym_loop symbols' (sym ++ [(PyStr.slice None (Some idx) s, l)])
            (base ++ [PyStr.slice None (Some idx) s])
        else sym_loop symbols' sym base
      else sym_loop symbols' (sym ++ [(s, l)]) base
  end.

(** [sym = [('todelete','')]; base = []; for s,l in symbols: ...; del sym[0]] *)
Definition sym (symbols : list (string * string)) : list (string * string) :=
  tail (sym_loop symbols [("todelete", "")] []).

Definition req (required : list (string * string)) : list (string * string) :=
  tail (sym_loop required [("todelete", "")] []).

(** The outcome of the preparation of the expression: indexing an empty
    string raises [IndexError]. *)
Inductive result : Type :=
| Ok (expression : string)
| IndexError.

(** [c in (" ", "\n", "\t")] *)
Definition blank (c : ascii) : bool :=
  (Ascii.eqb c " " || Ascii.eqb c "010" || Ascii.eqb c "009")%bool.

(** [while expression[0] in (" ", "\n", "\t"): expression = expression[1:]] *)
Fixpoint front_loop (expression : string) : result :=
  match expression with
  | EmptyString => IndexError
  | String c rest => if blank c then front_loop rest else Ok expression
  end.

(** [while expression[-1] in (" ", "\n", "\t"): expression = expression[:-1]];
    one unit of fuel for each test of the loop. *)
Fixpoint back_loop (fuel : nat) (expression : string) : option result :=
  match fuel with
  | O => None
  | S fuel' =>
      match last (String.list_ascii_of_string expression) with
      | None => Some IndexError
      | Some c =>
          if blank c
          then back_loop fuel' (PyStr.slice None (Some (-1)) expression)
          else Some (Ok expression)
      end
  end.

(** The literal [" = \n"]. *)
Definition assign : string := String " " (String "=" (String " " (String "010" ""))).

(** The text shown first in the editor: one line 'p = ' for each required
    symbol when no expression is given, and the expression without the
    blanks around it otherwise. *)
Definition initial_expression (fuel : nat) (expression : string)
    (required : list (string * string)) : option result :=
  if String.eqb expression "" then
    Some (Ok (fold_left (fun e pq => (e ++ (fst pq ++ assign))%string) required ""))
  else
    match front_loop expression with
    | IndexError => Some IndexError
    | Ok e => back_loop fuel e
    end.

End QMeg.

(** ** Vocabulary of the specification *)

(** The value of attribute [k] of a node, when it is an element that has
    one. *)
Definition attribute (n : Node) (k : string) : option string :=
  match n with
  | Element _ attrs _ => attrs !! k
  | _ => None
  end.

(** A study or case is enabled when its status is 'on'. *)
Definition is_on (n : Node) : bool :=
  bool_decide (attribute n "status" = Some "on").

Definition label_of (n : Node) : string := default "" (attribute n "label").

(** The labels of the enabled nodes, in the order of the nodes. *)
Definition enabled_labels (nodes : list Node) : list string :=
  label_of <$> List.filter is_on nodes.

(** The node carries all the attributes [ks]. *)
Definition has_attributes (ks : list string) (n : Node) : Prop :=
  Forall (fun k => is_Some (attribute n k)) ks.

(** The text that [getStudyKeywords] reads from a keyword node: the data of
    its first child, when there is one and it carries data. *)
Definition first_text (n : Node) : option string :=
  match Dom.data_of (Dom.firstChild n) with
  | Return text => Some text
  | _ => None
  end.

(** A token is trimmed when stripping leaves it unchanged. *)
Definition trimmed (s : string) : Prop := PyStr.strip s = s.

(** The cases that [getStatusOnCasesLabels] keeps: status 'on' and, when an
    attribute name is supplied, that attribute 'on' as well. *)
Definition case_selected (attr : option string) (n : Node) : bool :=
  is_on n && match supplied attr with
             | Some a => bool_decide (attribute n a = Some "on")
             | None => true
             end.

(** An enabled case carries the supplied attribute. *)
Definition carries (attr : option string) (n : Node) : bool :=
  negb (is_on n) || match supplied attr with
                    | Some a => bool_decide (is_Some (attribute n a))
                    | None => true
                    end.

(** Every case has a status, and a label when it is enabled. *)
Definition case_labelled (n : Node) : Prop :=
  is_Some (attribute n "status")
  /\ (is_on n = true -> is_Some (attribute n "label")).

(** The keys that [getStatusOnCasesKeywords] sets from the attributes of a
    case. *)
Definition record_keys : list string :=
  ["node"; "label"; "run_id"; "n_procs"; "tags"; "depends"; "expected_time"].

(** A child element with content is either one of the structural elements or
    starts with character data and is not named like a key set from the
    attributes. *)
Definition child_regular (n : Node) : Prop :=
  match n with
  | Element tag _ (c :: _) =>
      mem tag structural_tags = true
      \/ (succeeds (Dom.data c) = true /\ tag ∉ record_keys)
  | _ => True
  end.

Definition case_regular (n : Node) : Prop :=
  case_labelled n /\ (is_on n = true -> Forall child_regular (Dom.childNodes n)).

(** The same conditions as boolean checks. *)
Definition child_regular_b (n : Node) : bool :=
  match n with
  | Element tag _ (c :: _) =>
      mem tag structural_tags
      || (succeeds (Dom.data c) && negb (mem tag record_keys))
  | _ => true
  end.

Definition case_labelled_b (n : Node) : bool :=
  bool_decide (is_Some (attribute n "status"))
  && (negb (is_on n) || bool_decide (is_Some (attribute n "label"))).

Definition case_regular_b (n : Node) : bool :=
  case_labelled_b n
  && (negb (is_on n) || forallb child_regular_b (Dom.childNodes n)).

(** The number of nodes labelled [lab] among [ns]. *)
Definition label_count (ns : list Node) (lab : string) : Z :=
  Z.of_nat (length (List.filter (fun m => bool_decide (label_of m = lab)) ns)).

(** The run_id of a case record as the specification words it: the run_id
    attribute when it is there and not empty, otherwise "run" followed by the
    number of enabled cases with the same label up to this one, which is the
    last of [upto]. *)
Definition assigned_run_id (upto : list Node) (n : Node) : string :=
  match attribute n "run_id" with
  | Some (String c v) => String c v
  | _ => ("run" ++ PyStr.str (label_count upto (label_of n)))%string
  end.

(** The tokens of a comma-separated attribute, each without the whitespace
    around it; none when the attribute is absent. *)
Definition tokens (text : option string) : list string :=
  match text with
  | Some t => PyStr.strip <$> PyStr.split "," t
  | None => []
  end.

(** The tags in a record; no tags at all are stored as [None]. *)
Definition tags_of (d : gmap string value) : list string :=
  match d !! "tags" with
  | Some (VList tags) => tags
  | _ => []
  end.

(** The tags of a study: the tokens of its 'tags' attribute. *)
Definition study_tags (study : Node) : list string :=
  match attribute study "tags" with
  | Some text => split_tags text
  | None => []
  end.

(** What the record [d] of the enabled case [n] holds under the keys set
    from the attributes; [upto] are the enabled cases up to [n], and [stags]
    the tags of the study. *)
Definition record_of (stags : list string) (upto : list Node) (n : Node)
    (d : gmap string value) : Prop :=
  d !! "node" = Some (VNode n)
  /\ d !! "label" = Some (VStr (label_of n))
  /\ d !! "run_id" = Some (VStr (assigned_run_id upto n))
  /\ d !! "n_procs" = Some (n_procs_value n)
  /\ d !! "tags" = Some (tags_value (case_tags n ++ stags))
  /\ d !! "depends" = Some (depends_value n)
  /\ d !! "expected_time" = Some (expected_time_value n).

(** The records [ds] are those of the enabled cases [ns], which come after
    the enabled cases [processed]. *)
Fixpoint records_match (stags : list string) (processed ns : list Node)
    (ds : list (gmap string value)) : Prop :=
  match ns, ds with
  | [], [] => True
  | n :: ns', d :: ds' =>
      record_of stags (processed ++ [n]) n d
      /\ records_match stags (processed ++ [n]) ns' ds'
  | _, _ => False
  end.

(** The entries of the flag-style children hold [None] or a string. *)
Definition flags_ok (d : gmap string value) : Prop :=
  forall k, k ∈ setup_filter_keys ->
    d !! k = Some VNone \/ exists s, d !! k = Some (VStr s).

(** The dictionary [list_case] holds the number of enabled cases met so far
    under each label. *)
Definition counts (list_case : gmap string Z) (processed : list Node) : Prop :=
  forall lab, default 0 (list_case !! lab) = label_count processed lab.

(** The flag that [getCompare] gives a compare node: on unless its status
    says otherwise. *)
Definition compare_flag (n : Node) : bool :=
  match attribute n "status" with
  | Some status => String.eqb status "on"
  | None => true
  end.

Definition has_attribute (k : string) (n : Node) : bool :=
  bool_decide (is_Some (attribute n k)).

(** The value of an attribute that the caller knows to be there. *)
Definition attribute_of (k : string) (n : Node) : string :=
  default "" (attribute n k).

(** The file that [getMeasurement] gives for a measurement node, with the
    repository [r] and the study label [l]: the file name joined to the first
    directory of the walk that holds the file, or to the path attribute when
    no directory does. *)
Definition measurement_file
    (os_walk : string -> list (string * list string * list string))
    (os_path_join : list string -> string) (r l : string) (n : Node) : string :=
  let fileName := attribute_of "file" n in
  let filePath := attribute_of "path" n in
  let top := if String.eqb filePath "" then os_path_join [r; l]
             else os_path_join [r; l; "POST"; filePath] in
  match List.find (fun t => mem fileName (snd t)) (os_walk top) with
  | Some t => os_path_join [fst (fst t); fileName]
  | None => os_path_join [filePath; fileName]
  end.

(** The tags that [getStudyMetadata] collects under the name [x]: those of
    the case elements labelled [x], enabled or not, in document order. *)
Definition tags_for (x : string) (nodes : list Node) : list string :=
  concat (case_tags <$> List.filter (fun n => String.eqb (label_of n) x) nodes).

(** The items of a case description. *)
Definition items_of (node_descr : Node) : list string :=
  omap first_text (Dom.elements_below "item" node_descr).

Definition items_readable (node_descr : Node) : bool :=
  forallb (fun n => bool_decide (is_Some (first_text n)))
          (Dom.elements_below "item" node_descr).

(** The entry of a case description. *)
Definition described (node_descr : Node) : Meta.case :=
  Meta.mkCase (label_of node_descr) [] (items_of node_descr).

(** One step of the second pass of [getStudyMetadata], on a list of entries
    with distinct names: a new entry when the label is new, and the tags of
    the case added to the entry with that label. *)
Definition tag_step (cases : list Meta.case) (n : Node) : list Meta.case :=
  let x := label_of n in
  let cases1 := if existsb (Meta.named x) cases then cases
                else cases ++ [Meta.mkCase x [] []] in
  (fun c => if Meta.named x c then Meta.add_tags (case_tags n) c else c) <$> cases1.

(** The tags, and the items, recorded under the name [x]. *)
Definition entry_tags (cases : list Meta.case) (x : string) : list string :=
  match List.find (Meta.named x) cases with
  | Some c => Meta.tags c
  | None => []
  end.

Definition entry_items (cases : list Meta.case) (x : string) : list string :=
  match List.find (Meta.named x) cases with
  | Some c => Meta.vnvitem c
  | None => []
  end.

(** The args of the flag-style children named [k] of a case: its child
    elements with that tag and no content, in document order; a missing
    args attribute reads as the empty string. *)
Definition flag_args (k : string) (children : list Node) : list string :=
  omap (fun n => match n with
                 | Element tag attrs [] =>
                     if String.eqb tag k then Some (default "" (attrs !! "args"))
                     else None
                 | _ => None
                 end) children.

(** One more args string added to the value of a flag. *)
Definition add_flag (v : value) (a : string) : value :=
  if negb (truthy v) then VStr a
  else match v with
       | VStr s => VStr (s ++ " " ++ a)%string
       | _ => v
       end.

(** The value of a flag key in the record of a case. *)
Definition flag_value (k : string) (n : Node) : value :=
  fold_left add_flag (flag_args k (Dom.childNodes n)) VNone.

(** What a record holds for its node and under the flag keys. *)
Definition flags_of (n : Node) (d : gmap string value) : Prop :=
  d !! "node" = Some (VNode n)
  /\ forall k, k ∈ setup_filter_keys -> d !! k = Some (flag_value k n).

(** No child element with content is named like a flag. *)
Definition flag_child (n : Node) : Prop :=
  match n with
  | Element tag _ (_ :: _) => tag ∉ setup_filter_keys
  | _ => True
  end.

Definition flag_child_b (n : Node) : bool :=
  match n with
  | Element tag _ (_ :: _) => negb (mem tag setup_filter_keys)
  | _ => true
  end.

(** The text of [s] in front of its first [c]; all of [s] without one. *)
Fixpoint before (c : ascii) (s : string) : string :=
  match s with
  | EmptyString => EmptyString
  | String c' s' => if Ascii.eqb c' c then EmptyString else String c' (before c s')
  end.

(** A symbol is indexed when it holds a bracket; its base name is the text
    in front of the first one. *)
Definition indexed (s : string) : bool := negb (PyStr.find "[" s =? -1).

Definition base_name (s : string) : string := before "[" s.

Definition based (e : string * string) : string * string := (base_name e.1, e.2).

(** The entries named [n] in a list of symbols. *)
Definition named_count (n : string) (l : list (string * string)) : nat :=
  length (List.filter (fun e => String.eqb e.1 n) l).

(** The symbols without index named [n]. *)
Definition plain_count (n : string) (symbols : list (string * string)) : nat :=
  length (List.filter (fun e => negb (indexed e.1) && String.eqb e.1 n)%bool symbols).

(** Some indexed symbol has the base name [n]. *)
Definition family (n : string) (symbols : list (string * string)) : bool :=
  existsb (fun e => indexed e.1 && String.eqb (base_name e.1) n)%bool symbols.

(** The entries that the loop adds for [symbols] once the base names [base]
    have been entered. *)
Fixpoint kept (symbols : list (string * string)) (base : list string)
    : list (string * string) :=
  match symbols with
  | [] => []
  | e :: symbols' =>
      if indexed e.1 then
        if mem (base_name e.1) base then kept symbols' base
        else based e :: kept symbols' (base ++ [base_name e.1])
      else e :: kept symbols' base
  end.

(** A text of blanks only. *)
Fixpoint blanks (s : string) : bool :=
  match s with
  | EmptyString => true
  | String c s' => (QMeg.blank c && blanks s')%bool
  end.

(** A text that starts and ends with a character other than a blank. *)
Definition edged (s : string) : bool :=
  (match s with
   | String c _ => negb (QMeg.blank c)
   | EmptyString => false
   end
   && match last (String.list_ascii_of_string s) with
      | Some c => negb (QMeg.blank c)
      | None => false
      end)%bool.

(** The lines 'p = ' of the required symbols. *)
Definition required_lines (required : list (string * string)) : string :=
  String.concat "" ((fun pq => (pq.1 ++ QMeg.assign)%string) <$> required).

(** The nodes below a node, at every depth, in document order: each child
    is followed by the nodes below it. *)
Fixpoint descendants (n : Node) : list Node :=
  match n with
  | Element _ _ cs =>
      (fix go (l : list Node) : list Node :=
         match l with
         | [] => []
         | c :: l' => c :: descendants c ++ go l'
         end) cs
  | _ => []
  end.

(** [m] lies below [n]: it is a child of [n], or lies below a child of
    [n]. *)
Inductive below (m : Node) : Node -> Prop :=
| below_child (tag : string) (attrs : gmap string string) (cs : list Node) :
    m ∈ cs -> below m (Element tag attrs cs)
| below_deeper (tag : string) (attrs : gmap string string) (cs : list Node)
    (c : Node) :
    c ∈ cs -> below m c -> below m (Element tag attrs cs).

(** The test of [getElementsByTagName] on one node. *)
Definition tag_matches (name : string) (c : Node) : bool :=
  match c with
  | Element tag _ _ => (String.eqb name "*" || String.eqb tag name)%bool
  | _ => false
  end.

(** ** Sample documents *)

Module Samples.

Definition elt (tag : string) (attrs : list (string * string)) (cs : list Node) : Node :=
  Element tag (list_to_map attrs) cs.

(** [<!-- smgr --><studymanager/>] *)
Definition commented : Document :=
  [Comment " smgr "; elt "studymanager" [] []].

(** [<?studymanager ?><other/>] *)
Definition pi_first : Document :=
  [ProcessingInstruction "studymanager" ""; elt "other" [] []].

(** Two enabled cases with the same label, and a case turned off. *)
Definition case_1 : Node :=
  elt "case" [("label", "C"); ("status", "on"); ("run_id", "custom")]
    [ elt "notebook" [("args", "x=1")] [];
      elt "depends" [("args", "A/C/run1")] [];
      elt "notebook" [("args", "y=2")] [];
      elt "compare" [("repo", ""); ("dest", "")] [Comment "kept"];
      elt "remark" [] [Text "first"] ].

Definition case_2 : Node :=
  elt "case" [("label", "C"); ("status", "on"); ("tags", "fine");
              ("expected_time", "01:30")] [].

Definition case_3 : Node :=
  elt "case" [("label", "D"); ("status", "off")] [].

Definition study_A : Node :=
  elt "study" [("label", "A"); ("status", "on"); ("tags", "a, b ,c")]
    [ elt "study_keywords" [] [Text "laminar, 2D"];
      elt "study_keywords" [] [];
      case_1; case_2; case_3 ].

(** Two studies, the second one turned off. *)
Definition two_studies : Node :=
  elt "studymanager" []
    [ Text "
  ";
      study_A;
      elt "study" [("label", "B"); ("status", "off")] [] ].

(** A study whose tags and keywords have empty tokens. *)
Definition sparse_study : Node :=
  elt "study" [("label", "A"); ("status", "on"); ("tags", "a,,b")]
    [ elt "study_keywords" [] [Text "k1, ,k2,"] ].

(** Cases with the retired attribute 'compute'. *)
Definition computed_study : Node :=
  elt "study" [("label", "S"); ("status", "on"); ("tags", "coarse")]
    [ elt "case" [("label", "C1"); ("status", "on"); ("compute", "on")] [];
      elt "case" [("label", "C2"); ("status", "on"); ("compute", "off")] [];
      elt "case" [("label", "C3"); ("status", "off"); ("compute", "on")] [] ].

Definition computed : Node := elt "studymanager" [] [computed_study].

(** A case with a child element named like a key of its record, and a case
    with a child element that starts with an element. *)
Definition colliding : Node :=
  elt "studymanager" []
    [ elt "study" [("label", "S"); ("status", "on")]
        [ elt "case" [("label", "C"); ("status", "on")]
            [ elt "run_id" [] [Text "x"] ] ] ].

Definition nested : Node :=
  elt "studymanager" []
    [ elt "study" [("label", "S"); ("status", "on")]
        [ elt "case" [("label", "C"); ("status", "on")]
            [ elt "remark" [] [elt "b" [] []] ] ] ].

(** A study turned off in front of an enabled study with the same label. *)
Definition study_off : Node := elt "study" [("label", "A"); ("status", "off")] [].

Definition shadowed : Node := elt "studymanager" [] [study_off; study_A].

(** A repository with measurement files, and a joining of path components;
    the file 'exp.dat' lies in two directories of study 'M'. *)
Definition ends_with_slash (path : string) : bool :=
  match last (String.list_ascii_of_string path) with
  | Some c => Ascii.eqb c "/"
  | None => false
  end.

Fixpoint join_from (path : string) (ps : list string) : string :=
  match ps with
  | [] => path
  | b :: rest =>
      join_from
        (match b with
         | String "/" _ => b
         | _ => if (String.eqb path "" || ends_with_slash path)%bool
                then (path ++ b)%string else (path ++ "/" ++ b)%string
         end) rest
  end.

Definition join (parts : list string) : string :=
  match parts with
  | [] => ""
  | a :: ps => join_from a ps
  end.

Definition walk (top : string) : list (string * list string * list string) :=
  if String.eqb top "/repo/M" then
    [ ("/repo/M", ["POST"; "DATA"], ["README"]);
      ("/repo/M/POST", ["exp"], ["other.dat"]);
      ("/repo/M/POST/exp", [], ["exp.dat"; "ref.dat"]);
      ("/repo/M/DATA", [], ["exp.dat"]) ]
  else if String.eqb top "/repo/M/POST/exp" then
    [ ("/repo/M/POST/exp", [], ["exp.dat"; "ref.dat"]) ]
  else [].

Definition study_M : Node :=
  elt "study" [("label", "M"); ("status", "on")]
    [ elt "measurement" [("file", "exp.dat"); ("path", "")]
        [ elt "plot" [("fig", "1")] [] ];
      elt "measurement" [("file", "ref.dat"); ("path", "exp")] [];
      elt "measurement" [("file", "lost.dat"); ("path", "")] [];
      elt "case_description" [("label", "C1")]
        [ elt "item" [] [Text "V1"]; elt "item" [] [Text "V2"] ];
      elt "case" [("label", "C2"); ("status", "on"); ("tags", "a, b")] [];
      elt "case" [("label", "C1"); ("status", "off"); ("tags", "b, c")] [];
      elt "case" [("label", "C2"); ("status", "on"); ("tags", "c")] [];
      elt "case" [("label", "C3"); ("status", "on")] [] ].

Definition with_paths : Node :=
  elt "studymanager" []
    [ elt "repository" [] [Text "/repo"];
      elt "destination" [] [Text "/dest"];
      study_M ].

(** A case with child elements named like keys of its record. *)
Definition case_overwritten : Node :=
  elt "case" [("label", "C"); ("status", "on"); ("expected_time", "01:30")]
    [ elt "run_id" [] [Text "x"];
      elt "expected_time" [] [Text "soon"] ].

Definition study_overwritten : Node :=
  elt "study" [("label", "S"); ("status", "on")] [case_overwritten].

Definition overwritten : Node := elt "studymanager" [] [study_overwritten].

(** Expected times that are not of the form HH:MM. *)
Definition study_timings : Node :=
  elt "study" [("label", "T"); ("status", "on")]
    [ elt "case" [("label", "T1"); ("status", "on"); ("expected_time", "90")] [];
      elt "case" [("label", "T2"); ("status", "on"); ("expected_time", "1:30:45")] [];
      elt "case" [("label", "T3"); ("status", "on"); ("expected_time", "12:5")] [];
      elt "case" [("label", "T4"); ("status", "on"); ("expected_time", "01:30")] [] ].

Definition timings : Node := elt "studymanager" [] [study_timings].

(** A study with two post-processing scripts, the second one turned off. *)
Definition posted : Node :=
  elt "studymanager" []
    [ elt "study" [("label", "P"); ("status", "on")]
        [ elt "postpro" [("label", "plot.py"); ("status", "on"); ("args", "-v")]
            [ elt "data" [("file", "profile.dat")] [] ];
          elt "case" [("label", "C"); ("status", "on")] [];
          elt "postpro" [("label", "old.py"); ("status", "off")] [] ] ].

Definition parser_of (r : Node) : Parser := mkParser "smgr.xml" [r] r None None.

End Samples.

(** * Properties *)

Example strip_ex : PyStr.strip "  b " = "b".
Proof. reflexivity. Qed.

Example split_ex : PyStr.split "," "a, b ,c" = ["a"; " b "; "c"].
Proof. reflexivity. Qed.

Example split_empty_ex : PyStr.split "," "" = [""].
Proof. reflexivity. Qed.

Example slice_ex : PyStr.slice (Some 1) (Some (-1)) "(1.0,2.5)" = "1.0,2.5".
Proof. reflexivity. Qed.

Example int_ex : PyStr.int " +1_0 " = Some 10.
Proof. reflexivity. Qed.

Example int_separator_ex :
  PyStr.int (String "028" "1") = None /\ PyStr.strip (String "028" "1") = "1".
Proof. split; reflexivity. Qed.

Example str_ex : PyStr.str 12 = "12".
Proof. reflexivity. Qed.

Example labels_ex : getStudiesLabel (Samples.parser_of Samples.two_studies) = Return ["A"].
Proof. vm_compute. reflexivity. Qed.

(** ** The string primitives *)

Lemma split_nonempty (sep : ascii) (s : string) : PyStr.split sep s <> [].
Proof.
  induction s as [|c s IH]; simpl; [discriminate|].
  destruct (Ascii.eqb c sep); [discriminate|].
  destruct (PyStr.split sep s); discriminate.
Qed.

(** Joining the tokens of a split with the separator gives the text back. *)
Lemma join_split (sep : ascii) (s : string) :
  String.concat (String sep EmptyString) (PyStr.split sep s) = s.
Proof.
  induction s as [|c s IH]; [reflexivity|]. simpl.
  destruct (Ascii.eqb_spec c sep) as [->|Hne].
  - destruct (PyStr.split sep s) as [|tok toks] eqn:Hs; simpl in *.
    + destruct (split_nonempty sep s Hs).
    + rewrite IH. reflexivity.
  - destruct (PyStr.split sep s) as [|tok toks] eqn:Hs; simpl in *.
    + destruct (split_nonempty sep s Hs).
    + destruct toks; simpl in *; rewrite <- IH; reflexivity.
Qed.

(** No token of a split contains the separator. *)
Lemma split_no_separator (sep : ascii) (s : string) :
  Forall (fun tok => PyStr.find sep tok = -1) (PyStr.split sep s).
Proof.
  induction s as [|c s IH]; simpl.
  - constructor; [reflexivity|constructor].
  - destruct (Ascii.eqb_spec c sep) as [->|Hne].
    + constructor; [reflexivity|exact IH].
    + destruct (PyStr.split sep s) as [|tok toks].
      * constructor; [|constructor]. simpl.
        destruct (Ascii.eqb_spec c sep); [contradiction|reflexivity].
      * inversion IH as [|? ? Htok Htoks]; subst. constructor; [|exact Htoks].
        simpl. destruct (Ascii.eqb_spec c sep); [contradiction|].
        rewrite Htok. reflexivity.
Qed.

(** Stripping removes a blank prefix and a blank suffix, and nothing else. *)
Lemma lstrip_prefix (s : string) :
  exists a, s = (a ++ PyStr.lstrip s)%string /\ PyStr.lstrip a = EmptyString.
Proof.
  induction s as [|c s (a & Ha & Hb)]; [exists EmptyString; auto|]. simpl.
  destruct (PyStr.isspace c) eqn:Hc.
  - exists (String c a). split.
    + change (String c s = String c (a ++ PyStr.lstrip s)%string). f_equal. exact Ha.
    + simpl. rewrite Hc. exact Hb.
  - exists EmptyString. auto.
Qed.

Lemma rstrip_suffix (s : string) :
  exists b, s = (PyStr.rstrip s ++ b)%string /\ PyStr.lstrip b = EmptyString.
Proof.
  induction s as [|c s (b & Hb & Hblank)]; [exists EmptyString; auto|]. simpl.
  destruct (PyStr.rstrip s) as [|c' r] eqn:Hr.
  - change (s = b) in Hb. subst b. destruct (PyStr.isspace c) eqn:Hc.
    + exists (String c s). simpl. rewrite Hc. auto.
    + exists s. auto.
  - exists b. split; [|exact Hblank].
    change (String c s = String c (String c' r ++ b)%string). f_equal. exact Hb.
Qed.

Lemma strip_decompose (s : string) :
  exists a b,
    s = (a ++ PyStr.strip s ++ b)%string
    /\ PyStr.lstrip a = EmptyString /\ PyStr.lstrip b = EmptyString.
Proof.
  destruct (lstrip_prefix s) as (a & Ha & Hablank).
  destruct (rstrip_suffix (PyStr.lstrip s)) as (b & Hb & Hbblank).
  exists a, b. unfold PyStr.strip. rewrite <- Hb. auto.
Qed.

(** ** Attribute access *)

Lemma attr_attribute (n : Node) (k v : string) :
  attribute n k = Some v -> Dom.attr n k = Return v.
Proof. destruct n; simpl; try discriminate. intros ->. reflexivity. Qed.

Lemma attr_Return (n : Node) (k v : string) :
  Dom.attr n k = Return v -> attribute n k = Some v.
Proof.
  destruct n; simpl; try discriminate.
  destruct (attributes !! k); intros H; inversion H; reflexivity.
Qed.

Lemma attr_absent (n : Node) (k : string) :
  attribute n k = None -> succeeds (Dom.attr n k) = false.
Proof. destruct n; simpl; try reflexivity. intros ->. reflexivity. Qed.

Lemma getElementsByTagName_element (n : Node) (name : string) :
  Dom.is_element n = true ->
  Dom.getElementsByTagName n name = Return (Dom.elements_below name n).
Proof. destruct n; simpl; [reflexivity|discriminate..]. Qed.

Lemma is_on_true (n : Node) : is_on n = true <-> attribute n "status" = Some "on".
Proof. unfold is_on. apply bool_decide_eq_true. Qed.

Lemma is_on_false (n : Node) (v : string) :
  attribute n "status" = Some v -> v <> "on" -> is_on n = false.
Proof.
  intros H Hv. unfold is_on. apply bool_decide_eq_false. rewrite H. congruence.
Qed.

Lemma eqb_on (v : string) : String.eqb v "on" = bool_decide (v = "on").
Proof.
  destruct (String.eqb_spec v "on") as [->|Hne].
  - symmetry. apply bool_decide_eq_true. reflexivity.
  - symmetry. apply bool_decide_eq_false. exact Hne.
Qed.

(** ** The constructor *)

Section Constructor.

Variable minidom_parse : string -> option Document.

(** The check of the constructor is on the name of the first child node of
    the document. *)
Lemma Parser_init_first_child (f : string) (d : Document) (r : Node) :
  Dom.doc_firstChild d = Some r ->
  Parser_init minidom_parse f (Some d)
  = if String.eqb (Dom.nodeName r) "studymanager"
    then Return (mkParser f d r None None) else Exit 1.
Proof.
  intros H. unfold Parser_init. simpl. rewrite H.
  destruct (String.eqb (Dom.nodeName r) "studymanager"); reflexivity.
Qed.

(** When the document starts with its root element, the constructor accepts
    it exactly when the tag of that element is 'studymanager'. *)
Lemma Parser_init_root_first (f tag : string) attrs cs (rest : list Node) :
  let d := Element tag attrs cs :: rest in
  Dom.documentElement d = Some (Element tag attrs cs) /\
  (tag = "studymanager" ->
   Parser_init minidom_parse f (Some d)
   = Return (mkParser f d (Element tag attrs cs) None None)) /\
  (tag <> "studymanager" -> Parser_init minidom_parse f (Some d) = Exit 1).
Proof.
  intros d. split; [reflexivity|]. unfold d.
  split; intros Ht; rewrite (Parser_init_first_child f _ (Element tag attrs cs));
    try reflexivity; simpl.
  - subst tag. reflexivity.
  - destruct (String.eqb_spec tag "studymanager"); [contradiction|reflexivity].
Qed.

(** The constructor keeps the document as it is given or parsed, and
    [write] serialises that document. *)
Lemma Parser_init_doc (f : string) (d : Document) (self : Parser)
    (toxml : Document -> string) :
  Parser_init minidom_parse f (Some d) = Return self ->
  doc self = d /\ write toxml self = toxml d.
Proof.
  unfold Parser_init. simpl. destruct (Dom.doc_firstChild d) as [r|]; [|discriminate].
  destruct (negb (String.eqb (Dom.nodeName r) "studymanager")); [discriminate|].
  intros H. inversion H; subst self. auto.
Qed.

(** A file that cannot be parsed ends the process. *)
Lemma Parser_init_unparsable (f : string) :
  minidom_parse f = None -> Parser_init minidom_parse f None = Exit 1.
Proof. intros H. unfold Parser_init. rewrite H. reflexivity. Qed.

(** C2. The document [<!-- smgr --><studymanager/>] has the root element
    'studymanager', and the constructor rejects it with exit status 1: the
    first child of the document is the comment, whose node name is
    '#comment'. *)
Theorem Parser_init_leading_comment :
  Dom.documentElement Samples.commented = Some (Samples.elt "studymanager" [] []) /\
  Parser_init minidom_parse "smgr.xml" (Some Samples.commented) = Exit 1.
Proof. split; reflexivity. Qed.

(** A processing instruction named 'studymanager' in front of another root
    element passes the check. *)
Lemma Parser_init_leading_pi :
  succeeds (Parser_init minidom_parse "smgr.xml" (Some Samples.pi_first)) = true.
Proof. reflexivity. Qed.

End Constructor.

(** ** The study labels *)

Lemma enabled_labels_cons_on (n : Node) (nodes : list Node) :
  is_on n = true -> enabled_labels (n :: nodes) = label_of n :: enabled_labels nodes.
Proof. intros H. unfold enabled_labels. simpl. rewrite H. reflexivity. Qed.

Lemma enabled_labels_cons_off (n : Node) (nodes : list Node) :
  is_on n = false -> enabled_labels (n :: nodes) = enabled_labels nodes.
Proof. intros H. unfold enabled_labels. simpl. rewrite H. reflexivity. Qed.

Lemma elem_of_enabled_labels (x : string) (nodes : list Node) :
  Forall (has_attributes ["label"; "status"]) nodes ->
  x ∈ enabled_labels nodes <->
  exists n, n ∈ nodes /\ attribute n "status" = Some "on"
            /\ attribute n "label" = Some x.
Proof.
  intros Hwf. unfold enabled_labels. rewrite list_elem_of_fmap. split.
  - intros (n & -> & Hn). apply list_elem_of_In, filter_In in Hn as [Hin Hon].
    apply list_elem_of_In in Hin. exists n. split; [exact Hin|].
    split; [apply is_on_true, Hon|].
    rewrite Forall_forall in Hwf. specialize (Hwf n Hin).
    inversion Hwf as [|? ? [v Hv] _]; subst. unfold label_of. rewrite Hv. reflexivity.
  - intros (n & Hin & Hon & Hl). exists n. split.
    + unfold label_of. rewrite Hl. reflexivity.
    + apply list_elem_of_In, filter_In. split; [apply list_elem_of_In, Hin|].
      apply is_on_true, Hon.
Qed.

(** The loop appends the enabled labels to the accumulator until a label is
    met again. *)
Lemma getStudiesLabel_loop_spec (nodes : list Node) :
  Forall (has_attributes ["label"; "status"]) nodes ->
  forall labels : list string,
  getStudiesLabel_loop nodes labels
  = if decide (NoDup (labels ++ enabled_labels nodes))
    then Return (labels ++ enabled_labels nodes)
    else if decide (NoDup labels) then Exit 1
    else getStudiesLabel_loop nodes labels.
Proof.
  induction 1 as [|n nodes Hn Hwf IH]; intros labels.
  - simpl. rewrite app_nil_r. repeat case_decide; try reflexivity; try contradiction.
  - inversion Hn as [|? ? [lab Hlab] Hn']; subst.
    inversion Hn' as [|? ? [st Hst] _]; subst.
    case_decide as Hnd.
    + simpl. rewrite (attr_attribute _ _ _ Hlab), (attr_attribute _ _ _ Hst). simpl.
      rewrite eqb_on. case_bool_decide as Hon.
      * subst st. assert (Hon : is_on n = true) by (apply is_on_true, Hst).
        rewrite enabled_labels_cons_on in Hnd |- * by exact Hon.
        assert (label_of n = lab) as Hl by (unfold label_of; rewrite Hlab; reflexivity).
        rewrite Hl in *.
        assert (lab ∉ labels) as Hnin.
        { apply NoDup_app in Hnd as (_ & Hdisj & _). intros Hin.
          apply (Hdisj lab Hin). left. }
        rewrite bool_decide_eq_false_2 by exact Hnin. simpl.
        rewrite IH. rewrite <- app_assoc. simpl.
        rewrite decide_True by exact Hnd. reflexivity.
      * rewrite enabled_labels_cons_off in Hnd |- * by (eapply is_on_false; eauto).
        rewrite IH. rewrite decide_True by exact Hnd. reflexivity.
    + case_decide as Hl; [|reflexivity].
      simpl. rewrite (attr_attribute _ _ _ Hlab), (attr_attribute _ _ _ Hst). simpl.
      rewrite eqb_on. case_bool_decide as Hon.
      * subst st. assert (Hon : is_on n = true) by (apply is_on_true, Hst).
        rewrite enabled_labels_cons_on in Hnd by exact Hon.
        assert (label_of n = lab) as Hlo by (unfold label_of; rewrite Hlab; reflexivity).
        rewrite Hlo in *.
        case_bool_decide as Hin; simpl; [reflexivity|].
        rewrite IH. rewrite <- app_assoc. simpl.
        rewrite decide_False by exact Hnd.
        rewrite decide_True; [reflexivity|].
        apply NoDup_app. split; [exact Hl|]. split.
        -- intros x Hx Hx'. apply list_elem_of_singleton in Hx'. subst x. contradiction.
        -- apply NoDup_singleton.
      * rewrite enabled_labels_cons_off in Hnd by (eapply is_on_false; eauto).
        rewrite IH. rewrite decide_False by exact Hnd.
        rewrite decide_True by exact Hl. reflexivity.
Qed.

(** C3. When every study element carries a label and a status,
    [getStudiesLabel] returns the labels of the studies whose status is 'on',
    in document order and each once, and a study with another status
    contributes nothing; when two enabled studies share a label it ends the
    process with exit status 1 instead of returning. *)
Theorem getStudiesLabel_enabled (self : Parser) (studies : list Node) :
  Dom.getElementsByTagName (root self) "study" = Return studies ->
  Forall (has_attributes ["label"; "status"]) studies ->
  getStudiesLabel self
  = (if decide (NoDup (enabled_labels studies))
     then Return (enabled_labels studies) else Exit 1)
  /\ forall labels : list string,
       getStudiesLabel self = Return labels ->
       labels = label_of <$> List.filter is_on studies
       /\ NoDup labels
       /\ forall x, x ∈ labels <->
            exists n, n ∈ studies /\ attribute n "status" = Some "on"
                      /\ attribute n "label" = Some x.
Proof.
  intros Hst Hwf.
  assert (getStudiesLabel self
          = if decide (NoDup (enabled_labels studies))
            then Return (enabled_labels studies) else Exit 1) as Heq.
  { unfold getStudiesLabel. rewrite Hst. simpl.
    rewrite (getStudiesLabel_loop_spec _ Hwf). simpl.
    case_decide; reflexivity. }
  split; [exact Heq|].
  intros labels Hret. rewrite Heq in Hret.
  case_decide as Hnd; [|discriminate]. inversion Hret; subst labels.
  split; [reflexivity|]. split; [exact Hnd|].
  intros x. apply elem_of_enabled_labels, Hwf.
Qed.

Lemma getStudiesLabel_enabled_witness :
  getStudiesLabel (Samples.parser_of Samples.two_studies) = Return ["A"].
Proof.
  pose proof (getStudiesLabel_enabled (Samples.parser_of Samples.two_studies)
                (Dom.elements_below "study" Samples.two_studies)) as H.
  destruct H as [H _].
  - reflexivity.
  - repeat constructor; vm_compute; eauto.
  - rewrite H. vm_compute. reflexivity.
Defined.

(** ** The node of a study *)

(** The loop returns the first study labelled [l], provided it is enabled. *)
Lemma getStudyNode_loop_found (l : string) (before : list Node) (n : Node)
    (after : list Node) :
  Forall (fun m => exists lab, attribute m "label" = Some lab /\ lab <> l) before ->
  attribute n "label" = Some l ->
  attribute n "status" = Some "on" ->
  getStudyNode_loop l (before ++ n :: after) = Return (Some n).
Proof.
  intros Hb Hl Hs. induction Hb as [|m before (lab & Hlab & Hne) _ IH]; simpl.
  - rewrite (attr_attribute _ _ _ Hl), (attr_attribute _ _ _ Hs). simpl.
    rewrite String.eqb_refl. reflexivity.
  - rewrite (attr_attribute _ _ _ Hlab). simpl.
    destruct (String.eqb_spec lab l); [contradiction|]. exact IH.
Qed.

(** A matching study that is turned off raises [ValueError]. *)
Lemma getStudyNode_loop_off (l st : string) (before : list Node) (n : Node)
    (after : list Node) :
  Forall (fun m => exists lab, attribute m "label" = Some lab /\ lab <> l) before ->
  attribute n "label" = Some l ->
  attribute n "status" = Some st -> st <> "on" ->
  getStudyNode_loop l (before ++ n :: after) = Raise ValueError.
Proof.
  intros Hb Hl Hs Hoff. induction Hb as [|m before (lab & Hlab & Hne) _ IH]; simpl.
  - rewrite (attr_attribute _ _ _ Hl), (attr_attribute _ _ _ Hs). simpl.
    rewrite String.eqb_refl.
    destruct (String.eqb_spec st "on"); [contradiction|reflexivity].
  - rewrite (attr_attribute _ _ _ Hlab). simpl.
    destruct (String.eqb_spec lab l); [contradiction|]. exact IH.
Qed.

(** When no study is labelled [l], the loop ends without a node and without
    an error: the test [not n] in its body is on a node, which is true. *)
Lemma getStudyNode_loop_absent (l : string) (nodes : list Node) :
  Forall (fun m => exists lab, attribute m "label" = Some lab /\ lab <> l) nodes ->
  getStudyNode_loop l nodes = Return None.
Proof.
  induction 1 as [|m nodes (lab & Hlab & Hne) _ IH]; simpl; [reflexivity|].
  rewrite (attr_attribute _ _ _ Hlab). simpl.
  destruct (String.eqb_spec lab l); [contradiction|]. exact IH.
Qed.

(** A returned node is an element with the label asked for and status 'on'. *)
Lemma getStudyNode_loop_Some (l : string) (nodes : list Node) (n : Node) :
  getStudyNode_loop l nodes = Return (Some n) ->
  n ∈ nodes /\ attribute n "label" = Some l /\ attribute n "status" = Some "on".
Proof.
  induction nodes as [|m nodes IH]; simpl; [discriminate|].
  destruct (Dom.attr m "label") as [lab| |] eqn:Hlab; simpl; try discriminate.
  destruct (String.eqb_spec lab l) as [->|Hne].
  - destruct (Dom.attr m "status") as [st| |] eqn:Hst; simpl; try discriminate.
    destruct (String.eqb_spec st "on") as [->|Hoff]; simpl; [|discriminate].
    intros H. inversion H; subst m. split; [left|].
    split; apply attr_Return; assumption.
  - intros H. destruct (IH H) as (Hin & H1 & H2). split; [right; exact Hin|].
    split; assumption.
Qed.

(** C4. In the sample document, whose studies are labelled 'A' and 'B', the
    call [getStudyNode('Z')] returns [None]: it does not fail although no
    study is labelled 'Z'. *)
Theorem getStudyNode_absent_returns_None :
  getStudyNode (Samples.parser_of Samples.two_studies) "Z" = Return None.
Proof. vm_compute. reflexivity. Qed.

(** ** Tags and keywords of a study *)

Lemma rstrip_cons_nonspace (c : ascii) (s : string) :
  PyStr.isspace c = false -> PyStr.rstrip (String c s) = String c (PyStr.rstrip s).
Proof. intros H. simpl. rewrite H. destruct (PyStr.rstrip s); reflexivity. Qed.

Lemma rstrip_idempotent (s : string) :
  PyStr.rstrip (PyStr.rstrip s) = PyStr.rstrip s.
Proof.
  induction s as [|c s IH]; [reflexivity|]. simpl.
  destruct (PyStr.rstrip s) as [|c' r] eqn:Hr.
  - destruct (PyStr.isspace c) eqn:Hc; [reflexivity|]. simpl. rewrite Hc. reflexivity.
  - change (PyStr.rstrip (String c (String c' r)))
      with (match PyStr.rstrip (String c' r) with
            | EmptyString =>
                if PyStr.isspace c then EmptyString else String c EmptyString
            | q => String c q
            end).
    rewrite IH. reflexivity.
Qed.

Lemma lstrip_head (s : string) :
  PyStr.lstrip s = EmptyString
  \/ exists c r, PyStr.lstrip s = String c r /\ PyStr.isspace c = false.
Proof.
  induction s as [|c s IH]; [left; reflexivity|]. simpl.
  destruct (PyStr.isspace c) eqn:Hc; [exact IH|]. right. exists c, s. auto.
Qed.

Lemma strip_trimmed (s : string) : trimmed (PyStr.strip s).
Proof.
  unfold trimmed, PyStr.strip.
  destruct (lstrip_head s) as [->|(c & r & -> & Hc)]; [reflexivity|].
  rewrite (rstrip_cons_nonspace c r Hc). simpl PyStr.lstrip. rewrite Hc.
  rewrite (rstrip_cons_nonspace c _ Hc). rewrite rstrip_idempotent. reflexivity.
Qed.

Lemma split_tags_trimmed (text : string) : Forall trimmed (split_tags text).
Proof. unfold split_tags. apply Forall_fmap, Forall_true, strip_trimmed. Qed.

(** The keyword loop appends, node after node, the tokens of the texts it
    can read. *)
Lemma getStudyKeywords_loop_spec (nodes : list Node) (keywords : list string) :
  getStudyKeywords_loop nodes keywords
  = keywords ++ concat (split_tags <$> omap first_text nodes).
Proof.
  revert keywords. induction nodes as [|n nodes IH]; intros keywords; simpl.
  - rewrite app_nil_r. reflexivity.
  - unfold first_text at 1.
    destruct (Dom.data_of (Dom.firstChild n)) as [text| |]; simpl; rewrite IH;
      rewrite <- ?app_assoc; reflexivity.
Qed.

Lemma getStudyTags_on (studyNode : Node) :
  attribute studyNode "status" = Some "on" ->
  getStudyTags studyNode
  = Return (match attribute studyNode "tags" with
            | Some text => PyStr.strip <$> PyStr.split "," text
            | None => []
            end).
Proof.
  intros Hs. unfold getStudyTags. rewrite (attr_attribute _ _ _ Hs). simpl.
  destruct (attribute studyNode "tags") as [text|] eqn:Ht.
  - rewrite (attr_attribute _ _ _ Ht). reflexivity.
  - pose proof (attr_absent _ _ Ht) as Hf.
    destruct (Dom.attr studyNode "tags"); [discriminate| |]; reflexivity.
Qed.

Lemma getStudyKeywords_element (studyNode : Node) :
  Dom.is_element studyNode = true ->
  getStudyKeywords studyNode
  = Return (concat (split_tags
                      <$> omap first_text (Dom.elements_below "study_keywords" studyNode))).
Proof.
  intros He. destruct studyNode; try discriminate.
  unfold getStudyKeywords. simpl.
  rewrite getStudyKeywords_loop_spec. reflexivity.
Qed.

Lemma attribute_is_element (n : Node) (k v : string) :
  attribute n k = Some v -> Dom.is_element n = true.
Proof. destruct n; simpl; [reflexivity|discriminate..]. Qed.

(** C5 (as the code has it). For an enabled study node, [getStudyTags]
    splits the 'tags' attribute at the commas and [getStudyKeywords] the text
    of each 'study_keywords' node, and both return every token, empty ones
    included, trimmed and in the original order; tags="a, b ,c" gives
    ["a"; "b"; "c"], and a study without the attribute or without keyword
    nodes gives the empty list, with no error. *)
Theorem study_tags_and_keywords (studyNode : Node) :
  attribute studyNode "status" = Some "on" ->
  getStudyTags studyNode
  = Return (match attribute studyNode "tags" with
            | Some text => PyStr.strip <$> PyStr.split "," text
            | None => []
            end)
  /\ getStudyKeywords studyNode
     = Return (concat ((fun text => PyStr.strip <$> PyStr.split "," text)
                         <$> omap first_text
                               (Dom.elements_below "study_keywords" studyNode)))
  /\ (forall toks,
        getStudyTags studyNode = Return toks \/ getStudyKeywords studyNode = Return toks ->
        Forall trimmed toks)
  /\ (attribute studyNode "tags" = Some "a, b ,c" ->
      getStudyTags studyNode = Return ["a"; "b"; "c"])
  /\ (attribute studyNode "tags" = None -> getStudyTags studyNode = Return [])
  /\ (Dom.elements_below "study_keywords" studyNode = [] ->
      getStudyKeywords studyNode = Return []).
Proof.
  intros Hs.
  pose proof (getStudyTags_on _ Hs) as Ht.
  pose proof (getStudyKeywords_element _ (attribute_is_element _ _ _ Hs)) as Hk.
  split; [exact Ht|]. split; [exact Hk|]. split; [|split; [|split]].
  - intros toks [H|H].
    + rewrite Ht in H. inversion H; subst toks.
      destruct (attribute studyNode "tags"); [apply split_tags_trimmed|constructor].
    + rewrite Hk in H. inversion H; subst toks.
      apply Forall_concat, Forall_fmap, Forall_true. intros text.
      apply split_tags_trimmed.
  - intros Ha. rewrite Ht, Ha. reflexivity.
  - intros Ha. rewrite Ht, Ha. reflexivity.
  - intros He. rewrite Hk, He. reflexivity.
Qed.

Lemma study_tags_and_keywords_witness :
  getStudyTags Samples.sparse_study = Return ["a"; ""; "b"]
  /\ getStudyKeywords Samples.sparse_study = Return ["k1"; ""; "k2"; ""].
Proof.
  destruct (study_tags_and_keywords Samples.sparse_study) as (Ht & Hk & _).
  - reflexivity.
  - split; [rewrite Ht|rewrite Hk]; reflexivity.
Defined.

(** C5, the claim as stated fails: the tags "a,,b" and the keywords
    "k1, ,k2," of an enabled study come back with their empty tokens. *)
Lemma empty_tokens_are_kept :
  (exists toks, getStudyTags Samples.sparse_study = Return toks /\ "" ∈ toks)
  /\ (exists toks, getStudyKeywords Samples.sparse_study = Return toks /\ "" ∈ toks).
Proof.
  split.
  - exists ["a"; ""; "b"]. split; [reflexivity|]. right. left.
  - exists ["k1"; ""; "k2"; ""]. split; [reflexivity|]. right. left.
Qed.

(** ** The labels of the enabled cases *)

Lemma removelast_snoc {A : Type} (l : list A) (x : A) : removelast (l ++ [x]) = l.
Proof. apply removelast_last. Qed.

Lemma getStatusOnCasesLabels_loop_spec (attr : option string) (nodes : list Node) :
  Forall case_labelled nodes ->
  forall labels : list string,
  getStatusOnCasesLabels_loop attr nodes labels
  = if forallb (carries attr) nodes
    then Return (labels ++ (label_of <$> List.filter (case_selected attr) nodes))
    else Raise KeyError.
Proof.
  induction 1 as [|n nodes [[st Hst] Hlab] _ IH]; intros labels.
  - simpl. rewrite app_nil_r. reflexivity.
  - simpl. rewrite (attr_attribute _ _ _ Hst). simpl. rewrite eqb_on.
    unfold carries at 1, case_selected at 1.
    case_bool_decide as Hon.
    + subst st. assert (Hn : is_on n = true) by (apply is_on_true, Hst).
      rewrite Hn. simpl. destruct (Hlab Hn) as [lab Hl].
      rewrite (attr_attribute _ _ _ Hl). simpl.
      assert (label_of n = lab) as Hlo by (unfold label_of; rewrite Hl; reflexivity).
      destruct (supplied attr) as [a|].
      * destruct (attribute n a) as [v|] eqn:Ha.
        -- rewrite (attr_attribute _ _ _ Ha). simpl.
           rewrite eqb_on. case_bool_decide as Hv.
           ++ subst v. rewrite bool_decide_eq_true_2 by reflexivity. simpl.
              rewrite IH. destruct (forallb (carries attr) nodes); [|reflexivity].
              rewrite Hlo, <- app_assoc. reflexivity.
           ++ rewrite bool_decide_eq_false_2 by congruence. simpl.
              rewrite removelast_snoc. apply IH.
        -- simpl.
           pose proof (attr_absent _ _ Ha) as Hf.
           destruct n; simpl in *; try discriminate. rewrite Ha. reflexivity.
      * simpl. rewrite IH. destruct (forallb (carries attr) nodes); [|reflexivity].
        rewrite Hlo, <- app_assoc. reflexivity.
    + rewrite (is_on_false _ _ Hst Hon). simpl. apply IH.
Qed.

(** C9 (as the code has it). For a study found by [getStudyNode], whose
    cases all have a status and, when enabled, a label:
    [getStatusOnCasesLabels] returns in document order the labels of the
    cases whose status is 'on' and, when a non-empty attribute name is
    supplied, whose attribute of that name is 'on' too, provided every
    enabled case carries that attribute; an enabled case without it makes
    the call raise [KeyError]. *)
Theorem getStatusOnCasesLabels_selected (self : Parser) (l : string)
    (attr : option string) (study : Node) :
  getStudyNode self l = Return (Some study) ->
  Forall case_labelled (Dom.elements_below "case" study) ->
  getStatusOnCasesLabels self l attr
  = if forallb (carries attr) (Dom.elements_below "case" study)
    then Return (label_of
                   <$> List.filter (case_selected attr) (Dom.elements_below "case" study))
    else Raise KeyError.
Proof.
  intros Hs Hwf. unfold getStatusOnCasesLabels. rewrite Hs. simpl.
  assert (Dom.is_element study = true) as He.
  { unfold getStudyNode in Hs.
    destruct (Dom.getElementsByTagName (root self) "study") as [nodes| |];
      simpl in Hs; try discriminate.
    apply getStudyNode_loop_Some in Hs as (_ & Hl & _).
    eapply attribute_is_element, Hl. }
  destruct study; try discriminate. simpl Dom.getElementsByTagName.
  change (getStatusOnCasesLabels_loop attr
            (Dom.elements_below "case" (Element tagName attributes childNodes)) []
          = if forallb (carries attr)
                 (Dom.elements_below "case" (Element tagName attributes childNodes))
            then Return (label_of
                   <$> List.filter (case_selected attr)
                         (Dom.elements_below "case" (Element tagName attributes childNodes)))
            else Raise KeyError).
  rewrite (getStatusOnCasesLabels_loop_spec attr _ Hwf). reflexivity.
Qed.

Lemma getStatusOnCasesLabels_selected_witness :
  getStatusOnCasesLabels (Samples.parser_of Samples.computed) "S" (Some "compute")
  = Return ["C1"]
  /\ getStatusOnCasesLabels (Samples.parser_of Samples.computed) "S" None
     = Return ["C1"; "C2"].
Proof.
  split.
  - rewrite (getStatusOnCasesLabels_selected (Samples.parser_of Samples.computed) "S"
               (Some "compute") Samples.computed_study).
    + vm_compute. reflexivity.
    + vm_compute. reflexivity.
    + repeat constructor; vm_compute; eauto.
  - rewrite (getStatusOnCasesLabels_selected (Samples.parser_of Samples.computed) "S"
               None Samples.computed_study).
    + vm_compute. reflexivity.
    + vm_compute. reflexivity.
    + repeat constructor; vm_compute; eauto.
Defined.

(** C9, the claim as stated fails: with the attribute name 'tags' supplied,
    the first enabled case of study 'A', which has no such attribute, is not
    left out of a returned list; the call raises [KeyError]. *)
Lemma getStatusOnCasesLabels_missing_attribute :
  getStudyNode (Samples.parser_of Samples.two_studies) "A"
  = Return (Some Samples.study_A)
  /\ is_on Samples.case_1 = true
  /\ attribute Samples.case_1 "tags" = None
  /\ getStatusOnCasesLabels (Samples.parser_of Samples.two_studies) "A" None
     = Return ["C"; "C"]
  /\ getStatusOnCasesLabels (Samples.parser_of Samples.two_studies) "A" (Some "tags")
     = Raise KeyError.
Proof. repeat split; vm_compute; reflexivity. Qed.

(** ** Regular cases *)

Lemma child_regular_b_sound (n : Node) : child_regular_b n = true -> child_regular n.
Proof.
  destruct n as [tag attrs [|c cs]| | | | |]; simpl; try (intros; exact I).
  intros H. apply orb_true_iff in H as [H|H]; [left; exact H|right].
  apply andb_true_iff in H as [Hd Hk]. split; [exact Hd|].
  unfold mem in Hk. apply negb_true_iff, bool_decide_eq_false in Hk. exact Hk.
Qed.

Lemma case_labelled_b_sound (n : Node) : case_labelled_b n = true -> case_labelled n.
Proof.
  unfold case_labelled_b, case_labelled. intros H.
  apply andb_true_iff in H as [Hs Hl]. apply bool_decide_eq_true in Hs.
  split; [exact Hs|]. intros Hon. rewrite Hon in Hl. simpl in Hl.
  apply bool_decide_eq_true in Hl. exact Hl.
Qed.

Lemma case_regular_b_sound (n : Node) : case_regular_b n = true -> case_regular n.
Proof.
  unfold case_regular_b, case_regular. intros H.
  apply andb_true_iff in H as [Hl Hc]. split; [apply case_labelled_b_sound, Hl|].
  intros Hon. rewrite Hon in Hc. simpl in Hc.
  apply Forall_forall. intros c Hin. apply child_regular_b_sound.
  rewrite forallb_forall in Hc. apply Hc, list_elem_of_In, Hin.
Qed.

Lemma Forall_checked {A : Type} (P : A -> Prop) (f : A -> bool) (xs : list A) :
  (forall x, f x = true -> P x) -> forallb f xs = true -> Forall P xs.
Proof.
  intros Hf H. apply Forall_forall. intros x Hin. apply Hf.
  rewrite forallb_forall in H. apply H, list_elem_of_In, Hin.
Qed.

(** ** The records of the enabled cases *)

Lemma flags_ok_insert (d : gmap string value) (k : string) (s : string) :
  flags_ok d -> flags_ok (<[k := VStr s]> d).
Proof.
  intros H k' Hk'. destruct (decide (k = k')) as [->|Hne].
  - right. exists s. apply lookup_insert_eq.
  - rewrite lookup_insert_ne by exact Hne. apply H, Hk'.
Qed.

Lemma filter_key_not_record_key (k : string) :
  k ∈ setup_filter_keys -> k ∉ record_keys.
Proof.
  unfold setup_filter_keys, record_keys. rewrite !elem_of_cons, elem_of_nil.
  intros [->|[->|[->|[]]]] H; repeat destruct H as [H|H]; try discriminate; exact H.
Qed.

Lemma insert_keeps_record_keys (d : gmap string value) (tag : string) (v : value) :
  tag ∉ record_keys ->
  forall k, k ∈ record_keys -> <[tag := v]> d !! k = d !! k.
Proof.
  intros Ht k Hk. apply lookup_insert_ne. intros ->. contradiction.
Qed.

(** On regular children the loop ends normally and leaves the keys set from
    the attributes as they are. *)
Lemma case_children_loop_regular (children : list Node) :
  Forall child_regular children ->
  forall d : gmap string value, flags_ok d ->
  exists d', case_children_loop children d = Return d'
             /\ forall k, k ∈ record_keys -> d' !! k = d !! k.
Proof.
  induction 1 as [|n children Hn _ IH]; intros d Hd.
  - exists d. split; [reflexivity|]. reflexivity.
  - destruct n as [tag attrs cs| | | | |]; simpl; try (apply IH; exact Hd).
    destruct cs as [|c cs]; simpl.
    + unfold mem. case_bool_decide as Hflag; [|apply IH; exact Hd].
      destruct (Hd tag Hflag) as [Hv|[s Hv]]; rewrite Hv; simpl.
      * destruct (IH _ (flags_ok_insert d tag (default "" (attrs !! "args")) Hd))
          as (d' & Hrun & Hkeep).
        exists d'. split; [exact Hrun|]. intros k Hk. rewrite (Hkeep k Hk).
        apply insert_keeps_record_keys; [apply filter_key_not_record_key|]; assumption.
      * destruct (negb (negb (String.eqb s ""))).
        -- destruct (IH _ (flags_ok_insert d tag (default "" (attrs !! "args")) Hd))
             as (d' & Hrun & Hkeep).
           exists d'. split; [exact Hrun|]. intros k Hk. rewrite (Hkeep k Hk).
           apply insert_keeps_record_keys; [apply filter_key_not_record_key|]; assumption.
        -- destruct (IH _ (flags_ok_insert d tag
                             (s ++ " " ++ default "" (attrs !! "args"))%string Hd))
             as (d' & Hrun & Hkeep).
           exists d'. split; [exact Hrun|]. intros k Hk. rewrite (Hkeep k Hk).
           apply insert_keeps_record_keys; [apply filter_key_not_record_key|]; assumption.
    + simpl in Hn. unfold mem in *.
      case_bool_decide as Hstruct; simpl; [apply IH; exact Hd|].
      destruct Hn as [Hn|[Hdata Hkey]].
      { discriminate. }
      destruct (Dom.data c) as [text| |] eqn:Hc; try discriminate. simpl.
      destruct (IH _ (flags_ok_insert d tag text Hd)) as (d' & Hrun & Hkeep).
      exists d'. split; [exact Hrun|]. intros k Hk. rewrite (Hkeep k Hk).
      apply insert_keeps_record_keys; assumption.
Qed.

Lemma case_fields_flags_ok (node : Node) (label : string) (list_case : gmap string Z)
    (tags : list string) :
  flags_ok (case_fields node label list_case tags).
Proof.
  intros k. unfold setup_filter_keys. rewrite !elem_of_cons, elem_of_nil.
  intros [->|[->|[->|[]]]]; left; reflexivity.
Qed.

Lemma label_count_snoc (processed : list Node) (n : Node) (lab : string) :
  label_count (processed ++ [n]) lab
  = label_count processed lab + (if bool_decide (label_of n = lab) then 1 else 0).
Proof.
  unfold label_count. rewrite List.filter_app, length_app. simpl.
  destruct (bool_decide (label_of n = lab)); simpl; lia.
Qed.

Lemma counts_empty : counts ∅ [].
Proof. intros lab. rewrite lookup_empty. reflexivity. Qed.

Lemma counts_count_label (list_case : gmap string Z) (processed : list Node)
    (n : Node) :
  counts list_case processed ->
  counts (count_label list_case (label_of n)) (processed ++ [n]).
Proof.
  intros H lab. rewrite label_count_snoc, <- (H lab). unfold count_label.
  case_bool_decide as Hl.
  - subst lab. destruct (list_case !! label_of n) as [c|];
      rewrite lookup_insert_eq; simpl; lia.
  - destruct (list_case !! label_of n) as [c|];
      rewrite lookup_insert_ne by exact Hl; lia.
Qed.

Lemma run_id_value_assigned (n : Node) (list_case : gmap string Z) (upto : list Node) :
  counts list_case upto ->
  run_id_value n list_case (label_of n) = assigned_run_id upto n.
Proof.
  intros H. unfold run_id_value, assigned_run_id, generated_run_id.
  rewrite (H (label_of n)).
  destruct (attribute n "run_id") as [v|] eqn:Hv.
  - rewrite (attr_attribute _ _ _ Hv). destruct v; reflexivity.
  - pose proof (attr_absent _ _ Hv). destruct (Dom.attr n "run_id");
      [discriminate|reflexivity..].
Qed.

Section Records.

Variable self : Parser.
Variable l : string.
Variable study : Node.
Hypothesis study_found : getStudyNode self l = Return (Some study).

Lemma study_enabled : attribute study "status" = Some "on".
Proof.
  pose proof study_found as Hs. unfold getStudyNode in Hs.
  destruct (Dom.getElementsByTagName (root self) "study") as [nodes| |];
    simpl in Hs; try discriminate.
  apply getStudyNode_loop_Some in Hs as (_ & _ & Hon). exact Hon.
Qed.

Lemma study_tags_read : getStudyTags study = Return (study_tags study).
Proof. rewrite (getStudyTags_on _ study_enabled). reflexivity. Qed.

(** One step of the loop over the cases. *)
Lemma case_step_spec (st : cases_state) (processed : list Node) (node : Node) :
  case_regular node ->
  counts (st_list_case st) processed ->
  if is_on node
  then exists d,
         case_step self l st node
         = Return (mkState (st_data st ++ [d])
                     (count_label (st_list_case st) (label_of node))
                     (deprecated_check node (st_deprecated_option st)))
         /\ record_of (study_tags study) (processed ++ [node]) node d
  else case_step self l st node = Return st.
Proof.
  intros [[[stv Hst] Hlab] Hch] Hc. unfold case_step.
  rewrite (attr_attribute _ _ _ Hst). simpl. rewrite eqb_on.
  destruct (is_on node) eqn:Hon.
  - apply is_on_true in Hon as Hon'. rewrite Hst in Hon'. inversion Hon'; subst stv.
    rewrite bool_decide_eq_true_2 by reflexivity.
    destruct (Hlab eq_refl) as [lab Hl].
    assert (label_of node = lab) as Hlo by (unfold label_of; rewrite Hl; reflexivity).
    rewrite (attr_attribute _ _ _ Hl). simpl.
    rewrite study_found. simpl. rewrite study_tags_read. simpl.
    destruct (case_children_loop_regular _ (Hch eq_refl) _
                (case_fields_flags_ok node lab (count_label (st_list_case st) lab)
                   (case_tags node ++ study_tags study)))
      as (d & Hrun & Hkeep).
    exists d. rewrite Hrun. simpl. rewrite Hlo. split; [reflexivity|].
    pose proof (run_id_value_assigned node _ _ (counts_count_label _ _ node Hc)) as Hr.
    rewrite Hlo in Hr.
    unfold record_of.
    rewrite !Hkeep by (unfold record_keys; rewrite !elem_of_cons; tauto).
    rewrite <- Hr, Hlo. repeat split.
  - rewrite bool_decide_eq_false_2; [reflexivity|].
    intros ->. apply is_on_true in Hst. congruence.
Qed.

(** The loop over the cases, from any state reached after the enabled cases
    [processed]. *)
Lemma cases_loop_spec (nodes : list Node) :
  Forall case_regular nodes ->
  forall (st : cases_state) (processed : list Node),
  counts (st_list_case st) processed ->
  exists st' ds,
    cases_loop self l nodes st = Return st'
    /\ st_data st' = st_data st ++ ds
    /\ records_match (study_tags study) processed (List.filter is_on nodes) ds.
Proof.
  induction 1 as [|node nodes Hn _ IH]; intros st processed Hc.
  - exists st, []. simpl. rewrite app_nil_r. auto.
  - pose proof (case_step_spec st processed node Hn Hc) as Hstep.
    simpl. destruct (is_on node) eqn:Hon.
    + destruct Hstep as (d & Hstep & Hrec). rewrite Hstep. simpl.
      destruct (IH (mkState (st_data st ++ [d])
                      (count_label (st_list_case st) (label_of node))
                      (deprecated_check node (st_deprecated_option st)))
                  (processed ++ [node]) (counts_count_label _ _ node Hc))
        as (st' & ds & Hrun & Hdata & Hmatch).
      exists st', (d :: ds). split; [exact Hrun|]. split.
      * rewrite Hdata. simpl. rewrite <- app_assoc. reflexivity.
      * simpl. auto.
    + rewrite Hstep. simpl. apply IH, Hc.
Qed.

(** The call returns one record for each enabled case, in document order. *)
Lemma getStatusOnCasesKeywords_records :
  Forall case_regular (Dom.elements_below "case" study) ->
  exists data,
    getStatusOnCasesKeywords self l = Return data
    /\ records_match (study_tags study) []
         (List.filter is_on (Dom.elements_below "case" study)) data.
Proof.
  intros Hwf. unfold getStatusOnCasesKeywords. rewrite study_found. simpl.
  rewrite (getElementsByTagName_element _ "case"
             (attribute_is_element _ _ _ study_enabled)). simpl.
  destruct (cases_loop_spec _ Hwf (mkState [] ∅ false) [] counts_empty)
    as (st' & ds & Hrun & Hdata & Hmatch).
  exists ds. simpl in Hdata. subst ds. split; [|exact Hmatch].
  rewrite Hrun. reflexivity.
Qed.

End Records.

(** Outside the regular cases: a child element named 'run_id' overwrites the
    run_id of the record, and a child element that starts with an element
    makes the call raise [AttributeError]. *)
Example child_named_like_key :
  exists d,
    getStatusOnCasesKeywords (Samples.parser_of Samples.colliding) "S" = Return [d]
    /\ d !! "run_id" = Some (VStr "x").
Proof. eexists. split; vm_compute; reflexivity. Qed.

Example child_without_data :
  getStatusOnCasesKeywords (Samples.parser_of Samples.nested) "S"
  = Raise AttributeError.
Proof. vm_compute. reflexivity. Qed.

Lemma records_match_length (stags : list string) (ns : list Node) :
  forall processed ds, records_match stags processed ns ds -> length ds = length ns.
Proof.
  induction ns as [|n ns IH]; intros processed [|d ds]; simpl; try tauto.
  intros [_ H]. f_equal. eapply IH, H.
Qed.

Lemma records_match_lookup (stags : list string) (ns : list Node) :
  forall processed ds (i : nat) (n : Node),
  records_match stags processed ns ds ->
  ns !! i = Some n ->
  exists d, ds !! i = Some d
            /\ record_of stags (processed ++ take (S i) ns) n d.
Proof.
  induction ns as [|m ns IH]; intros processed [|d ds] i n; simpl; try tauto;
    try discriminate.
  intros [Hrec Hrest] Hi. destruct i as [|i]; simpl in *.
  - inversion Hi; subst m. exists d. split; [reflexivity|].
    rewrite take_0. exact Hrec.
  - destruct (IH _ _ _ _ Hrest Hi) as (d' & Hd' & Hrec').
    exists d'. split; [exact Hd'|].
    rewrite <- app_assoc in Hrec'. exact Hrec'.
Qed.

(** ** The expected time *)

Lemma digit_facts (c : ascii) :
  PyStr.is_digit c = true ->
  PyStr.isspace c = false /\ Ascii.eqb c ":" = false /\ Ascii.eqb c "-" = false
  /\ Ascii.eqb c "+" = false /\ Ascii.eqb c "_" = false.
Proof.
  destruct c as [[] [] [] [] [] [] [] []]; intros H;
    solve [discriminate H | repeat split; reflexivity].
Qed.

Lemma digit_not_int_space (c : ascii) :
  PyStr.is_digit c = true -> PyStr.int_space c = false.
Proof.
  destruct c as [[] [] [] [] [] [] [] []]; intros H;
    solve [discriminate H | reflexivity].
Qed.

Lemma int_rstrip_cons_nonspace (c : ascii) (s : string) :
  PyStr.int_space c = false ->
  PyStr.int_rstrip (String c s) = String c (PyStr.int_rstrip s).
Proof. intros H. simpl. rewrite H. destruct (PyStr.int_rstrip s); reflexivity. Qed.

Lemma int_two_digits (c1 c2 : ascii) :
  PyStr.is_digit c1 = true -> PyStr.is_digit c2 = true ->
  PyStr.int (String c1 (String c2 EmptyString))
  = Some (10 * PyStr.digit_val c1 + PyStr.digit_val c2).
Proof.
  intros H1 H2.
  destruct (digit_facts c1 H1) as (_ & _ & Hm1 & Hp1 & _).
  pose proof (digit_not_int_space c1 H1) as Hs1.
  pose proof (digit_not_int_space c2 H2) as Hs2.
  unfold PyStr.int. cbn [PyStr.int_lstrip]. rewrite Hs1.
  rewrite (int_rstrip_cons_nonspace c1 _ Hs1), (int_rstrip_cons_nonspace c2 _ Hs2).
  cbn [PyStr.int_rstrip PyStr.digit_count]. rewrite H1, H2, Hm1, Hp1.
  cbn [PyStr.int_digits]. rewrite H1, H2.
  replace (10 * 0 + PyStr.digit_val c1) with (PyStr.digit_val c1) by lia. reflexivity.
Qed.

(** The text HH:MM, two digits on each side of the colon, is read as
    60 * HH + MM. *)
Lemma minutes_HHMM (h1 h2 m1 m2 : ascii) :
  PyStr.is_digit h1 = true -> PyStr.is_digit h2 = true ->
  PyStr.is_digit m1 = true -> PyStr.is_digit m2 = true ->
  minutes (String h1 (String h2 (String ":" (String m1 (String m2 EmptyString)))))
  = Some (60 * (10 * PyStr.digit_val h1 + PyStr.digit_val h2)
          + (10 * PyStr.digit_val m1 + PyStr.digit_val m2)).
Proof.
  intros Hh1 Hh2 Hm1 Hm2. unfold minutes.
  destruct (digit_facts h1 Hh1) as (_ & Hc1 & _).
  destruct (digit_facts h2 Hh2) as (_ & Hc2 & _).
  assert (PyStr.find ":" (String h1 (String h2 (String ":" (String m1 (String m2 EmptyString)))))
          = 2) as ->.
  { simpl. rewrite Hc1, Hc2. reflexivity. }
  change (PyStr.slice None (Some 2)
            (String h1 (String h2 (String ":" (String m1 (String m2 EmptyString))))))
    with (String h1 (String h2 EmptyString)).
  change (PyStr.slice (Some (-2)) None
            (String h1 (String h2 (String ":" (String m1 (String m2 EmptyString))))))
    with (String m1 (String m2 EmptyString)).
  rewrite (int_two_digits h1 h2 Hh1 Hh2), (int_two_digits m1 m2 Hm1 Hm2). simpl.
  apply (f_equal Some). lia.
Qed.

Example minutes_0130 : minutes "01:30" = Some 90.
Proof. reflexivity. Qed.

(** ** The run_id and the tags of a record *)

Lemma case_tags_tokens (n : Node) : case_tags n = tokens (attribute n "tags").
Proof.
  unfold case_tags, tokens. destruct (attribute n "tags") as [t|] eqn:Ht.
  - rewrite (attr_attribute _ _ _ Ht). reflexivity.
  - pose proof (attr_absent _ _ Ht). destruct (Dom.attr n "tags");
      [discriminate|reflexivity..].
Qed.

Lemma study_tags_tokens (study : Node) :
  study_tags study = tokens (attribute study "tags").
Proof. reflexivity. Qed.

Lemma tags_value_cases (tags : list string) :
  tags_value tags = match tags with [] => VNone | _ :: _ => VList tags end.
Proof. destruct tags; reflexivity. Qed.

(** C6. For a study found by [getStudyNode] whose cases are regular (every
    case element has a status, every enabled one a label, and every child
    element with content of an enabled case is one of compare, prepro,
    script, data, depends, or starts with character data and is not named
    like a key of the record), the call returns one record for each enabled
    case, in document order. The run_id of a record is the run_id attribute
    of its case when that is there and not empty, and otherwise "run"
    followed by the number of enabled cases with the same label met so far in
    the study, this one included. Its tags are the tokens of the tags
    attribute of the case followed by those of the tags attribute of the
    study, repetitions kept, and [None] when there is no token at all. For
    two enabled cases with the same label, the first with run_id 'custom' and
    the second with none, the run_ids are 'custom' and 'run2'. *)
Theorem case_records_run_id_and_tags (self : Parser) (l : string) (study : Node) :
  getStudyNode self l = Return (Some study) ->
  Forall case_regular (Dom.elements_below "case" study) ->
  let enabled := List.filter is_on (Dom.elements_below "case" study) in
  let tags_for_case n :=
    tokens (attribute n "tags") ++ tokens (attribute study "tags") in
  exists data,
    getStatusOnCasesKeywords self l = Return data
    /\ getStudyTags study = Return (tokens (attribute study "tags"))
    /\ length data = length enabled
    /\ (forall (i : nat) (n : Node),
          enabled !! i = Some n ->
          exists d,
            data !! i = Some d
            /\ d !! "node" = Some (VNode n)
            /\ (forall v, attribute n "run_id" = Some v -> v <> "" ->
                 d !! "run_id" = Some (VStr v))
            /\ (attribute n "run_id" = None \/ attribute n "run_id" = Some "" ->
                 d !! "run_id"
                 = Some (VStr ("run" ++ PyStr.str
                                         (label_count (take (S i) enabled) (label_of n)))))
            /\ d !! "tags" = Some (match tags_for_case n with
                                   | [] => VNone
                                   | _ :: _ => VList (tags_for_case n)
                                   end)
            /\ tags_of d = tags_for_case n)
    /\ (forall n1 n2 : Node,
          enabled = [n1; n2] -> label_of n1 = label_of n2 ->
          attribute n1 "run_id" = Some "custom" -> attribute n2 "run_id" = None ->
          exists d1 d2,
            data = [d1; d2]
            /\ d1 !! "run_id" = Some (VStr "custom")
            /\ d2 !! "run_id" = Some (VStr "run2")
            /\ tags_of d1 = tags_for_case n1
            /\ tags_of d2 = tags_for_case n2).
Proof.
  intros Hs Hwf enabled tags_for_case.
  destruct (getStatusOnCasesKeywords_records self l study Hs Hwf) as (data & Hret & Hm).
  fold enabled in Hm. exists data.
  split; [exact Hret|].
  split; [rewrite <- study_tags_tokens; apply (study_tags_read self l study Hs)|].
  split; [eapply records_match_length, Hm|].
  assert (forall n d, d !! "tags" = Some (tags_value (case_tags n ++ study_tags study)) ->
          d !! "tags" = Some (match tags_for_case n with
                              | [] => VNone
                              | _ :: _ => VList (tags_for_case n)
                              end)
          /\ tags_of d = tags_for_case n) as Htags.
  { intros n d Ht. rewrite case_tags_tokens, study_tags_tokens, tags_value_cases in Ht.
    fold (tags_for_case n) in Ht. split; [exact Ht|].
    unfold tags_of. rewrite Ht. destruct (tags_for_case n); reflexivity. }
  assert (forall (i : nat) (n : Node), enabled !! i = Some n ->
          exists d, data !! i = Some d
                    /\ record_of (study_tags study) (take (S i) enabled) n d) as Hidx.
  { intros i n Hi. apply (records_match_lookup _ _ _ _ _ _ Hm Hi). }
  split.
  - intros i n Hi. destruct (Hidx i n Hi) as (d & Hd & Hn & _ & Hr & _ & Ht & _).
    exists d. split; [exact Hd|]. split; [exact Hn|]. split; [|split].
    + intros v Hv Hne. rewrite Hr. unfold assigned_run_id. rewrite Hv.
      destruct v; [contradiction|reflexivity].
    + intros [Hv|Hv]; rewrite Hr; unfold assigned_run_id; rewrite Hv; reflexivity.
    + apply Htags, Ht.
  - intros n1 n2 He Hl H1 H2. rewrite He in Hm. simpl in Hm.
    destruct data as [|d1 [|d2 [|]]]; simpl in Hm; try tauto.
    destruct Hm as ((_ & _ & Hr1 & _ & Ht1 & _) & (_ & _ & Hr2 & _ & Ht2 & _) & _).
    exists d1, d2. split; [reflexivity|].
    split; [rewrite Hr1; unfold assigned_run_id; rewrite H1; reflexivity|].
    split.
    + rewrite Hr2. unfold assigned_run_id, label_count. rewrite H2. simpl.
      rewrite Hl. rewrite !bool_decide_eq_true_2 by reflexivity. reflexivity.
    + split; [apply (Htags n1 d1 Ht1)|apply (Htags n2 d2 Ht2)].
Qed.

Lemma case_records_run_id_and_tags_witness :
  exists d1 d2,
    getStatusOnCasesKeywords (Samples.parser_of Samples.two_studies) "A"
    = Return [d1; d2]
    /\ d1 !! "run_id" = Some (VStr "custom")
    /\ d2 !! "run_id" = Some (VStr "run2")
    /\ tags_of d1 = ["a"; "b"; "c"]
    /\ tags_of d2 = ["fine"; "a"; "b"; "c"].
Proof.
  destruct (case_records_run_id_and_tags (Samples.parser_of Samples.two_studies) "A"
              Samples.study_A)
    as (data & Hret & _ & _ & _ & Hpair).
  - vm_compute. reflexivity.
  - apply (Forall_checked _ _ _ case_regular_b_sound). vm_compute. reflexivity.
  - destruct (Hpair Samples.case_1 Samples.case_2)
      as (d1 & d2 & -> & H1 & H2 & Ht1 & Ht2);
      [vm_compute; reflexivity..|].
    exists d1, d2. split; [exact Hret|]. split; [exact H1|]. split; [exact H2|].
    split; [rewrite Ht1|rewrite Ht2]; vm_compute; reflexivity.
Defined.

(** C6, the claim as stated fails: the only case of study 'S' is enabled,
    the first with its label, and has no run_id attribute, so that 'run1' is
    claimed; its child element named 'run_id' puts the text 'x' in the
    record instead. *)
Lemma run_id_overwritten_by_child :
  getStudyNode (Samples.parser_of Samples.overwritten) "S"
  = Return (Some Samples.study_overwritten)
  /\ List.filter is_on (Dom.elements_below "case" Samples.study_overwritten)
     = [Samples.case_overwritten]
  /\ attribute Samples.case_overwritten "run_id" = None
  /\ exists d,
       getStatusOnCasesKeywords (Samples.parser_of Samples.overwritten) "S"
       = Return [d]
       /\ d !! "node" = Some (VNode Samples.case_overwritten)
       /\ d !! "run_id" = Some (VStr "x").
Proof.
  split; [vm_compute; reflexivity|]. split; [vm_compute; reflexivity|].
  split; [vm_compute; reflexivity|]. eexists. split; [vm_compute; reflexivity|].
  split; vm_compute; reflexivity.
Qed.

(** The two pieces that are read as integers: the text in front of the first
    colon, or without its last character when there is no colon, and the
    last two characters. *)
Lemma minutes_pieces (tmp : string) :
  minutes tmp
  = match PyStr.int (PyStr.slice None (Some (PyStr.find ":" tmp)) tmp),
          PyStr.int (PyStr.slice (Some (-2)) None tmp) with
    | Some h, Some m => Some (h * 60 + m)
    | _, _ => None
    end.
Proof.
  unfold minutes. cbn [mbind option_bind].
  destruct (PyStr.int (PyStr.slice None (Some (PyStr.find ":" tmp)) tmp)); [|reflexivity].
  cbn [mbind option_bind]. destruct (PyStr.int (PyStr.slice (Some (-2)) None tmp));
    reflexivity.
Qed.

(** A text of at most one character has no first piece. *)
Lemma minutes_short (tmp : string) : (String.length tmp <= 1)%nat -> minutes tmp = None.
Proof.
  destruct tmp as [|c [|c' tmp]]; cbn [String.length]; [reflexivity| |lia].
  intros _. rewrite minutes_pieces. cbn [PyStr.find].
  destruct (Ascii.eqb c ":"); reflexivity.
Qed.

(** C7. For a study found by [getStudyNode] whose cases are regular (every
    case element has a status, every enabled one a label, and every child
    element with content of an enabled case is one of compare, prepro,
    script, data, depends, or starts with character data and is not named
    like a key of the record), the call returns, and the record of each
    enabled case holds under 'expected_time': [None] when the case has no
    expected_time attribute; otherwise 60 times the integer in front of the
    first colon of the text plus the integer of its last two characters,
    where a text without colon is read without its last character, and
    [None] when one of the two is no integer literal. So a text HH:MM, two
    digits on each side, gives 60 * HH + MM, and "01:30" gives 90; a text
    without colon is not refused, "90" giving 630, nor one with two colons,
    "1:30:45" giving 105; a single digit of minutes, as in "12:5", and a text
    of at most one character give [None]. *)
Theorem case_records_expected_time (self : Parser) (l : string) (study : Node) :
  getStudyNode self l = Return (Some study) ->
  Forall case_regular (Dom.elements_below "case" study) ->
  let enabled := List.filter is_on (Dom.elements_below "case" study) in
  exists data,
    getStatusOnCasesKeywords self l = Return data
    /\ length data = length enabled
    /\ forall (i : nat) (n : Node),
         enabled !! i = Some n ->
         exists d,
           data !! i = Some d
           /\ d !! "node" = Some (VNode n)
           /\ (attribute n "expected_time" = None ->
               d !! "expected_time" = Some VNone)
           /\ (forall tmp, attribute n "expected_time" = Some tmp ->
                 d !! "expected_time"
                 = Some (match PyStr.int (PyStr.slice None (Some (PyStr.find ":" tmp)) tmp),
                               PyStr.int (PyStr.slice (Some (-2)) None tmp) with
                         | Some h, Some m => VInt (h * 60 + m)
                         | _, _ => VNone
                         end))
           /\ (forall h1 h2 m1 m2 : ascii,
                 PyStr.is_digit h1 = true -> PyStr.is_digit h2 = true ->
                 PyStr.is_digit m1 = true -> PyStr.is_digit m2 = true ->
                 attribute n "expected_time"
                 = Some (String h1 (String h2 (String ":" (String m1 (String m2 ""))))) ->
                 d !! "expected_time"
                 = Some (VInt (60 * (10 * PyStr.digit_val h1 + PyStr.digit_val h2)
                               + (10 * PyStr.digit_val m1 + PyStr.digit_val m2))))
           /\ (attribute n "expected_time" = Some "01:30" ->
               d !! "expected_time" = Some (VInt 90))
           /\ (attribute n "expected_time" = Some "90" ->
               d !! "expected_time" = Some (VInt 630))
           /\ (attribute n "expected_time" = Some "1:30:45" ->
               d !! "expected_time" = Some (VInt 105))
           /\ (attribute n "expected_time" = Some "12:5" ->
               d !! "expected_time" = Some VNone)
           /\ (forall tmp, attribute n "expected_time" = Some tmp ->
                 (String.length tmp <= 1)%nat ->
                 d !! "expected_time" = Some VNone).
Proof.
  intros Hs Hwf enabled.
  destruct (getStatusOnCasesKeywords_records self l study Hs Hwf) as (data & Hret & Hm).
  fold enabled in Hm. exists data.
  split; [exact Hret|]. split; [eapply records_match_length, Hm|].
  intros i n Hi.
  destruct (records_match_lookup _ _ _ _ _ _ Hm Hi)
    as (d & Hd & Hn & _ & _ & _ & _ & _ & He).
  exists d. split; [exact Hd|]. split; [exact Hn|].
  rewrite He. unfold expected_time_value.
  split; [|split; [|split; [|split; [|split; [|split; [|split]]]]]].
  - intros Ha. pose proof (attr_absent _ _ Ha).
    destruct (Dom.attr n "expected_time"); [discriminate|reflexivity..].
  - intros tmp Ha. rewrite (attr_attribute _ _ _ Ha), minutes_pieces.
    destruct (PyStr.int (PyStr.slice None (Some (PyStr.find ":" tmp)) tmp));
      [|reflexivity].
    destruct (PyStr.int (PyStr.slice (Some (-2)) None tmp)); reflexivity.
  - intros h1 h2 m1 m2 H1 H2 H3 H4 Ha.
    rewrite (attr_attribute _ _ _ Ha), (minutes_HHMM _ _ _ _ H1 H2 H3 H4). reflexivity.
  - intros Ha. rewrite (attr_attribute _ _ _ Ha). reflexivity.
  - intros Ha. rewrite (attr_attribute _ _ _ Ha). reflexivity.
  - intros Ha. rewrite (attr_attribute _ _ _ Ha). reflexivity.
  - intros Ha. rewrite (attr_attribute _ _ _ Ha). reflexivity.
  - intros tmp Ha Hlen. rewrite (attr_attribute _ _ _ Ha), (minutes_short tmp Hlen).
    reflexivity.
Qed.

Lemma case_records_expected_time_witness :
  (exists d1 d2,
     getStatusOnCasesKeywords (Samples.parser_of Samples.two_studies) "A"
     = Return [d1; d2]
     /\ d1 !! "expected_time" = Some VNone
     /\ d2 !! "expected_time" = Some (VInt 90))
  /\ (exists d1 d2 d3 d4,
        getStatusOnCasesKeywords (Samples.parser_of Samples.timings) "T"
        = Return [d1; d2; d3; d4]
        /\ d1 !! "expected_time" = Some (VInt 630)
        /\ d2 !! "expected_time" = Some (VInt 105)
        /\ d3 !! "expected_time" = Some VNone
        /\ d4 !! "expected_time" = Some (VInt 90)).
Proof.
  split.
  - destruct (case_records_expected_time (Samples.parser_of Samples.two_studies) "A"
                Samples.study_A)
      as (data & Hret & Hlen & Hidx).
    + vm_compute. reflexivity.
    + apply (Forall_checked _ _ _ case_regular_b_sound). vm_compute. reflexivity.
    + destruct (Hidx 0%nat Samples.case_1) as (d1 & Hd1 & _ & Hnone & _);
        [vm_compute; reflexivity|].
      destruct (Hidx 1%nat Samples.case_2) as (d2 & Hd2 & _ & _ & _ & _ & H90 & _);
        [vm_compute; reflexivity|].
      destruct data as [|e1 [|e2 [|e3 data]]]; try discriminate Hlen.
      simpl in Hd1, Hd2. inversion Hd1; inversion Hd2; subst e1 e2.
      exists d1, d2. split; [exact Hret|].
      split; [apply Hnone|apply H90]; vm_compute; reflexivity.
  - destruct (case_records_expected_time (Samples.parser_of Samples.timings) "T"
                Samples.study_timings)
      as (data & Hret & Hlen & Hidx).
    + vm_compute. reflexivity.
    + apply (Forall_checked _ _ _ case_regular_b_sound). vm_compute. reflexivity.
    + destruct data as [|e1 [|e2 [|e3 [|e4 [|e5 data]]]]]; try discriminate Hlen.
      exists e1, e2, e3, e4. split; [exact Hret|].
      destruct (Hidx 0%nat _ eq_refl) as (d1 & Hd1 & _ & _ & _ & _ & _ & H630 & _).
      destruct (Hidx 1%nat _ eq_refl) as (d2 & Hd2 & _ & _ & _ & _ & _ & _ & H105 & _).
      destruct (Hidx 2%nat _ eq_refl) as (d3 & Hd3 & _ & _ & _ & _ & _ & _ & _ & Hno & _).
      destruct (Hidx 3%nat _ eq_refl) as (d4 & Hd4 & _ & _ & _ & _ & H90 & _).
      simpl in Hd1, Hd2, Hd3, Hd4.
      inversion Hd1; inversion Hd2; inversion Hd3; inversion Hd4; subst d1 d2 d3 d4.
      split; [apply H630; vm_compute; reflexivity|].
      split; [apply H105; vm_compute; reflexivity|].
      split; [apply Hno; vm_compute; reflexivity|].
      apply H90; vm_compute; reflexivity.
Defined.

(** C7, the claim as stated fails. The only case of study 'S' is enabled
    and its expected_time attribute is "01:30", yet its record holds the text
    of its child element named 'expected_time', not 90; a case without the
    attribute whose child element starts with an element makes the call
    raise; and for the text "90", which is not of the form HH:MM, the record
    of a case without child elements holds 630, not [None]. *)
Lemma expected_time_not_as_claimed :
  (getStudyNode (Samples.parser_of Samples.overwritten) "S"
   = Return (Some Samples.study_overwritten)
   /\ List.filter is_on (Dom.elements_below "case" Samples.study_overwritten)
      = [Samples.case_overwritten]
   /\ attribute Samples.case_overwritten "expected_time" = Some "01:30"
   /\ exists d,
        getStatusOnCasesKeywords (Samples.parser_of Samples.overwritten) "S"
        = Return [d]
        /\ d !! "node" = Some (VNode Samples.case_overwritten)
        /\ d !! "expected_time" = Some (VStr "soon"))
  /\ getStatusOnCasesKeywords (Samples.parser_of Samples.nested) "S"
     = Raise AttributeError
  /\ exists n d1 d2 d3 d4,
       getStatusOnCasesKeywords (Samples.parser_of Samples.timings) "T"
       = Return [d1; d2; d3; d4]
       /\ d1 !! "node" = Some (VNode n)
       /\ attribute n "expected_time" = Some "90"
       /\ Dom.childNodes n = []
       /\ d1 !! "expected_time" = Some (VInt 630).
Proof.
  split; [|split].
  - split; [vm_compute; reflexivity|]. split; [vm_compute; reflexivity|].
    split; [vm_compute; reflexivity|]. eexists. split; [vm_compute; reflexivity|].
    split; vm_compute; reflexivity.
  - vm_compute. reflexivity.
  - eexists _, _, _, _, _. split; [vm_compute; reflexivity|].
    split; [vm_compute; reflexivity|]. repeat split; vm_compute; reflexivity.
Qed.

(** ** The attribute helpers *)

Section Attributes.

Variable float : Type.
Variable float_of_str : string -> option float.

Lemma floats_all (tokens : list string) (xs : list float) :
  mapM float_of_str tokens = Some xs -> floats float float_of_str tokens = Return xs.
Proof.
  revert xs. induction tokens as [|s tokens IH]; intros xs; simpl.
  - intros H. inversion H. reflexivity.
  - destruct (float_of_str s) as [x|]; simpl; [|discriminate].
    destruct (mapM float_of_str tokens) as [ys|]; simpl; [|discriminate].
    intros H. inversion H; subst xs. rewrite (IH ys eq_refl). reflexivity.
Qed.

Lemma floats_malformed (tokens : list string) :
  mapM float_of_str tokens = None ->
  floats float float_of_str tokens = Raise ValueError.
Proof.
  induction tokens as [|s tokens IH]; simpl; [discriminate|].
  destruct (float_of_str s) as [x|]; simpl; [|reflexivity].
  destruct (mapM float_of_str tokens) as [ys|]; simpl; [discriminate|].
  intros _. rewrite (IH eq_refl). reflexivity.
Qed.

(** C8. On an element, [getAttribute] returns the value of the attribute
    when the key is present, the default when the key is absent and a default
    is given, and raises [ValueError] when the key is absent and no default
    is given. [getAttributeTuple] does the same for an absent key; for a
    present key it drops the first and the last character of the value,
    splits the rest at the commas and converts every token with [float]: the
    result is the tuple of these numbers, or [ValueError] when a token is
    not a number. The value "(1.0,2.5,3.0)" gives
    (float("1.0"), float("2.5"), float("3.0")). *)
Theorem attribute_helpers (D : Type) (tag : string) (attrs : gmap string string)
    (cs : list Node) (k : string) (default : option D) :
  let node := Element tag attrs cs in
  getAttribute node k default
  = match attrs !! k, default with
    | Some v, _ => Return (inl v)
    | None, Some d => Return (inr d)
    | None, None => Raise ValueError
    end
  /\ getAttributeTuple float float_of_str node k default
     = match attrs !! k, default with
       | Some v, _ =>
           match mapM float_of_str
                   (PyStr.split "," (PyStr.slice (Some 1) (Some (-1)) v)) with
           | Some xs => Return (inl xs)
           | None => Raise ValueError
           end
       | None, Some d => Return (inr d)
       | None, None => Raise ValueError
       end
  /\ (attrs !! k = Some "(1.0,2.5,3.0)" ->
      getAttributeTuple float float_of_str node k default
      = match float_of_str "1.0", float_of_str "2.5", float_of_str "3.0" with
        | Some a, Some b, Some c => Return (inl [a; b; c])
        | _, _, _ => Raise ValueError
        end).
Proof.
  intros node.
  assert (getAttributeTuple float float_of_str node k default
          = match attrs !! k, default with
            | Some v, _ =>
                match mapM float_of_str
                        (PyStr.split "," (PyStr.slice (Some 1) (Some (-1)) v)) with
                | Some xs => Return (inl xs)
                | None => Raise ValueError
                end
            | None, Some d => Return (inr d)
            | None, None => Raise ValueError
            end) as Htuple.
  { unfold getAttributeTuple, node. simpl.
    destruct (attrs !! k) as [v|] eqn:Hk; simpl.
    - destruct (mapM float_of_str (PyStr.split "," (PyStr.slice (Some 1) (Some (-1)) v)))
        as [xs|] eqn:Hm.
      + rewrite (floats_all _ _ Hm). reflexivity.
      + rewrite (floats_malformed _ Hm). reflexivity.
    - destruct default; reflexivity. }
  split; [|split; [exact Htuple|]].
  - unfold getAttribute, node. simpl.
    destruct (attrs !! k) as [v|]; simpl; [reflexivity|].
    destruct default; reflexivity.
  - intros Hk. rewrite Htuple, Hk.
    change (PyStr.split "," (PyStr.slice (Some 1) (Some (-1)) "(1.0,2.5,3.0)"))
      with ["1.0"; "2.5"; "3.0"].
    simpl. destruct (float_of_str "1.0"), (float_of_str "2.5"), (float_of_str "3.0");
      reflexivity.
Qed.

End Attributes.

(** ** The coupling status of the solid model *)

Module SolidFacts.
Import Solid.

Lemma ipp_node_after_init (m : SolidModel) :
  ipp_node (init_node (xmlInitNode m)) = Some (node_before m)
  /\ ipp_bound (init_node (xmlInitNode m)) = true.
Proof.
  unfold init_node, xmlInitNode, ipp_node, node_before.
  destruct m as [[node|] []]; simpl; auto.
Qed.

(** C10. [setCouplingStatus] writes the status under the key
    'polydispersion' and [getCouplingStatus] reads the key 'polydiserpsion':
    the keys differ, so that after [setCouplingStatus(s)], for a status [s]
    that passes the check, [getCouplingStatus] returns what the node held
    under 'polydiserpsion' before the call, whatever [s] is, and not the
    value stored by the call. *)
Theorem coupling_status_keys_differ (isOnOff : string -> outcome unit)
    (m : SolidModel) (s : string) :
  isOnOff s = Return tt ->
  "polydiserpsion" <> "polydispersion"
  /\ exists node,
       setCouplingStatus isOnOff m s = Return (mkSolid (Some node) true)
       /\ node = xmlSetData (node_before m) "polydispersion" s
       /\ xmlGetString node "polydispersion" = Some s
       /\ getCouplingStatus (mkSolid (Some node) true)
          = xmlGetString node "polydiserpsion"
       /\ getCouplingStatus (mkSolid (Some node) true)
          = xmlGetString (node_before m) "polydiserpsion".
Proof.
  intros Hs. split; [discriminate|].
  exists (xmlSetData (node_before m) "polydispersion" s).
  destruct (ipp_node_after_init m) as [Hnode Hbound].
  split.
  - unfold setCouplingStatus. rewrite Hs. simpl. rewrite Hnode, Hbound. reflexivity.
  - split; [reflexivity|]. split; [apply lookup_insert_eq|].
    split; [reflexivity|].
    unfold getCouplingStatus, ipp_node, xmlGetString, xmlSetData. simpl.
    apply lookup_insert_ne. discriminate.
Qed.

Lemma coupling_status_keys_differ_witness :
  exists m',
    setCouplingStatus on_or_off (mkSolid None false) "on" = Return m'
    /\ (n ← solid_particles_properties m'; xmlGetString n "polydispersion") = Some "on"
    /\ getCouplingStatus m' = None.
Proof.
  destruct (coupling_status_keys_differ on_or_off (mkSolid None false) "on")
    as (_ & node & Hset & -> & _ & _ & Hget).
  - reflexivity.
  - eexists. split; [exact Hset|]. split; [reflexivity|]. rewrite Hget. reflexivity.
Defined.

End SolidFacts.

(** * Further properties of the accessors *)

(** ** Elements by tag name *)

Lemma Node_children_ind (P : Node -> Prop) :
  (forall tag attrs cs, Forall P cs -> P (Element tag attrs cs)) ->
  (forall n, Dom.is_element n = false -> P n) ->
  forall n, P n.
Proof.
  intros HE HO. fix IH 1. intros [tag attrs cs| | | | |]; try (apply HO; reflexivity).
  apply HE. induction cs as [|c cs IHcs]; constructor; [apply IH|exact IHcs].
Qed.

Lemma elements_below_children (name tag : string) attrs (cs : list Node) :
  Dom.elements_below name (Element tag attrs cs)
  = flat_map (fun c => (if tag_matches name c then [c] else [])
                       ++ Dom.elements_below name c) cs.
Proof.
  induction cs as [|c cs IH]; [reflexivity|].
  simpl in *. rewrite <- IH. rewrite <- app_assoc.
  destruct c; reflexivity.
Qed.

(** Every node found is an element with the tag asked for. *)
Lemma elements_below_tag (name : string) (n : Node) :
  name <> "*" ->
  Forall (fun m => Dom.is_element m = true /\ Dom.nodeName m = name)
         (Dom.elements_below name n).
Proof.
  intros Hname. induction n as [tag attrs cs IH|n Hn] using Node_children_ind.
  - rewrite elements_below_children. induction IH as [|c cs Hc _ IHcs]; [constructor|].
    simpl. apply Forall_app. split; [apply Forall_app; split|exact IHcs]; [|exact Hc].
    destruct c as [t a l| | | | |]; simpl; try (constructor; fail).
    destruct (String.eqb_spec name "*"); [contradiction|]. simpl.
    destruct (String.eqb_spec t name); constructor; [|constructor]. auto.
  - destruct n; try discriminate; constructor.
Qed.

(** ** Studies: the first match, and labels that can be looked up *)

(** X1. The first study element carrying the label [l] decides the call
    [getStudyNode(l)], whatever follows it: that study is returned when its
    status is 'on', and [ValueError] is raised when it is anything else, even
    if an enabled study with the same label comes later. *)
Theorem getStudyNode_first_match (self : Parser) (l st : string)
    (before after : list Node) (n : Node) :
  Dom.getElementsByTagName (root self) "study" = Return (before ++ n :: after) ->
  Forall (fun m => exists lab, attribute m "label" = Some lab /\ lab <> l) before ->
  attribute n "label" = Some l ->
  attribute n "status" = Some st ->
  getStudyNode self l
  = if decide (st = "on") then Return (Some n) else Raise ValueError.
Proof.
  intros Hs Hb Hl Hst. unfold getStudyNode. rewrite Hs. simpl.
  case_decide as Hon.
  - subst st. apply getStudyNode_loop_found; assumption.
  - eapply getStudyNode_loop_off; eassumption.
Qed.

Lemma getStudyNode_first_match_witness :
  getStudiesLabel (Samples.parser_of Samples.shadowed) = Return ["A"]
  /\ getStudyNode (Samples.parser_of Samples.shadowed) "A" = Raise ValueError.
Proof.
  split; [vm_compute; reflexivity|].
  rewrite (getStudyNode_first_match (Samples.parser_of Samples.shadowed) "A" "off"
             [] [Samples.study_A] Samples.study_off).
  - reflexivity.
  - vm_compute. reflexivity.
  - constructor.
  - vm_compute. reflexivity.
  - vm_compute. reflexivity.
Defined.

Lemma label_before_differs (before after : list Node) (n : Node) :
  Forall (has_attributes ["label"; "status"]) (before ++ n :: after) ->
  NoDup (label_of <$> (before ++ n :: after)) ->
  Forall (fun m => exists lab, attribute m "label" = Some lab /\ lab <> label_of n)
         before.
Proof.
  intros Hwf Hnd. apply Forall_forall. intros m Hm.
  rewrite Forall_forall in Hwf.
  assert (m ∈ before ++ n :: after) as Hin by (apply elem_of_app; auto).
  specialize (Hwf m Hin). inversion Hwf as [|? ? [lab Hlab] _]; subst.
  exists lab. split; [exact Hlab|].
  rewrite fmap_app in Hnd. apply NoDup_app in Hnd as (_ & Hdisj & _).
  intros Heq. apply (Hdisj lab).
  - apply list_elem_of_fmap. exists m. split; [|exact Hm].
    unfold label_of. rewrite Hlab. reflexivity.
  - rewrite fmap_cons, Heq. left.
Qed.

(** X2. When the study elements all carry a label and a status and no two
    of them, enabled or not, share a label, [getStudiesLabel] returns, and
    the labels it returns are exactly those for which [getStudyNode] returns
    a node. *)
Theorem getStudiesLabel_then_getStudyNode (self : Parser) (studies : list Node) :
  Dom.getElementsByTagName (root self) "study" = Return studies ->
  Forall (has_attributes ["label"; "status"]) studies ->
  NoDup (label_of <$> studies) ->
  exists labels,
    getStudiesLabel self = Return labels
    /\ forall l, l ∈ labels <-> exists n, getStudyNode self l = Return (Some n).
Proof.
  intros Hs Hwf Hnd. exists (enabled_labels studies).
  assert (NoDup (enabled_labels studies)) as Hen.
  { unfold enabled_labels. clear Hs Hwf.
    induction studies as [|m studies IH]; simpl; [constructor|].
    rewrite fmap_cons in Hnd. apply NoDup_cons in Hnd as [Hm Hnd].
    destruct (is_on m); [|apply IH, Hnd]. rewrite fmap_cons. apply NoDup_cons.
    split; [|apply IH, Hnd]. intros Hin. apply Hm.
    apply list_elem_of_fmap in Hin as (x & -> & Hx).
    apply list_elem_of_fmap. exists x. split; [reflexivity|].
    apply list_elem_of_In, filter_In in Hx as [Hx _]. apply list_elem_of_In, Hx. }
  split.
  - unfold getStudiesLabel. rewrite Hs. simpl.
    rewrite (getStudiesLabel_loop_spec _ Hwf). simpl.
    rewrite decide_True by exact Hen. reflexivity.
  - intros l. rewrite (elem_of_enabled_labels l studies Hwf). split.
    + intros (n & Hin & Hon & Hl). exists n.
      apply list_elem_of_split in Hin as (before & after & ->).
      assert (label_of n = l) as Hlo by (unfold label_of; rewrite Hl; reflexivity).
      pose proof (label_before_differs before after n Hwf Hnd) as Hb.
      rewrite Hlo in Hb.
      unfold getStudyNode. rewrite Hs. simpl.
      apply getStudyNode_loop_found; assumption.
    + intros (n & Hn). unfold getStudyNode in Hn. rewrite Hs in Hn. simpl in Hn.
      apply getStudyNode_loop_Some in Hn as (Hin & Hl & Hon). eauto.
Qed.

Lemma getStudiesLabel_then_getStudyNode_witness :
  exists labels,
    getStudiesLabel (Samples.parser_of Samples.two_studies) = Return labels
    /\ ("A" ∈ labels <->
        exists n, getStudyNode (Samples.parser_of Samples.two_studies) "A"
                  = Return (Some n)).
Proof.
  destruct (getStudiesLabel_then_getStudyNode (Samples.parser_of Samples.two_studies)
              (Dom.elements_below "study" Samples.two_studies))
    as (labels & Hret & Hiff).
  - reflexivity.
  - repeat constructor; vm_compute; eauto.
  - vm_compute. repeat constructor; rewrite ?elem_of_cons, ?elem_of_nil;
      intros H; repeat destruct H as [H|H]; try discriminate; exact H.
  - exists labels. split; [exact Hret|apply Hiff].
Defined.

(** ** Repository and destination *)

Lemma set_repo_same (self : Parser) : set_repo self (repo self) = self.
Proof. destruct self; reflexivity. Qed.

Lemma set_dest_same (self : Parser) : set_dest self (dest self) = self.
Proof. destruct self; reflexivity. Qed.

Lemma getDataFromNode_exit (father : Node) (childName : string) :
  Dom.is_element father = true ->
  getDataFromNode father childName = Exit 1
  <-> length (Dom.elements_below childName father) <> 1%nat.
Proof.
  intros He. unfold getDataFromNode.
  rewrite (getElementsByTagName_element _ _ He). simpl.
  destruct (Dom.elements_below childName father) as [|n [|m l]]; simpl.
  - split; [intros _; discriminate|reflexivity].
  - split; [|intros H; contradiction H; reflexivity].
    destruct (Dom.firstChild n) as [c|]; simpl; [|intros H; discriminate H].
    destruct c; simpl; intros H; discriminate H.
  - split; [intros _; discriminate|reflexivity].
Qed.

Section PathSetters.

Variable expanduser : string -> string.
Variable abspath : string -> string.

(** X3. The repository of a parser whose root is an element. Until a path
    is known, [getRepository] reads the document and ends the process unless
    exactly one repository element lies below the root, at any depth. Once
    it has returned a path it returns the same path again and leaves the
    parser unchanged. After [setRepository(p)] it returns the absolute,
    user-expanded [p] whatever the document holds. [getDestination] and
    [setDestination] behave in the same way on the destination. *)
Theorem path_lookup_and_cache (self : Parser) :
  Dom.is_element (root self) = true ->
  (getRepository self = Exit 1
   <-> repo self = None
       /\ length (Dom.elements_below "repository" (root self)) <> 1%nat)
  /\ (forall r self', getRepository self = Return (Some r, self') ->
        self' = set_repo self (Some r)
        /\ getRepository self' = Return (Some r, self'))
  /\ (forall p, getRepository (setRepository expanduser abspath self p)
                = Return (Some (abspath (expanduser p)),
                          setRepository expanduser abspath self p))
  /\ (getDestination self = Exit 1
      <-> dest self = None
          /\ length (Dom.elements_below "destination" (root self)) <> 1%nat)
  /\ (forall d self', getDestination self = Return (Some d, self') ->
        self' = set_dest self (Some d)
        /\ getDestination self' = Return (Some d, self'))
  /\ (forall p, getDestination (setDestination expanduser abspath self p)
                = Return (Some (abspath (expanduser p)),
                          setDestination expanduser abspath self p)).
Proof.
  intros He. repeat split.
  - unfold getRepository in H. destruct (repo self); [discriminate|reflexivity].
  - unfold getRepository in H. destruct (repo self); [discriminate|].
    apply (getDataFromNode_exit _ "repository" He).
    destruct (getDataFromNode (root self) "repository"); simpl in H;
      try discriminate. inversion H. reflexivity.
  - intros [Hr Hlen]. unfold getRepository. rewrite Hr.
    apply (getDataFromNode_exit _ "repository" He) in Hlen. rewrite Hlen. reflexivity.
  - unfold getRepository in H. destruct (repo self) as [q|] eqn:Hq.
    + inversion H; subst r self'. rewrite <- Hq. symmetry. apply set_repo_same.
    + destruct (getDataFromNode (root self) "repository"); simpl in H;
        try discriminate. inversion H. reflexivity.
  - unfold getRepository in H. destruct (repo self) as [q|] eqn:Hq.
    + inversion H; subst r self'. unfold getRepository. rewrite Hq. reflexivity.
    + destruct (getDataFromNode (root self) "repository"); simpl in H;
        try discriminate. inversion H. reflexivity.
  - unfold getDestination in H. destruct (dest self); [discriminate|reflexivity].
  - unfold getDestination in H. destruct (dest self); [discriminate|].
    apply (getDataFromNode_exit _ "destination" He).
    destruct (getDataFromNode (root self) "destination"); simpl in H;
      try discriminate. inversion H. reflexivity.
  - intros [Hr Hlen]. unfold getDestination. rewrite Hr.
    apply (getDataFromNode_exit _ "destination" He) in Hlen. rewrite Hlen. reflexivity.
  - unfold getDestination in H. destruct (dest self) as [q|] eqn:Hq.
    + inversion H; subst d self'. rewrite <- Hq. symmetry. apply set_dest_same.
    + destruct (getDataFromNode (root self) "destination"); simpl in H;
        try discriminate. inversion H. reflexivity.
  - unfold getDestination in H. destruct (dest self) as [q|] eqn:Hq.
    + inversion H; subst d self'. unfold getDestination. rewrite Hq. reflexivity.
    + destruct (getDataFromNode (root self) "destination"); simpl in H;
        try discriminate. inversion H. reflexivity.
Qed.

End PathSetters.

Lemma path_lookup_and_cache_witness :
  let self := Samples.parser_of Samples.with_paths in
  let self' := set_repo self (Some "/repo") in
  getRepository self = Return (Some "/repo", self')
  /\ getRepository self' = Return (Some "/repo", self')
  /\ getDestination self' = Return (Some "/dest", set_dest self' (Some "/dest"))
  /\ getRepository (Samples.parser_of Samples.two_studies) = Exit 1.
Proof.
  intros self self'.
  destruct (path_lookup_and_cache (fun p => p) (fun p => p) self eq_refl)
    as (_ & Hrepo & _).
  destruct (Hrepo "/repo" self') as [_ Hagain]; [vm_compute; reflexivity|].
  destruct (path_lookup_and_cache (fun p => p) (fun p => p) self' eq_refl)
    as (_ & _ & _ & _ & Hdest & _).
  destruct (Hdest "/dest" (set_dest self' (Some "/dest"))) as [_ _];
    [vm_compute; reflexivity|].
  destruct (path_lookup_and_cache (fun p => p) (fun p => p)
              (Samples.parser_of Samples.two_studies) eq_refl) as ([_ Hexit] & _).
  split; [vm_compute; reflexivity|]. split; [exact Hagain|].
  split; [vm_compute; reflexivity|].
  apply Hexit. split; [reflexivity|]. vm_compute. discriminate.
Defined.

(** ** Children by name *)

Lemma descendants_children (tag : string) attrs (cs : list Node) :
  descendants (Element tag attrs cs) = flat_map (fun c => c :: descendants c) cs.
Proof.
  induction cs as [|c cs IH]; [reflexivity|].
  cbn [flat_map]. rewrite <- IH. reflexivity.
Qed.

(** The nodes found are the nodes below that pass the test, in document
    order. *)
Lemma elements_below_descendants (name : string) (n : Node) :
  Dom.elements_below name n = List.filter (tag_matches name) (descendants n).
Proof.
  induction n as [tag attrs cs IH|n Hn] using Node_children_ind.
  - rewrite elements_below_children, descendants_children.
    induction IH as [|c cs Hc _ IHcs]; [reflexivity|].
    cbn [flat_map app List.filter]. rewrite List.filter_app, <- IHcs, <- Hc.
    destruct (tag_matches name c); reflexivity.
  - destruct n; try discriminate; reflexivity.
Qed.

Lemma elem_of_descendants (m n : Node) : m ∈ descendants n <-> below m n.
Proof.
  induction n as [tag attrs cs IH|n Hn] using Node_children_ind.
  - rewrite descendants_children. split.
    + intros Hin. apply list_elem_of_In, in_flat_map in Hin as (c & Hc & Hm).
      apply list_elem_of_In in Hc. apply list_elem_of_In, elem_of_cons in Hm as [->|Hm].
      * apply below_child, Hc.
      * apply (below_deeper m tag attrs cs c Hc).
        rewrite Forall_forall in IH. apply (IH c Hc), Hm.
    + intros Hb. apply list_elem_of_In, in_flat_map.
      inversion Hb as [t a l Hin|t a l c Hc Hm]; subst.
      * exists m. split; [apply list_elem_of_In, Hin|]. left. reflexivity.
      * exists c. split; [apply list_elem_of_In, Hc|].
        apply list_elem_of_In, elem_of_cons. right.
        rewrite Forall_forall in IH. apply (IH c Hc), Hm.
  - split.
    + destruct n; try discriminate; intros H; inversion H.
    + intros H. inversion H; subst; discriminate.
Qed.

Lemma tag_matches_element (name : string) (m : Node) :
  name <> "*" ->
  tag_matches name m = true <-> Dom.is_element m = true /\ Dom.nodeName m = name.
Proof.
  intros Hname. destruct m as [t a l| | | | |]; simpl;
    try (split; [discriminate|intros [H _]; discriminate H]).
  destruct (String.eqb_spec name "*"); [contradiction|]. simpl.
  destruct (String.eqb_spec t name) as [Ht|Ht].
  - split; auto.
  - split; [discriminate|]. intros [_ H]. contradiction.
Qed.

(** X4. On an element, and for a name other than "*": [getChildren]
    returns, in document order, the elements with that tag that lie below
    the father at any depth, children of children included, and nothing
    else; [getChild] returns [None] when there is none, the node when there
    is exactly one, and ends the process when there are several, at whatever
    depth they are; [getDataFromNode] ends the process exactly when there is
    not exactly one, which is when [getChild] does not return a node. *)
Theorem children_accessors (tag : string) (attrs : gmap string string)
    (cs : list Node) (childname : string) :
  childname <> "*" ->
  let father := Element tag attrs cs in
  let l := List.filter (tag_matches childname) (descendants father) in
  getChildren father childname = Return l
  /\ (forall m, m ∈ l
                <-> below m father
                    /\ Dom.is_element m = true /\ Dom.nodeName m = childname)
  /\ Forall (fun m => Dom.is_element m = true /\ Dom.nodeName m = childname) l
  /\ (forall c, c ∈ cs -> tag_matches childname c = true -> c ∈ l)
  /\ (forall c m, c ∈ cs -> below m c -> tag_matches childname m = true -> m ∈ l)
  /\ getChild father childname
     = match l with
       | [] => Return None
       | [n] => Return (Some n)
       | _ :: _ :: _ => Exit 1
       end
  /\ (getDataFromNode father childname = Exit 1 <-> length l <> 1%nat)
  /\ (getDataFromNode father childname = Exit 1
      <-> forall n, getChild father childname <> Return (Some n)).
Proof.
  intros Hname father l.
  assert (Dom.elements_below childname father = l) as Hl
    by apply elements_below_descendants.
  assert (forall m, m ∈ l <-> below m father /\ tag_matches childname m = true) as Hin.
  { intros m. unfold l. rewrite <- elem_of_descendants.
    rewrite list_elem_of_In, filter_In, <- list_elem_of_In. reflexivity. }
  assert (getChild father childname
          = match l with
            | [] => Return None
            | [n] => Return (Some n)
            | _ :: _ :: _ => Exit 1
            end) as Hchild.
  { unfold getChild. rewrite (getElementsByTagName_element father childname eq_refl).
    cbn [mbind outcome_bind]. rewrite Hl. destruct l as [|n [|m l']]; reflexivity. }
  split; [unfold getChildren;
          rewrite (getElementsByTagName_element father childname eq_refl), Hl;
          reflexivity|].
  split; [intros m; rewrite Hin, (tag_matches_element childname m Hname); reflexivity|].
  split; [rewrite <- Hl; apply elements_below_tag, Hname|].
  split; [intros c Hc Hm; apply Hin; split; [apply below_child, Hc|exact Hm]|].
  split; [intros c m Hc Hb Hm; apply Hin; split;
          [apply (below_deeper m tag attrs cs c Hc Hb)|exact Hm]|].
  split; [exact Hchild|].
  split; [rewrite (getDataFromNode_exit father childname eq_refl), Hl; reflexivity|].
  rewrite (getDataFromNode_exit father childname eq_refl), Hl, Hchild.
  destruct l as [|n [|m l']]; simpl.
  - split; [intros _ n; discriminate|intros _; discriminate].
  - split; [intros H; contradiction H; reflexivity|].
    intros H. contradiction (H n). reflexivity.
  - split; [intros _ k; discriminate|intros _; discriminate].
Qed.

Lemma children_accessors_witness :
  exists l r,
    getChildren Samples.with_paths "case" = Return l
    /\ label_of <$> l = ["C2"; "C1"; "C2"; "C3"]
    /\ List.filter (tag_matches "case") (Dom.childNodes Samples.with_paths) = []
    /\ getChild Samples.with_paths "case" = Exit 1
    /\ getChild Samples.with_paths "repository" = Return (Some r)
    /\ getChild Samples.with_paths "postpro" = Return None
    /\ getDataFromNode Samples.with_paths "postpro" = Exit 1.
Proof.
  destruct (children_accessors "studymanager" (list_to_map [])
              (Dom.childNodes Samples.with_paths) "case")
    as (Hlc & Hin & _ & _ & _ & Hc & _); [discriminate|].
  destruct (children_accessors "studymanager" (list_to_map [])
              (Dom.childNodes Samples.with_paths) "repository")
    as (_ & _ & _ & _ & _ & Hr & _); [discriminate|].
  destruct (children_accessors "studymanager" (list_to_map [])
              (Dom.childNodes Samples.with_paths) "postpro")
    as (_ & _ & _ & _ & _ & Hp & Hd & _); [discriminate|].
  change (Element "studymanager" (list_to_map []) (Dom.childNodes Samples.with_paths))
    with Samples.with_paths in *.
  eexists _, _. split; [exact Hlc|].
  split; [vm_compute; reflexivity|].
  split; [vm_compute; reflexivity|].
  split; [exact Hc|]. split; [exact Hr|]. split; [exact Hp|].
  apply Hd. vm_compute. discriminate.
Defined.

(** ** Attributes of elements *)

Lemma attr_element (n : Node) (k : string) :
  Dom.is_element n = true ->
  Dom.attr n k = match attribute n k with
                 | Some v => Return v
                 | None => Raise KeyError
                 end.
Proof. destruct n; try discriminate. reflexivity. Qed.

Lemma attr_or_None_attribute (n : Node) (k : string) :
  attr_or_None n k = attribute n k.
Proof.
  unfold attr_or_None. destruct n; try reflexivity. simpl.
  destruct (attributes !! k); reflexivity.
Qed.

Lemma compare_flag_attr (n : Node) :
  match Dom.attr n "status" with
  | Return status => String.eqb status "on"
  | _ => true
  end = compare_flag n.
Proof.
  unfold compare_flag. destruct n; try reflexivity. simpl.
  destruct (attributes !! "status"); reflexivity.
Qed.

(** ** Directives of a case: parallel lists *)

Lemma getCompare_loop_spec (ns : list Node) :
  Forall (fun m => Dom.is_element m = true) ns ->
  forall compare nodes repo dest threshold args,
  getCompare_loop ns compare nodes repo dest threshold args
  = if forallb (fun n => has_attribute "repo" n && has_attribute "dest" n) ns
    then Return (compare ++ (compare_flag <$> ns), nodes ++ ns,
                 repo ++ (attribute_of "repo" <$> ns),
                 dest ++ (attribute_of "dest" <$> ns),
                 threshold ++ ((fun n => attribute n "threshold") <$> ns),
                 args ++ ((fun n => attribute n "args") <$> ns))
    else Raise KeyError.
Proof.
  induction 1 as [|n ns Hn _ IH]; intros compare nodes repo dest threshold args.
  - simpl. rewrite !app_nil_r. reflexivity.
  - simpl. rewrite compare_flag_attr, !(attr_element n _ Hn), !attr_or_None_attribute.
    unfold has_attribute, attribute_of.
    destruct (attribute n "repo") as [r|]; simpl; [|reflexivity].
    destruct (attribute n "dest") as [d|]; simpl; [|reflexivity].
    rewrite IH. destruct (forallb _ ns); [|reflexivity].
    rewrite <- !app_assoc. reflexivity.
Qed.

Lemma script_loop_spec (ns : list Node) :
  Forall (fun m => Dom.is_element m = true) ns ->
  forall flags label nodes args,
  script_loop ns flags label nodes args
  = if forallb (fun n => has_attribute "status" n && has_attribute "label" n) ns
    then Return (flags ++ (is_on <$> ns), label ++ (label_of <$> ns), nodes ++ ns,
                 args ++ (attribute_of "args" <$> ns))
    else Raise KeyError.
Proof.
  induction 1 as [|n ns Hn _ IH]; intros flags label nodes args.
  - simpl. rewrite !app_nil_r. reflexivity.
  - simpl. rewrite !(attr_element n _ Hn), !attr_or_None_attribute.
    unfold has_attribute, is_on, label_of, attribute_of.
    destruct (attribute n "status") as [st|]; simpl; [|reflexivity].
    destruct (attribute n "label") as [lab|]; simpl; [|reflexivity].
    rewrite IH. destruct (forallb _ ns); [|reflexivity].
    rewrite <- !app_assoc, eqb_on. simpl.
    replace (bool_decide (Some st = Some "on")) with (bool_decide (st = "on"));
      [reflexivity|].
    apply bool_decide_ext. split; congruence.
Qed.

Lemma getScript_loop_spec (ns : list Node) :
  Forall (fun m => Dom.is_element m = true) ns ->
  forall script label nodes args repo dest,
  getScript_loop ns script label nodes args repo dest
  = if forallb (fun n => has_attribute "status" n && has_attribute "label" n) ns
    then Return (script ++ (is_on <$> ns), label ++ (label_of <$> ns), nodes ++ ns,
                 args ++ (attribute_of "args" <$> ns),
                 repo ++ ((fun n => attribute n "repo") <$> ns),
                 dest ++ ((fun n => attribute n "dest") <$> ns))
    else Raise KeyError.
Proof.
  induction 1 as [|n ns Hn _ IH]; intros script label nodes args repo dest.
  - simpl. rewrite !app_nil_r. reflexivity.
  - simpl. rewrite !(attr_element n _ Hn), !attr_or_None_attribute.
    unfold has_attribute, is_on, label_of, attribute_of.
    destruct (attribute n "status") as [st|]; simpl; [|reflexivity].
    destruct (attribute n "label") as [lab|]; simpl; [|reflexivity].
    rewrite IH. destruct (forallb _ ns); [|reflexivity].
    rewrite <- !app_assoc, eqb_on. simpl.
    replace (bool_decide (Some st = Some "on")) with (bool_decide (st = "on"));
      [reflexivity|].
    apply bool_decide_ext. split; congruence.
Qed.

Lemma elements_below_elements (name : string) (n : Node) :
  name <> "*" -> Forall (fun m => Dom.is_element m = true) (Dom.elements_below name n).
Proof.
  intros H. eapply Forall_impl; [apply elements_below_tag, H|]. intros m [Hm _]. exact Hm.
Qed.

(** X5. [getCompare] on an element returns six lists with one entry for
    each compare element below the case, in document order: the flag (on
    when the status is absent), the node, repo, dest, and the threshold and
    args or [None]; so the six lists have the same length. It raises
    [KeyError] exactly when a compare element lacks repo or dest. *)
Theorem getCompare_aligned (tag : string) (attrs : gmap string string)
    (cs : list Node) :
  let caseNode := Element tag attrs cs in
  let ns := Dom.elements_below "compare" caseNode in
  getCompare caseNode
  = (if forallb (fun n => has_attribute "repo" n && has_attribute "dest" n) ns
     then Return (compare_flag <$> ns, ns, attribute_of "repo" <$> ns,
                  attribute_of "dest" <$> ns,
                  (fun n => attribute n "threshold") <$> ns,
                  (fun n => attribute n "args") <$> ns)
     else Raise KeyError)
  /\ forall compare nodes repo dest threshold args,
       getCompare caseNode = Return (compare, nodes, repo, dest, threshold, args) ->
       nodes = ns
       /\ length compare = length nodes /\ length repo = length nodes
       /\ length dest = length nodes /\ length threshold = length nodes
       /\ length args = length nodes.
Proof.
  intros caseNode ns.
  assert (getCompare caseNode
          = if forallb (fun n => has_attribute "repo" n && has_attribute "dest" n) ns
            then Return (compare_flag <$> ns, ns, attribute_of "repo" <$> ns,
                         attribute_of "dest" <$> ns,
                         (fun n => attribute n "threshold") <$> ns,
                         (fun n => attribute n "args") <$> ns)
            else Raise KeyError) as Heq.
  { unfold getCompare. rewrite (getElementsByTagName_element caseNode _ eq_refl).
    simpl mbind. fold ns.
    apply (getCompare_loop_spec ns). apply elements_below_elements. discriminate. }
  split; [exact Heq|].
  intros compare nodes repo dest threshold args Hret. rewrite Heq in Hret.
  destruct (forallb _ ns); [|discriminate]. inversion Hret; subst.
  rewrite !length_fmap. repeat split.
Qed.

(** X6. [getPrepro] and [getScript] on an element return lists with one
    entry for each prepro (script) element below the case, in document
    order: the flag (status is 'on'), the label, the node and the args ("" by
    default), and for scripts repo and dest or [None]; the lists have the
    same length. Status and label are mandatory: [KeyError] is raised exactly
    when an element lacks one of them. *)
Theorem getPrepro_getScript_aligned (tag : string) (attrs : gmap string string)
    (cs : list Node) :
  let caseNode := Element tag attrs cs in
  let ps := Dom.elements_below "prepro" caseNode in
  let ss := Dom.elements_below "script" caseNode in
  getPrepro caseNode
  = (if forallb (fun n => has_attribute "status" n && has_attribute "label" n) ps
     then Return (is_on <$> ps, label_of <$> ps, ps, attribute_of "args" <$> ps)
     else Raise KeyError)
  /\ getScript caseNode
     = (if forallb (fun n => has_attribute "status" n && has_attribute "label" n) ss
        then Return (is_on <$> ss, label_of <$> ss, ss, attribute_of "args" <$> ss,
                     (fun n => attribute n "repo") <$> ss,
                     (fun n => attribute n "dest") <$> ss)
        else Raise KeyError)
  /\ (forall prepro label nodes args,
        getPrepro caseNode = Return (prepro, label, nodes, args) ->
        nodes = ps /\ length prepro = length nodes /\ length label = length nodes
        /\ length args = length nodes)
  /\ (forall script label nodes args repo dest,
        getScript caseNode = Return (script, label, nodes, args, repo, dest) ->
        nodes = ss /\ length script = length nodes /\ length label = length nodes
        /\ length args = length nodes /\ length repo = length nodes
        /\ length dest = length nodes).
Proof.
  intros caseNode ps ss.
  assert (getPrepro caseNode
          = if forallb (fun n => has_attribute "status" n && has_attribute "label" n) ps
            then Return (is_on <$> ps, label_of <$> ps, ps, attribute_of "args" <$> ps)
            else Raise KeyError) as Hp.
  { unfold getPrepro. rewrite (getElementsByTagName_element caseNode _ eq_refl).
    simpl mbind. fold ps.
    apply (script_loop_spec ps). apply elements_below_elements. discriminate. }
  assert (getScript caseNode
          = if forallb (fun n => has_attribute "status" n && has_attribute "label" n) ss
            then Return (is_on <$> ss, label_of <$> ss, ss, attribute_of "args" <$> ss,
                         (fun n => attribute n "repo") <$> ss,
                         (fun n => attribute n "dest") <$> ss)
            else Raise KeyError) as Hs.
  { unfold getScript. rewrite (getElementsByTagName_element caseNode _ eq_refl).
    simpl mbind. fold ss.
    apply (getScript_loop_spec ss). apply elements_below_elements. discriminate. }
  split; [exact Hp|]. split; [exact Hs|]. split.
  - intros prepro label nodes args Hret. rewrite Hp in Hret.
    destruct (forallb _ ps); [|discriminate]. inversion Hret; subst.
    rewrite !length_fmap. repeat split.
  - intros script label nodes args repo dest Hret. rewrite Hs in Hret.
    destruct (forallb _ ss); [|discriminate]. inversion Hret; subst.
    rewrite !length_fmap. repeat split.
Qed.

(** X7. For a study found by [getStudyNode], [getPostPro] returns lists
    with one entry for each postpro element below the study, in document
    order: the flag (status is 'on'), the label, the node and the args ("" by
    default); it raises [KeyError] exactly when a postpro element lacks its
    status or its label. *)
Theorem getPostPro_aligned (self : Parser) (l : string) (study : Node) :
  getStudyNode self l = Return (Some study) ->
  let ns := Dom.elements_below "postpro" study in
  getPostPro self l
  = if forallb (fun n => has_attribute "status" n && has_attribute "label" n) ns
    then Return (is_on <$> ns, label_of <$> ns, ns, attribute_of "args" <$> ns)
    else Raise KeyError.
Proof.
  intros Hs ns. unfold getPostPro. rewrite Hs. simpl.
  rewrite (getElementsByTagName_element study "postpro"
             (attribute_is_element _ _ _ (study_enabled self l study Hs))).
  simpl. fold ns. apply (script_loop_spec ns).
  apply elements_below_elements. discriminate.
Qed.

Lemma getPostPro_aligned_witness :
  exists n1 n2,
    getPostPro (Samples.parser_of Samples.posted) "P"
    = Return ([true; false], ["plot.py"; "old.py"], [n1; n2], ["-v"; ""]).
Proof.
  eexists _, _.
  rewrite (getPostPro_aligned (Samples.parser_of Samples.posted) "P"
             (Samples.elt "study" [("label", "P"); ("status", "on")]
                (Dom.childNodes
                   (default (Text "") (head (Dom.childNodes Samples.posted))))));
    [|vm_compute; reflexivity].
  vm_compute. reflexivity.
Defined.

(** ** The dependency of a case *)



(** ** Plot commands *)

Lemma getPltCommands_loop_spec (ns : list Node) :
  Forall (fun m => Dom.is_element m = true /\ Dom.nodeName m = "plt_command") ns ->
  forall cmd : list string,
  getPltCommands_loop ns cmd
  = if forallb (fun n => bool_decide (Dom.childNodes n = [])
                         || bool_decide (is_Some (first_text n))) ns
    then Return (cmd ++ omap first_text ns)
    else Raise AttributeError.
Proof.
  induction 1 as [|n ns [Hn Ht] _ IH]; intros cmd.
  - simpl. rewrite app_nil_r. reflexivity.
  - assert (first_text n = match Dom.childNodes n with
                          | [] => None
                          | c :: _ => match Dom.data c with
                                      | Return t => Some t
                                      | _ => None
                                      end
                          end) as Hf.
    { unfold first_text, Dom.firstChild. destruct (Dom.childNodes n); reflexivity. }
    simpl. rewrite Hn, Ht, Hf. simpl.
    destruct (Dom.childNodes n) as [|c rest] eqn:Hc; simpl.
    + rewrite IH. reflexivity.
    + destruct c; simpl; try reflexivity; rewrite IH;
        destruct (forallb _ ns); try reflexivity; rewrite <- app_assoc; reflexivity.
Qed.

(** X9. [getPltCommands] on an element returns, in document order, the data
    that starts each plt_command element below the node; a plt_command
    without content is skipped, and one that starts with an element makes the
    call raise [AttributeError]. The tests on the node type and the tag name
    in the loop never reject a node. *)
Theorem getPltCommands_texts (tag : string) (attrs : gmap string string)
    (cs : list Node) :
  let node := Element tag attrs cs in
  let ns := Dom.elements_below "plt_command" node in
  getPltCommands node
  = if forallb (fun n => bool_decide (Dom.childNodes n = [])
                         || bool_decide (is_Some (first_text n))) ns
    then Return (omap first_text ns)
    else Raise AttributeError.
Proof.
  intros node ns. unfold getPltCommands.
  rewrite (getElementsByTagName_element node _ eq_refl). simpl mbind. fold ns.
  apply (getPltCommands_loop_spec ns). apply elements_below_tag. discriminate.
Qed.

(** ** A label that no study carries *)

Section UnknownLabel.

Variable os_walk : string -> list (string * list string * list string).
Variable os_path_join : list string -> string.

(** X10. When the study elements all carry a label and none of them is
    labelled [l], every accessor that takes a study label raises
    [AttributeError]: each one calls a method of the [None] that
    [getStudyNode(l)] returns. *)
Theorem unknown_label_raises (self : Parser) (l : string) (studies : list Node)
    (attr : option string) :
  Dom.getElementsByTagName (root self) "study" = Return studies ->
  Forall (fun m => exists lab, attribute m "label" = Some lab /\ lab <> l) studies ->
  getStatusOnCasesLabels self l attr = Raise AttributeError
  /\ getStatusOnCasesKeywords self l = Raise AttributeError
  /\ getStudyMetadata self l = Raise AttributeError
  /\ getPostPro self l = Raise AttributeError
  /\ getSubplots self l = Raise AttributeError
  /\ getFigures self l = Raise AttributeError
  /\ getMeasurement os_walk os_path_join self l = Raise AttributeError.
Proof.
  intros Hs Hl.
  assert (getStudyNode self l = Return None) as Hnone.
  { unfold getStudyNode. rewrite Hs. simpl. apply getStudyNode_loop_absent, Hl. }
  unfold getStatusOnCasesLabels, getStatusOnCasesKeywords, getStudyMetadata,
    getPostPro, getSubplots, getFigures, getMeasurement.
  rewrite Hnone. repeat split.
Qed.

End UnknownLabel.

Lemma unknown_label_raises_witness :
  getStatusOnCasesKeywords (Samples.parser_of Samples.two_studies) "Z"
  = Raise AttributeError
  /\ getMeasurement Samples.walk Samples.join (Samples.parser_of Samples.two_studies) "Z"
     = Raise AttributeError.
Proof.
  destruct (unknown_label_raises Samples.walk Samples.join (Samples.parser_of Samples.two_studies) "Z"
              (Dom.elements_below "study" Samples.two_studies) None)
    as (_ & Hk & _ & _ & _ & _ & Hm).
  - reflexivity.
  - repeat constructor; eexists; (split; [vm_compute; reflexivity|discriminate]).
  - split; assumption.
Defined.

(** ** Measurement files *)

Lemma getRepository_again (s s' : Parser) (r : string) :
  getRepository s = Return (Some r, s') -> getRepository s' = Return (Some r, s').
Proof.
  unfold getRepository. destruct (repo s) as [q|] eqn:Hq.
  - intros H. inversion H; subst q s'. rewrite Hq. reflexivity.
  - destruct (getDataFromNode (root s) "repository") as [d| |]; simpl;
      try discriminate. intros H. inversion H; subst d s'. reflexivity.
Qed.

Section Measurement.

Variable os_walk : string -> list (string * list string * list string).
Variable os_path_join : list string -> string.

Lemma walk_loop_find (fileName : string)
    (walk : list (string * list string * list string)) (filePath : string) :
  walk_loop fileName walk filePath
  = match List.find (fun t => mem fileName (snd t)) walk with
    | Some t => fst (fst t)
    | None => filePath
    end.
Proof.
  induction walk as [|[[root dirs] fs] walk IH]; [reflexivity|]. simpl.
  destruct (mem fileName fs); [reflexivity|exact IH].
Qed.

Lemma getMeasurement_loop_spec (l r : string) (self' : Parser) (ns : list Node) :
  Forall (fun m => Dom.is_element m = true) ns ->
  forallb (fun n => has_attribute "file" n && has_attribute "path" n) ns = true ->
  forall (s : Parser) nodes files,
  getRepository s = Return (Some r, self') ->
  getMeasurement_loop os_walk os_path_join l ns s nodes files
  = Return (nodes ++ (Dom.elements_below "plot" <$> ns),
            files ++ (measurement_file os_walk os_path_join r l <$> ns),
            match ns with [] => s | _ :: _ => self' end).
Proof.
  induction 1 as [|n ns Hn _ IH]; intros Hattrs s nodes files Hrepo.
  - simpl. rewrite !app_nil_r. reflexivity.
  - simpl in Hattrs. apply andb_true_iff in Hattrs as [Hn' Hrest].
    apply andb_true_iff in Hn' as [Hfile Hpath].
    apply bool_decide_eq_true in Hfile as [f Hf].
    apply bool_decide_eq_true in Hpath as [q Hq].
    destruct n as [t a c| | | | |]; try discriminate. unfold attribute in Hf, Hq.
    cbn [getMeasurement_loop Dom.getElementsByTagName Dom.attr mbind outcome_bind].
    rewrite Hf, Hq. cbn [mbind outcome_bind]. rewrite Hrepo.
    cbn [mbind outcome_bind]. unfold repository_path.
    rewrite !fmap_cons.
    unfold measurement_file at 1, attribute_of. cbn [attribute]. rewrite Hf, Hq.
    cbn [default from_option id]. cbv zeta.
    destruct (String.eqb q "") eqn:Hqe; cbn [mbind outcome_bind];
      rewrite (IH Hrest self' _ _ (getRepository_again _ _ _ Hrepo));
      rewrite <- !app_assoc, walk_loop_find;
      destruct (List.find _ _); destruct ns; reflexivity.
Qed.

(** X11. For a study found by [getStudyNode] whose measurement elements
    all carry file and path, and a parser whose repository is known or can be
    read: [getMeasurement] returns one list of plot elements and one file for
    each measurement element, in document order. The file is joined to the
    first directory, in the order of the walk, that holds a file of that
    name; the walk starts at the study directory of the repository when the
    path is empty and at its POST/path directory otherwise; when no directory
    holds the file, the file is joined to the path attribute itself. The
    repository is read at most once. *)
Theorem getMeasurement_first_match (self self' : Parser) (l r : string) (study : Node) :
  getStudyNode self l = Return (Some study) ->
  let ns := Dom.elements_below "measurement" study in
  forallb (fun n => has_attribute "file" n && has_attribute "path" n) ns = true ->
  getRepository self = Return (Some r, self') ->
  getMeasurement os_walk os_path_join self l
  = Return (Dom.elements_below "plot" <$> ns,
            measurement_file os_walk os_path_join r l <$> ns,
            match ns with [] => self | _ :: _ => self' end).
Proof.
  intros Hs ns Hattrs Hrepo. unfold getMeasurement. rewrite Hs. simpl.
  rewrite (getElementsByTagName_element study "measurement"
             (attribute_is_element _ _ _ (study_enabled self l study Hs))).
  simpl. fold ns.
  apply (getMeasurement_loop_spec l r self' ns); try assumption.
  apply elements_below_elements. discriminate.
Qed.

End Measurement.

Lemma getMeasurement_first_match_witness :
  exists plots self',
    getMeasurement Samples.walk Samples.join (Samples.parser_of Samples.with_paths) "M"
    = Return (plots,
              ["/repo/M/POST/exp/exp.dat"; "/repo/M/POST/exp/ref.dat"; "lost.dat"],
              self')
    /\ repo self' = Some "/repo".
Proof.
  eexists _, _.
  rewrite (getMeasurement_first_match Samples.walk Samples.join
             (Samples.parser_of Samples.with_paths)
             (set_repo (Samples.parser_of Samples.with_paths) (Some "/repo"))
             "M" "/repo" Samples.study_M).
  - split; vm_compute; reflexivity.
  - vm_compute. reflexivity.
  - vm_compute. reflexivity.
  - vm_compute. reflexivity.
Defined.

(** ** The metadata of a study *)

Lemma named_spec (x : string) (c : Meta.case) :
  Meta.named x c = true <-> Meta.name c = x.
Proof. unfold Meta.named. apply String.eqb_eq. Qed.

Lemma existsb_named (x : string) (cases : list Meta.case) :
  existsb (Meta.named x) cases = bool_decide (x ∈ Meta.name <$> cases).
Proof.
  induction cases as [|c cases IH]; [reflexivity|]. simpl. rewrite IH.
  destruct (Meta.named x c) eqn:Hc; simpl.
  - apply named_spec in Hc. symmetry. apply bool_decide_eq_true. rewrite Hc. left.
  - apply bool_decide_ext. rewrite elem_of_cons. split; [auto|].
    intros [Heq|H]; [|exact H]. symmetry in Heq. apply named_spec in Heq. congruence.
Qed.

Lemma add_tags_nil (c : Meta.case) : Meta.add_tags [] c = c.
Proof. destruct c. unfold Meta.add_tags. simpl. rewrite app_nil_r. reflexivity. Qed.

Lemma items_loop_spec (ns : list Node) (vnv : list string) :
  Meta.items_loop ns vnv
  = if forallb (fun n => bool_decide (is_Some (first_text n))) ns
    then Return (vnv ++ omap first_text ns)
    else Raise AttributeError.
Proof.
  revert vnv. induction ns as [|n ns IH]; intros vnv; simpl.
  - rewrite app_nil_r. reflexivity.
  - assert (first_text n = match Dom.data_of (Dom.firstChild n) with
                          | Return t => Some t
                          | _ => None
                          end) as Hf by reflexivity.
    rewrite Hf.
    destruct (Dom.data_of (Dom.firstChild n)) as [text|e|code] eqn:Hd; simpl.
    + rewrite IH. destruct (forallb _ ns); [|reflexivity].
      rewrite <- app_assoc. reflexivity.
    + destruct (Dom.firstChild n) as [c|]; simpl in Hd; [destruct c|];
        inversion Hd; reflexivity.
    + destruct (Dom.firstChild n) as [c|]; simpl in Hd; [destruct c|]; discriminate.
Qed.

(** The first pass adds one entry for each description, and stops at the
    first label met again. *)
Lemma descriptions_loop_spec (ns : list Node) :
  Forall (fun m => Dom.is_element m = true /\ is_Some (attribute m "label")) ns ->
  forallb items_readable ns = true ->
  forall cases : list Meta.case,
  NoDup (Meta.name <$> cases) ->
  Meta.descriptions_loop ns cases
  = if decide (NoDup ((Meta.name <$> cases) ++ (label_of <$> ns)))
    then Return (cases ++ (described <$> ns))
    else Raise NameError.
Proof.
  induction 1 as [|n ns [Hn [lab Hlab]] _ IH]; intros Hitems cases Hnd.
  - simpl. rewrite !app_nil_r. rewrite decide_True by exact Hnd. reflexivity.
  - simpl in Hitems. apply andb_true_iff in Hitems as [Hi Hrest].
    assert (label_of n = lab) as Hlo by (unfold label_of; rewrite Hlab; reflexivity).
    cbn [Meta.descriptions_loop]. rewrite (attr_element n _ Hn), Hlab.
    cbn [mbind outcome_bind]. rewrite existsb_named, !fmap_cons, Hlo.
    case_bool_decide as Hin.
    + rewrite decide_False; [reflexivity|].
      intros Hall. apply NoDup_app in Hall as (_ & Hdisj & _).
      apply (Hdisj lab Hin). left.
    + rewrite (getElementsByTagName_element n _ Hn). cbn [mbind outcome_bind].
      rewrite items_loop_spec. unfold items_readable in Hi. rewrite Hi.
      cbn [mbind outcome_bind app].
      assert (NoDup (Meta.name <$> cases ++ [Meta.mkCase lab [] (items_of n)])) as Hnd'.
      { rewrite fmap_app. apply NoDup_app. split; [exact Hnd|]. split.
        - intros x Hx Hx'. apply list_elem_of_singleton in Hx'. subst x. contradiction.
        - apply NoDup_singleton. }
      fold (items_of n). rewrite (IH Hrest _ Hnd'). rewrite fmap_app, <- !app_assoc.
      unfold described at 2. rewrite Hlo. reflexivity.
Qed.

Lemma find_case_id_absent (x : string) (cases : list Meta.case) (c_id case_id : Z) :
  x ∉ Meta.name <$> cases -> Meta.find_case_id x cases c_id case_id = case_id.
Proof.
  revert c_id case_id. induction cases as [|c cases IH]; intros c_id case_id Hx;
    [reflexivity|]. simpl. rewrite fmap_cons in Hx. apply not_elem_of_cons in Hx as [Hc Hx].
  destruct (Meta.named x c) eqn:Hn.
  - apply named_spec in Hn. congruence.
  - apply IH, Hx.
Qed.

Lemma find_case_id_index (x : string) (cases : list Meta.case) (i : nat)
    (c_id case_id : Z) :
  NoDup (Meta.name <$> cases) ->
  (Meta.name <$> cases) !! i = Some x ->
  Meta.find_case_id x cases c_id case_id = c_id + Z.of_nat i.
Proof.
  revert i c_id case_id. induction cases as [|c cases IH]; intros i c_id case_id Hnd Hi;
    [discriminate|]. rewrite fmap_cons in Hnd. apply NoDup_cons in Hnd as [Hc Hnd].
  cbn [Meta.find_case_id]. destruct i as [|i]; simpl in Hi.
  - assert (Meta.name c = x) as Hx by congruence. clear Hi.
    assert (Meta.named x c = true) as -> by (apply named_spec; exact Hx).
    rewrite Hx in Hc. rewrite find_case_id_absent by exact Hc. lia.
  - assert (Meta.named x c = false) as ->.
    { destruct (Meta.named x c) eqn:Hn; [|reflexivity]. apply named_spec in Hn.
      exfalso. apply Hc. rewrite Hn. eapply list_elem_of_lookup_2, Hi. }
    rewrite (IH i) by assumption. lia.
Qed.

Lemma alter_unique (f : Meta.case -> Meta.case) (x : string) (cases : list Meta.case)
    (i : nat) :
  NoDup (Meta.name <$> cases) ->
  (Meta.name <$> cases) !! i = Some x ->
  alter f i cases = (fun c => if Meta.named x c then f c else c) <$> cases.
Proof.
  revert i. induction cases as [|c cases IH]; intros i Hnd Hi; [discriminate|].
  rewrite fmap_cons in Hnd. apply NoDup_cons in Hnd as [Hc Hnd].
  destruct i as [|i]; simpl in Hi.
  - assert (Meta.name c = x) as Hx by congruence. clear Hi.
    rewrite Hx in Hc. cbn [alter list_alter fmap list_fmap].
    assert (Meta.named x c = true) as -> by (apply named_spec; exact Hx).
    f_equal. symmetry. rewrite <- (list_fmap_id cases) at 2.
    apply list_fmap_ext. intros j d Hd. simpl.
    destruct (Meta.named x d) eqn:Hn; [|reflexivity]. apply named_spec in Hn.
    exfalso. apply Hc. rewrite <- Hn. apply list_elem_of_fmap. exists d.
    split; [reflexivity|]. eapply list_elem_of_lookup_2, Hd.
  - cbn [alter list_alter fmap list_fmap]. assert (Meta.named x c = false) as ->.
    { destruct (Meta.named x c) eqn:Hn; [|reflexivity]. apply named_spec in Hn.
      exfalso. apply Hc. rewrite Hn. eapply list_elem_of_lookup_2, Hi. }
    f_equal. apply IH; assumption.
Qed.

Lemma tag_step_names (cases : list Meta.case) (n : Node) :
  Meta.name <$> tag_step cases n
  = if bool_decide (label_of n ∈ Meta.name <$> cases)
    then Meta.name <$> cases
    else (Meta.name <$> cases) ++ [label_of n].
Proof.
  unfold tag_step. rewrite existsb_named, <- list_fmap_compose.
  assert (forall l : list Meta.case,
            (Meta.name ∘ (fun c => if Meta.named (label_of n) c
                                    then Meta.add_tags (case_tags n) c else c)) <$> l
            = Meta.name <$> l) as Hname.
  { intros l. apply list_fmap_ext. intros i c _. simpl.
    destruct (Meta.named (label_of n) c); reflexivity. }
  rewrite Hname. case_bool_decide; [reflexivity|]. rewrite fmap_app. reflexivity.
Qed.

Lemma tag_step_NoDup (cases : list Meta.case) (n : Node) :
  NoDup (Meta.name <$> cases) -> NoDup (Meta.name <$> tag_step cases n).
Proof.
  intros Hnd. rewrite tag_step_names. case_bool_decide as Hin; [exact Hnd|].
  apply NoDup_app. split; [exact Hnd|]. split.
  - intros x Hx Hx'. apply list_elem_of_singleton in Hx'. subst x. contradiction.
  - apply NoDup_singleton.
Qed.

Lemma tags_step_identity (x : string) (cases : list Meta.case) :
  (fun c => if Meta.named x c then Meta.add_tags [] c else c) <$> cases = cases.
Proof.
  rewrite <- (list_fmap_id cases) at 2. apply list_fmap_ext. intros i c _. simpl.
  destruct (Meta.named x c); [apply add_tags_nil|reflexivity].
Qed.

(** On entries with distinct names, the second pass is the iteration of
    [tag_step]. *)
Lemma meta_cases_loop_spec (ns : list Node) :
  Forall (fun m => Dom.is_element m = true /\ is_Some (attribute m "label")) ns ->
  forall cases : list Meta.case,
  NoDup (Meta.name <$> cases) ->
  Meta.cases_loop ns cases = Return (fold_left tag_step ns cases).
Proof.
  induction 1 as [|n ns [Hn [lab Hlab]] _ IH]; intros cases Hnd; [reflexivity|].
  assert (label_of n = lab) as Hlo by (unfold label_of; rewrite Hlab; reflexivity).
  cbn [Meta.cases_loop fold_left]. rewrite (attr_element n _ Hn), Hlab.
  cbn [mbind outcome_bind].
  rewrite <- (IH (tag_step cases n) (tag_step_NoDup cases n Hnd)). f_equal.
  unfold tag_step. rewrite Hlo, existsb_named.
  set (g := fun c => if Meta.named lab c then Meta.add_tags (case_tags n) c else c).
  destruct (decide (lab ∈ Meta.name <$> cases)) as [Hin|Hin];
    [rewrite (bool_decide_eq_true_2 _ Hin)|rewrite (bool_decide_eq_false_2 _ Hin)].
  - apply list_elem_of_lookup in Hin as [i Hi].
    rewrite (find_case_id_index lab cases i 0 (-1) Hnd Hi).
    replace (0 + Z.of_nat i <? 0) with false by (symmetry; apply Z.ltb_ge; lia).
    replace (Z.to_nat (0 + Z.of_nat i)) with i by lia.
    case_bool_decide as Ht; simpl.
    + unfold g. rewrite Ht. symmetry. apply tags_step_identity.
    + apply (alter_unique _ lab cases i Hnd Hi).
  - rewrite (find_case_id_absent lab cases 0 (-1) Hin).
    replace (-1 <? 0) with true by reflexivity.
    assert (NoDup (Meta.name <$> cases ++ [Meta.mkCase lab [] []])) as Hnd1.
    { rewrite fmap_app. apply NoDup_app. split; [exact Hnd|]. split.
      - intros x Hx Hx'. apply list_elem_of_singleton in Hx'. subst x. contradiction.
      - apply NoDup_singleton. }
    assert ((Meta.name <$> cases ++ [Meta.mkCase lab [] []]) !! length cases = Some lab)
      as Hi.
    { rewrite fmap_app. rewrite lookup_app_r by (rewrite length_fmap; lia).
      rewrite length_fmap, Nat.sub_diag. reflexivity. }
    replace (Z.to_nat (Z.of_nat (length (cases ++ [Meta.mkCase lab [] []])) - 1))
      with (length cases) by (rewrite length_app; simpl; lia).
    case_bool_decide as Ht; simpl.
    + unfold g. rewrite Ht. symmetry. apply tags_step_identity.
    + apply (alter_unique _ lab _ _ Hnd1 Hi).
Qed.

Lemma fold_tag_step_names (ns : list Node) (cases : list Meta.case) :
  Meta.name <$> fold_left tag_step ns cases
  = Meta.fromkeys (label_of <$> ns) (Meta.name <$> cases).
Proof.
  revert cases. induction ns as [|n ns IH]; intros cases; [reflexivity|].
  cbn [fold_left]. rewrite IH, tag_step_names, fmap_cons. cbn [Meta.fromkeys].
  unfold mem. destruct (bool_decide (label_of n ∈ Meta.name <$> cases)); reflexivity.
Qed.

Lemma fold_tag_step_NoDup (ns : list Node) (cases : list Meta.case) :
  NoDup (Meta.name <$> cases) -> NoDup (Meta.name <$> fold_left tag_step ns cases).
Proof.
  revert cases. induction ns as [|n ns IH]; intros cases Hnd; [exact Hnd|].
  cbn [fold_left]. apply IH, tag_step_NoDup, Hnd.
Qed.

Lemma fromkeys_spec (tmp : list string) :
  forall keys : list string,
  NoDup keys ->
  NoDup (Meta.fromkeys tmp keys)
  /\ (forall x, x ∈ Meta.fromkeys tmp keys <-> x ∈ keys \/ x ∈ tmp)
  /\ exists new, Meta.fromkeys tmp keys = keys ++ new.
Proof.
  induction tmp as [|t tmp IH]; intros keys Hnd.
  - simpl. split; [exact Hnd|]. split.
    + intros x. rewrite elem_of_nil. tauto.
    + exists []. rewrite app_nil_r. reflexivity.
  - cbn [Meta.fromkeys]. unfold mem. case_bool_decide as Hin.
    + destruct (IH keys Hnd) as (H1 & H2 & H3). split; [exact H1|]. split; [|exact H3].
      intros x. rewrite H2, elem_of_cons. split; [tauto|].
      intros [H|[->|H]]; auto.
    + assert (NoDup (keys ++ [t])) as Hnd'.
      { apply NoDup_app. split; [exact Hnd|]. split.
        - intros x Hx Hx'. apply list_elem_of_singleton in Hx'. subst x. contradiction.
        - apply NoDup_singleton. }
      destruct (IH _ Hnd') as (H1 & H2 & new & H3). split; [exact H1|]. split.
      * intros x. rewrite H2, elem_of_app, list_elem_of_singleton, elem_of_cons. tauto.
      * exists (t :: new). rewrite H3, <- app_assoc. reflexivity.
Qed.

Lemma find_named (x : string) (cases : list Meta.case) (c : Meta.case) :
  NoDup (Meta.name <$> cases) -> c ∈ cases -> Meta.name c = x ->
  List.find (Meta.named x) cases = Some c.
Proof.
  induction cases as [|d cases IH]; intros Hnd Hin Hx; [inversion Hin|].
  rewrite fmap_cons in Hnd. apply NoDup_cons in Hnd as [Hd Hnd]. cbn [List.find].
  apply elem_of_cons in Hin as [->|Hin].
  - assert (Meta.named x d = true) as -> by (apply named_spec; exact Hx). reflexivity.
  - assert (Meta.named x d = false) as ->.
    { destruct (Meta.named x d) eqn:Hn; [|reflexivity]. apply named_spec in Hn.
      exfalso. apply Hd. rewrite Hn, <- Hx. apply list_elem_of_fmap. eauto. }
    apply IH; assumption.
Qed.

Lemma find_named_step (x y : string) (ctags : list string) (cases : list Meta.case) :
  List.find (Meta.named y)
    ((fun c => if Meta.named x c then Meta.add_tags ctags c else c) <$> cases)
  = (fun c => if Meta.named x c then Meta.add_tags ctags c else c)
      <$> List.find (Meta.named y) cases.
Proof.
  induction cases as [|c cases IH]; [reflexivity|]. rewrite fmap_cons. cbn [List.find].
  assert (Meta.named y (if Meta.named x c then Meta.add_tags ctags c else c)
          = Meta.named y c) as -> by (destruct (Meta.named x c); reflexivity).
  destruct (Meta.named y c); [reflexivity|exact IH].
Qed.

Lemma find_named_None (y : string) (cases : list Meta.case) :
  List.find (Meta.named y) cases = None <-> y ∉ Meta.name <$> cases.
Proof.
  induction cases as [|c cases IH]; simpl.
  - split; [intros _ H; inversion H|reflexivity].
  - rewrite not_elem_of_cons. destruct (Meta.named y c) eqn:Hn.
    + apply named_spec in Hn. split; [discriminate|]. intros [H _]. congruence.
    + rewrite IH. split; [|tauto]. intros H. split; [|exact H].
      intros Heq. symmetry in Heq. apply named_spec in Heq. congruence.
Qed.

Lemma find_snoc {A : Type} (f : A -> bool) (l : list A) (x : A) :
  List.find f (l ++ [x])
  = match List.find f l with
    | Some y => Some y
    | None => if f x then Some x else None
    end.
Proof.
  induction l as [|a l IH]; simpl; [reflexivity|]. destruct (f a); [reflexivity|exact IH].
Qed.

(** What one step does to the tags and to the items recorded under each
    name. *)
Lemma entry_step (cases : list Meta.case) (n : Node) (y : string) :
  entry_tags (tag_step cases n) y
  = entry_tags cases y ++ (if String.eqb (label_of n) y then case_tags n else [])
  /\ entry_items (tag_step cases n) y = entry_items cases y.
Proof.
  unfold entry_tags, entry_items, tag_step. rewrite find_named_step, existsb_named.
  set (x := label_of n).
  case_bool_decide as Hin.
  - destruct (List.find (Meta.named y) cases) as [c|] eqn:Hf; simpl.
    + apply find_some in Hf as [_ Hy]. apply named_spec in Hy.
      unfold Meta.named. rewrite Hy, (String.eqb_sym y x).
      destruct (String.eqb x y); simpl; [auto|]. rewrite app_nil_r. auto.
    + apply find_named_None in Hf.
      destruct (String.eqb_spec x y) as [Heq|Hne]; [|auto]. subst y. contradiction.
  - rewrite find_snoc.
    destruct (List.find (Meta.named y) cases) as [c|] eqn:Hf; simpl.
    + apply find_some in Hf as [Hc Hy]. apply named_spec in Hy.
      assert (Meta.named x c = false) as Hxc.
      { destruct (Meta.named x c) eqn:Hn; [|reflexivity]. apply named_spec in Hn.
        exfalso. apply Hin. rewrite <- Hn. apply list_elem_of_fmap.
        exists c. split; [reflexivity|]. apply list_elem_of_In, Hc. }
      rewrite Hxc. assert (String.eqb x y = false) as ->.
      { destruct (String.eqb_spec x y) as [Heq|]; [|reflexivity].
        rewrite <- Heq in Hy. apply named_spec in Hy. congruence. }
      rewrite app_nil_r. auto.
    + change (Meta.named y (Meta.mkCase x [] [])) with (String.eqb x y).
      destruct (String.eqb x y); simpl; [|auto].
      change (Meta.named x (Meta.mkCase x [] [])) with (String.eqb x x).
      rewrite String.eqb_refl. simpl. auto.
Qed.

Lemma tags_for_cons (y : string) (n : Node) (ns : list Node) :
  tags_for y (n :: ns)
  = (if String.eqb (label_of n) y then case_tags n else []) ++ tags_for y ns.
Proof.
  unfold tags_for. simpl. destruct (String.eqb (label_of n) y); reflexivity.
Qed.

(** The entries after the second pass: under each name, the tags it had
    followed by those of the cases with that label, and the items it had. *)
Lemma fold_tag_step_entries (ns : list Node) :
  forall cases : list Meta.case,
  NoDup (Meta.name <$> cases) ->
  forall c, c ∈ fold_left tag_step ns cases ->
    Meta.tags c = entry_tags cases (Meta.name c) ++ tags_for (Meta.name c) ns
    /\ Meta.vnvitem c = entry_items cases (Meta.name c).
Proof.
  induction ns as [|n ns IH]; intros cases Hnd c Hc.
  - simpl in Hc. unfold entry_tags, entry_items.
    rewrite (find_named _ cases c Hnd Hc eq_refl). unfold tags_for. simpl.
    rewrite app_nil_r. auto.
  - cbn [fold_left] in Hc.
    destruct (IH _ (tag_step_NoDup cases n Hnd) c Hc) as [Ht Hi].
    destruct (entry_step cases n (Meta.name c)) as [Et Ei].
    rewrite Ht, Hi, Et, Ei, tags_for_cons, <- app_assoc. auto.
Qed.

Lemma described_names (descr : list Node) :
  Meta.name <$> (described <$> descr) = label_of <$> descr.
Proof. rewrite <- list_fmap_compose. reflexivity. Qed.

Lemma labelled_elements (name : string) (n : Node) :
  name <> "*" ->
  Forall (fun m => is_Some (attribute m "label")) (Dom.elements_below name n) ->
  Forall (fun m => Dom.is_element m = true /\ is_Some (attribute m "label"))
         (Dom.elements_below name n).
Proof.
  intros Hname H. pose proof (elements_below_elements name n Hname) as He.
  rewrite Forall_forall in *. intros m Hm. split; [apply He, Hm|apply H, Hm].
Qed.

(** X12. [getStudyMetadata] for a study found by [getStudyNode] whose case
    descriptions and cases all carry a label, the items of the descriptions
    being readable. If two descriptions share a label the call raises (a
    [NameError], its message using an unbound name). Otherwise it returns
    entries with distinct names: first the descriptions, then the labels of
    the cases that no entry has yet, in the order of their first occurrence;
    every description and every case, enabled or not, has its entry. The
    tags of an entry are those of all the cases with its name, in document
    order, and its items those of the description with its name. The tags of
    the study's cases are the tags of the entries without repetition. *)
Theorem getStudyMetadata_entries (self : Parser) (l : string) (study : Node) :
  getStudyNode self l = Return (Some study) ->
  let descr := Dom.elements_below "case_description" study in
  let nodes := Dom.elements_below "case" study in
  Forall (fun m => is_Some (attribute m "label")) descr ->
  forallb items_readable descr = true ->
  Forall (fun m => is_Some (attribute m "label")) nodes ->
  (~ NoDup (label_of <$> descr) -> getStudyMetadata self l = Raise NameError)
  /\ (NoDup (label_of <$> descr) ->
      exists st cases,
        getStudyMetadata self l = Return (st, cases)
        /\ Meta.study_name st = l
        /\ Meta.tags_study st = study_tags study
        /\ Meta.name <$> cases
           = Meta.fromkeys (label_of <$> nodes) (label_of <$> descr)
        /\ NoDup (Meta.name <$> cases)
        /\ (forall n, n ∈ descr \/ n ∈ nodes -> label_of n ∈ Meta.name <$> cases)
        /\ (forall c, c ∈ cases ->
              Meta.tags c = tags_for (Meta.name c) nodes
              /\ Meta.vnvitem c = entry_items (described <$> descr) (Meta.name c))
        /\ NoDup (Meta.tags_cases st)
        /\ (forall t, t ∈ Meta.tags_cases st <-> exists c, c ∈ cases /\ t ∈ Meta.tags c)).
Proof.
  intros Hs descr nodes Hdl Hitems Hnl.
  pose proof (attribute_is_element _ _ _ (study_enabled self l study Hs)) as He.
  assert (Hd : Meta.descriptions_loop descr []
               = if decide (NoDup (label_of <$> descr))
                 then Return (described <$> descr) else Raise NameError).
  { rewrite (descriptions_loop_spec descr
               (labelled_elements "case_description" study ltac:(discriminate) Hdl)
               Hitems [] (NoDup_nil_2)).
    reflexivity. }
  assert (Hprefix : forall k : list Meta.case -> outcome (Meta.study * list Meta.case),
            getStudyMetadata self l
            = match Meta.descriptions_loop descr [] with
              | Return cases =>
                  match Meta.cases_loop nodes cases with
                  | Return cases' =>
                      Return (Meta.mkStudy l
                                (concat (split_tags
                                           <$> omap first_text
                                                 (Dom.elements_below "study_keywords" study)))
                                (study_tags study)
                                (Meta.fromkeys (concat (Meta.tags <$> cases')) []),
                              cases')
                  | Raise e => Raise e
                  | Exit c => Exit c
                  end
              | Raise e => Raise e
              | Exit c => Exit c
              end).
  { intros _. unfold getStudyMetadata. rewrite Hs. cbn [mbind outcome_bind].
    rewrite (getStudyKeywords_element study He). cbn [mbind outcome_bind].
    rewrite (study_tags_read self l study Hs). cbn [mbind outcome_bind].
    unfold Dom.getElementsByTagName_of.
    rewrite !(getElementsByTagName_element study _ He). cbn [mbind outcome_bind].
    fold descr nodes. destruct (Meta.descriptions_loop descr []) as [cs| |];
      reflexivity. }
  specialize (Hprefix (fun _ => Raise NameError)). rewrite Hd in Hprefix.
  split; intros Hnd.
  - rewrite Hprefix, decide_False by exact Hnd. reflexivity.
  - rewrite decide_True in Hprefix by exact Hnd.
    assert (NoDup (Meta.name <$> (described <$> descr))) as Hnd'
      by (rewrite described_names; exact Hnd).
    rewrite (meta_cases_loop_spec nodes
               (labelled_elements "case" study ltac:(discriminate) Hnl) _ Hnd')
      in Hprefix.
    set (cases := fold_left tag_step nodes (described <$> descr)) in *.
    pose proof (fold_tag_step_names nodes (described <$> descr)) as Hnames.
    rewrite described_names in Hnames. fold cases in Hnames.
    pose proof (fold_tag_step_NoDup nodes _ Hnd') as Hnodup. fold cases in Hnodup.
    destruct (fromkeys_spec (label_of <$> nodes) (label_of <$> descr) Hnd)
      as (_ & Hkeys & _).
    destruct (fromkeys_spec (concat (Meta.tags <$> cases)) [] (NoDup_nil_2))
      as (Htn & Htk & _).
    eexists _, cases. split; [exact Hprefix|]. cbn [Meta.study_name Meta.tags_study
      Meta.tags_cases]. split; [reflexivity|]. split; [reflexivity|].
    split; [exact Hnames|]. split; [exact Hnodup|]. split; [|split; [|split]].
    + intros n Hn. rewrite Hnames. apply Hkeys.
      destruct Hn as [Hn|Hn]; [left|right]; apply list_elem_of_fmap; eauto.
    + intros c Hc. destruct (fold_tag_step_entries nodes _ Hnd' c Hc) as [Ht Hi].
      split; [|exact Hi]. rewrite Ht.
      assert (entry_tags (described <$> descr) (Meta.name c) = []) as ->; [|reflexivity].
      unfold entry_tags.
      destruct (List.find (Meta.named (Meta.name c)) (described <$> descr)) as [d|] eqn:Hf;
        [|reflexivity].
      apply find_some in Hf as [Hin _]. apply list_elem_of_In, list_elem_of_fmap in Hin
        as (m & -> & _). reflexivity.
    + exact Htn.
    + intros t. rewrite Htk, elem_of_nil. split.
      * intros [[]|Ht]. apply list_elem_of_In, in_concat in Ht as (ts & Hts & Ht).
        apply list_elem_of_In, list_elem_of_fmap in Hts as (c & -> & Hc).
        exists c. split; [exact Hc|apply list_elem_of_In, Ht].
      * intros (c & Hc & Ht). right. apply list_elem_of_In, in_concat.
        exists (Meta.tags c). split; [|apply list_elem_of_In, Ht].
        apply list_elem_of_In, list_elem_of_fmap. eauto.
Qed.

Lemma getStudyMetadata_entries_witness :
  exists st cases,
    getStudyMetadata (Samples.parser_of Samples.with_paths) "M" = Return (st, cases)
    /\ Meta.name <$> cases = ["C1"; "C2"; "C3"]
    /\ Meta.tags <$> cases = [["b"; "c"]; ["a"; "b"; "c"]; []]
    /\ Meta.tags_cases st = ["b"; "c"; "a"].
Proof.
  destruct (getStudyMetadata_entries (Samples.parser_of Samples.with_paths) "M"
              Samples.study_M) as [_ H].
  - vm_compute. reflexivity.
  - repeat constructor; vm_compute; eauto.
  - vm_compute. reflexivity.
  - repeat constructor; vm_compute; eauto.
  - destruct H as (st & cases & Hret & _ & _ & Hnames & _).
    + vm_compute. repeat constructor; rewrite ?elem_of_cons, ?elem_of_nil;
        intros H; repeat destruct H as [H|H]; try discriminate; exact H.
    + exists st, cases. split; [exact Hret|]. split; [rewrite Hnames; reflexivity|].
      vm_compute in Hret. inversion Hret; subst st cases. split; reflexivity.
Defined.

(** ** The warning on deprecated options *)

Lemma deprecated_check_compute (node : Node) (b : bool) :
  Dom.is_element node = true ->
  deprecated_check node b = (has_attribute "compute" node || b)%bool.
Proof.
  intros He. unfold deprecated_check, has_attribute. rewrite (attr_element node _ He).
  destruct (attribute node "compute"); reflexivity.
Qed.

Lemma cases_loop_deprecated (self : Parser) (l : string) (study : Node)
    (nodes : list Node) :
  getStudyNode self l = Return (Some study) ->
  Forall case_regular nodes ->
  forall (st : cases_state) (processed : list Node),
  counts (st_list_case st) processed ->
  exists st',
    cases_loop self l nodes st = Return st'
    /\ st_deprecated_option st'
       = (existsb (fun n => is_on n && has_attribute "compute" n) nodes
          || st_deprecated_option st)%bool.
Proof.
  intros Hs. induction 1 as [|node nodes Hn _ IH]; intros st processed Hc.
  - exists st. auto.
  - pose proof (case_step_spec self l study Hs st processed node Hn Hc) as Hstep.
    cbn [cases_loop existsb]. destruct (is_on node) eqn:Hon.
    + destruct Hstep as (d & Hstep & _). rewrite Hstep. cbn [mbind outcome_bind].
      destruct (IH (mkState (st_data st ++ [d])
                      (count_label (st_list_case st) (label_of node))
                      (deprecated_check node (st_deprecated_option st)))
                  (processed ++ [node]) (counts_count_label _ _ node Hc))
        as (st' & Hrun & Hflag).
      exists st'. split; [exact Hrun|]. rewrite Hflag. cbn [st_deprecated_option].
      rewrite deprecated_check_compute.
      * destruct (existsb _ nodes), (has_attribute "compute" node),
          (st_deprecated_option st); reflexivity.
      * destruct Hn as [[[v Hv] _] _]. eapply attribute_is_element, Hv.
    + rewrite Hstep. cbn [mbind outcome_bind]. apply (IH st processed Hc).
Qed.

(** X13. For a study found by [getStudyNode] whose cases are regular,
    [getStatusOnCasesKeywords] prints its warning on deprecated options
    exactly when an enabled case carries the attribute 'compute': the
    attributes 'post' and 'compare' alone do not raise it, since the lookup
    of 'compute' fails first. *)
Theorem deprecated_warning_on_compute (self : Parser) (l : string) (study : Node) :
  getStudyNode self l = Return (Some study) ->
  Forall case_regular (Dom.elements_below "case" study) ->
  getStatusOnCasesKeywords_warns self l
  = Return (existsb (fun n => is_on n && has_attribute "compute" n)
              (Dom.elements_below "case" study)).
Proof.
  intros Hs Hwf. unfold getStatusOnCasesKeywords_warns. rewrite Hs.
  cbn [mbind outcome_bind]. unfold Dom.getElementsByTagName_of.
  rewrite (getElementsByTagName_element study "case"
             (attribute_is_element _ _ _ (study_enabled self l study Hs))).
  cbn [mbind outcome_bind].
  destruct (cases_loop_deprecated self l study _ Hs Hwf (mkState [] ∅ false) []
              counts_empty) as (st' & Hrun & Hflag).
  rewrite Hrun. cbn [mbind outcome_bind]. rewrite Hflag. cbn [st_deprecated_option].
  rewrite orb_false_r. reflexivity.
Qed.

Lemma deprecated_warning_on_compute_witness :
  getStatusOnCasesKeywords_warns (Samples.parser_of Samples.computed) "S" = Return true
  /\ getStatusOnCasesKeywords_warns (Samples.parser_of Samples.two_studies) "A"
     = Return false.
Proof.
  split.
  - rewrite (deprecated_warning_on_compute (Samples.parser_of Samples.computed) "S"
               Samples.computed_study).
    + vm_compute. reflexivity.
    + vm_compute. reflexivity.
    + apply (Forall_checked _ _ _ case_regular_b_sound). vm_compute. reflexivity.
  - rewrite (deprecated_warning_on_compute (Samples.parser_of Samples.two_studies) "A"
               Samples.study_A).
    + vm_compute. reflexivity.
    + vm_compute. reflexivity.
    + apply (Forall_checked _ _ _ case_regular_b_sound). vm_compute. reflexivity.
Defined.

(** ** Labels and records of the enabled cases *)

Lemma records_match_labels (stags : list string) (ns : list Node) :
  forall processed ds,
  records_match stags processed ns ds ->
  (fun d : gmap string value => d !! "label") <$> ds
  = (fun n => Some (VStr (label_of n))) <$> ns.
Proof.
  induction ns as [|n ns IH]; intros processed [|d ds]; simpl; try tauto.
  intros [(_ & Hl & _) Hrest]. rewrite Hl. f_equal. eapply IH, Hrest.
Qed.

(** X14. For a study found by [getStudyNode] whose cases are regular, the
    two accessors of the enabled cases agree: the labels that
    [getStatusOnCasesLabels] returns when no attribute name is given are, in
    the same order, the labels of the records that [getStatusOnCasesKeywords]
    returns. *)
Theorem labels_of_records (self : Parser) (l : string) (study : Node) :
  getStudyNode self l = Return (Some study) ->
  Forall case_regular (Dom.elements_below "case" study) ->
  exists labels data,
    getStatusOnCasesLabels self l None = Return labels
    /\ getStatusOnCasesKeywords self l = Return data
    /\ (fun d : gmap string value => d !! "label") <$> data
       = (fun lab => Some (VStr lab)) <$> labels.
Proof.
  intros Hs Hwf.
  destruct (getStatusOnCasesKeywords_records self l study Hs Hwf) as (data & Hret & Hm).
  exists (label_of <$> List.filter is_on (Dom.elements_below "case" study)), data.
  split; [|split; [exact Hret|]].
  - unfold getStatusOnCasesLabels. rewrite Hs. cbn [mbind outcome_bind].
    unfold Dom.getElementsByTagName_of.
    rewrite (getElementsByTagName_element study "case"
               (attribute_is_element _ _ _ (study_enabled self l study Hs))).
    cbn [mbind outcome_bind].
    rewrite (getStatusOnCasesLabels_loop_spec None).
    + assert (forallb (carries None) (Dom.elements_below "case" study) = true) as ->.
      { apply forallb_forall. intros n _. unfold carries. simpl. apply orb_true_r. }
      simpl. f_equal. f_equal. apply filter_ext. intros n. unfold case_selected. simpl.
      apply andb_true_r.
    + eapply Forall_impl; [exact Hwf|]. intros n [Hn _]. exact Hn.
  - rewrite (records_match_labels _ _ _ _ Hm), <- list_fmap_compose. reflexivity.
Qed.

Lemma labels_of_records_witness :
  exists data,
    getStatusOnCasesLabels (Samples.parser_of Samples.two_studies) "A" None
    = Return ["C"; "C"]
    /\ getStatusOnCasesKeywords (Samples.parser_of Samples.two_studies) "A"
       = Return data
    /\ (fun d : gmap string value => d !! "label") <$> data
       = [Some (VStr "C"); Some (VStr "C")].
Proof.
  destruct (labels_of_records (Samples.parser_of Samples.two_studies) "A"
              Samples.study_A)
    as (labels & data & Hl & Hd & Heq).
  - vm_compute. reflexivity.
  - apply (Forall_checked _ _ _ case_regular_b_sound). vm_compute. reflexivity.
  - vm_compute in Hl. inversion Hl; subst labels.
    exists data. split; [vm_compute; reflexivity|]. split; [exact Hd|]. exact Heq.
Defined.

(** ** The flag-style children of a case *)

Lemma flag_child_b_sound (n : Node) : flag_child_b n = true -> flag_child n.
Proof.
  destruct n as [tag attrs [|c cs]| | | | |]; simpl; try (intros; exact I).
  unfold mem. intros H. apply negb_true_iff, bool_decide_eq_false in H. exact H.
Qed.

(** On regular children, none of them with content being named like a flag,
    the loop leaves under each flag key the args of the children with that
    name, added one after the other. *)
Lemma case_children_loop_flags (children : list Node) :
  Forall child_regular children ->
  Forall flag_child children ->
  forall d : gmap string value, flags_ok d ->
  exists d',
    case_children_loop children d = Return d'
    /\ forall k v0, k ∈ setup_filter_keys -> d !! k = Some v0 ->
         d' !! k = Some (fold_left add_flag (flag_args k children) v0).
Proof.
  induction 1 as [|n children Hn _ IH]; intros Hflag d Hd.
  - exists d. split; [reflexivity|]. intros k v0 _ Hk. exact Hk.
  - apply Forall_cons in Hflag as [Hfn Hflag]. specialize (IH Hflag).
    destruct n as [tag attrs cs| | | | |];
      try (destruct (IH d Hd) as (d' & Hrun & Hk); exists d'; split; [exact Hrun|];
           intros k v0 Hin Hv; exact (Hk k v0 Hin Hv)).
    destruct cs as [|c cs].
    + cbn [case_children_loop]. rewrite bool_decide_eq_true_2 by reflexivity.
      cbn [negb]. unfold mem. case_bool_decide as Htag.
      * cbn [Dom.getAttribute mbind outcome_bind].
        assert (forall v w,
                  d !! tag = Some v -> add_flag v (default "" (attrs !! "args")) = VStr w ->
                  exists d',
                    case_children_loop children (<[tag := VStr w]> d) = Return d'
                    /\ forall k v0, k ∈ setup_filter_keys -> d !! k = Some v0 ->
                         d' !! k
                         = Some (fold_left add_flag
                                   (flag_args k (Element tag attrs [] :: children)) v0))
          as Hstep.
        { intros v w Hv Hw.
          destruct (IH _ (flags_ok_insert d tag w Hd)) as (d' & Hrun & Hk).
          exists d'. split; [exact Hrun|]. intros k v0 Hin Hv0.
          cbn [flag_args omap list_omap].
          destruct (String.eqb_spec tag k) as [->|Hne].
          - cbn [fold_left]. apply Hk; [exact Hin|]. rewrite lookup_insert_eq.
            rewrite Hv in Hv0. inversion Hv0; subst v0. rewrite Hw. reflexivity.
          - apply Hk; [exact Hin|]. rewrite lookup_insert_ne by exact Hne. exact Hv0. }
        destruct (Hd tag Htag) as [Hv|[s Hv]]; rewrite Hv.
        -- cbn [truthy negb]. apply (Hstep VNone _ Hv). reflexivity.
        -- cbn [truthy]. destruct (String.eqb s "") eqn:Hs; cbn [negb].
           ++ apply (Hstep (VStr s) _ Hv). unfold add_flag. cbn [truthy].
              rewrite Hs. reflexivity.
           ++ apply (Hstep (VStr s) _ Hv). unfold add_flag. cbn [truthy].
              rewrite Hs. reflexivity.
      * destruct (IH d Hd) as (d' & Hrun & Hk). exists d'. split; [exact Hrun|].
        intros k v0 Hin Hv0. cbn [flag_args omap list_omap].
        destruct (String.eqb_spec tag k) as [->|Hne]; [contradiction|].
        apply Hk; assumption.
    + cbn [case_children_loop]. rewrite bool_decide_eq_false_2 by discriminate.
      cbn [negb]. simpl in Hn, Hfn. unfold mem in *.
      case_bool_decide as Hstruct; cbn [negb].
      * destruct (IH d Hd) as (d' & Hrun & Hk). exists d'. split; [exact Hrun|].
        intros k v0 Hin Hv0. cbn [flag_args omap list_omap]. apply Hk; assumption.
      * destruct Hn as [Hn|[Hdata _]]; [discriminate|].
        cbn [head]. destruct c; try discriminate; cbn [Dom.data_of Dom.data mbind outcome_bind];
          (destruct (IH _ (flags_ok_insert d tag data Hd)) as (d' & Hrun & Hk);
           exists d'; split; [exact Hrun|];
           intros k v0 Hin Hv0; cbn [flag_args omap list_omap];
           apply Hk; [exact Hin|];
           rewrite lookup_insert_ne by (intros ->; contradiction); exact Hv0).
Qed.

Lemma append_assoc (s t u : string) :
  ((s ++ t) ++ u)%string = (s ++ t ++ u)%string.
Proof.
  induction s as [|c s IH]; [reflexivity|].
  change (String c ((s ++ t) ++ u)%string = String c (s ++ t ++ u)%string).
  rewrite IH. reflexivity.
Qed.

Lemma concat_space_cons (s a : string) (rest : list string) :
  String.concat " " ((s ++ " " ++ a)%string :: rest)
  = String.concat " " (s :: a :: rest).
Proof.
  destruct rest as [|b rest]; cbn [String.concat]; [reflexivity|].
  rewrite !append_assoc. reflexivity.
Qed.

Lemma append_nonempty (s t : string) : s <> "" -> (s ++ t)%string <> "".
Proof. destruct s; [contradiction|]. intros _. discriminate. Qed.

Lemma add_flag_joined_from (args : list string) :
  Forall (fun a => a <> "") args ->
  forall s, s <> "" ->
    fold_left add_flag args (VStr s) = VStr (String.concat " " (s :: args)).
Proof.
  induction 1 as [|a args Ha _ IH]; intros s Hs; [reflexivity|].
  cbn [fold_left]. unfold add_flag at 2. cbn [truthy].
  destruct (String.eqb_spec s "") as [->|_]; [contradiction|]. cbn [negb].
  rewrite IH by (apply append_nonempty, Hs). apply f_equal, concat_space_cons.
Qed.

(** Args that are all non-empty end up joined by single spaces. *)
Lemma add_flag_joined (args : list string) :
  Forall (fun a => a <> "") args ->
  fold_left add_flag args VNone
  = match args with
    | [] => VNone
    | _ :: _ => VStr (String.concat " " args)
    end.
Proof.
  intros Hargs. destruct Hargs as [|a args Ha Hargs]; [reflexivity|].
  cbn [fold_left]. unfold add_flag at 2. cbn [truthy negb].
  apply add_flag_joined_from; assumption.
Qed.

Section Flags.

Variable self : Parser.
Variable l : string.
Variable study : Node.
Hypothesis study_found : getStudyNode self l = Return (Some study).

Lemma case_step_flags (st : cases_state) (node : Node) :
  case_regular node ->
  (is_on node = true -> Forall flag_child (Dom.childNodes node)) ->
  if is_on node
  then exists d st',
         case_step self l st node = Return st'
         /\ st_data st' = st_data st ++ [d] /\ flags_of node d
  else case_step self l st node = Return st.
Proof.
  intros [[[stv Hst] Hlab] Hch] Hfl. unfold case_step.
  rewrite (attr_attribute _ _ _ Hst). cbn [mbind outcome_bind]. rewrite eqb_on.
  destruct (is_on node) eqn:Hon.
  - apply is_on_true in Hon as Hon'. rewrite Hst in Hon'. inversion Hon'; subst stv.
    rewrite bool_decide_eq_true_2 by reflexivity.
    destruct (Hlab eq_refl) as [lab Hl].
    rewrite (attr_attribute _ _ _ Hl). cbn [mbind outcome_bind].
    rewrite study_found. cbn [mbind outcome_bind].
    rewrite (study_tags_read self l study study_found). cbn [mbind outcome_bind].
    set (d0 := case_fields node lab (count_label (st_list_case st) lab)
                 (case_tags node ++ study_tags study)).
    pose proof (case_fields_flags_ok node lab (count_label (st_list_case st) lab)
                  (case_tags node ++ study_tags study)) as Hok. fold d0 in Hok.
    destruct (case_children_loop_regular _ (Hch eq_refl) d0 Hok) as (d & Hrun & Hkeep).
    destruct (case_children_loop_flags _ (Hch eq_refl) (Hfl eq_refl) d0 Hok)
      as (d' & Hrun' & Hflags).
    rewrite Hrun in Hrun'. inversion Hrun'; subst d'.
    rewrite Hrun. cbn [mbind outcome_bind]. eexists d, _. split; [reflexivity|].
    split; [reflexivity|]. split.
    + rewrite Hkeep by (unfold record_keys; rewrite !elem_of_cons; tauto). reflexivity.
    + intros k Hk. apply Hflags; [exact Hk|]. unfold setup_filter_keys in Hk.
      rewrite !elem_of_cons, elem_of_nil in Hk.
      destruct Hk as [->|[->|[->|[]]]]; reflexivity.
  - rewrite bool_decide_eq_false_2; [reflexivity|].
    intros ->. apply is_on_true in Hst. congruence.
Qed.

Lemma cases_loop_flags (nodes : list Node) :
  Forall case_regular nodes ->
  Forall (fun n => is_on n = true -> Forall flag_child (Dom.childNodes n)) nodes ->
  forall st : cases_state,
  exists st' ds,
    cases_loop self l nodes st = Return st'
    /\ st_data st' = st_data st ++ ds
    /\ Forall2 flags_of (List.filter is_on nodes) ds.
Proof.
  induction 1 as [|node nodes Hn _ IH]; intros Hfl st.
  - exists st, []. cbn [cases_loop List.filter]. rewrite app_nil_r. auto.
  - apply Forall_cons in Hfl as [Hfn Hfl].
    pose proof (case_step_flags st node Hn Hfn) as Hstep.
    cbn [cases_loop List.filter]. destruct (is_on node) eqn:Hon.
    + destruct Hstep as (d & st1 & Hstep & Hdata1 & Hd). rewrite Hstep.
      cbn [mbind outcome_bind].
      destruct (IH Hfl st1) as (st' & ds & Hrun & Hdata & Hall).
      exists st', (d :: ds). split; [exact Hrun|]. split.
      * rewrite Hdata, Hdata1, <- app_assoc. reflexivity.
      * constructor; assumption.
    + rewrite Hstep. cbn [mbind outcome_bind]. apply (IH Hfl st).
Qed.

End Flags.

(** X15. For a study found by [getStudyNode] whose cases are regular, no
    child element with content being named 'notebook', 'parametric' or
    'kw_args': in the record of each enabled case, each of these three keys
    holds the args of the empty child elements of that name, taken in
    document order and added one after the other, a missing args attribute
    counting as the empty string. When these args are all non-empty the
    value is the args joined by single spaces, and it is [None] when the case
    has no such child. *)
Theorem case_records_flags (self : Parser) (l : string) (study : Node) :
  getStudyNode self l = Return (Some study) ->
  Forall case_regular (Dom.elements_below "case" study) ->
  Forall (fun n => is_on n = true -> Forall flag_child (Dom.childNodes n))
         (Dom.elements_below "case" study) ->
  let enabled := List.filter is_on (Dom.elements_below "case" study) in
  exists data,
    getStatusOnCasesKeywords self l = Return data
    /\ length data = length enabled
    /\ forall (i : nat) (n : Node),
         enabled !! i = Some n ->
         exists d,
           data !! i = Some d
           /\ d !! "node" = Some (VNode n)
           /\ forall k, k ∈ setup_filter_keys ->
                d !! k = Some (fold_left add_flag (flag_args k (Dom.childNodes n)) VNone)
                /\ (Forall (fun a => a <> "") (flag_args k (Dom.childNodes n)) ->
                    d !! k
                    = Some (match flag_args k (Dom.childNodes n) with
                            | [] => VNone
                            | args => VStr (String.concat " " args)
                            end)).
Proof.
  intros Hs Hwf Hfl enabled. unfold getStatusOnCasesKeywords. rewrite Hs.
  cbn [mbind outcome_bind]. unfold Dom.getElementsByTagName_of.
  rewrite (getElementsByTagName_element study "case"
             (attribute_is_element _ _ _ (study_enabled self l study Hs))).
  cbn [mbind outcome_bind].
  destruct (cases_loop_flags self l study Hs _ Hwf Hfl (mkState [] ∅ false))
    as (st' & ds & Hrun & Hdata & Hall).
  rewrite Hrun. cbn [mbind outcome_bind]. cbn [st_data app] in Hdata. rewrite Hdata.
  exists ds. split; [reflexivity|]. fold enabled in Hall.
  split; [symmetry; eapply Forall2_length, Hall|].
  intros i n Hi. destruct (Forall2_lookup_l _ _ _ _ _ Hall Hi) as (d & Hd & Hn & Hk).
  exists d. split; [exact Hd|]. split; [exact Hn|]. intros k Hin.
  split; [apply Hk, Hin|]. intros Hargs. rewrite (Hk k Hin). unfold flag_value.
  rewrite (add_flag_joined _ Hargs).
  destruct (flag_args k (Dom.childNodes n)); reflexivity.
Qed.

Lemma case_records_flags_witness :
  exists d1 d2,
    getStatusOnCasesKeywords (Samples.parser_of Samples.two_studies) "A"
    = Return [d1; d2]
    /\ d1 !! "notebook" = Some (VStr "x=1 y=2")
    /\ d1 !! "parametric" = Some VNone
    /\ d2 !! "notebook" = Some VNone.
Proof.
  destruct (case_records_flags (Samples.parser_of Samples.two_studies) "A"
              Samples.study_A)
    as (data & Hret & Hlen & Hat).
  - vm_compute. reflexivity.
  - apply (Forall_checked _ _ _ case_regular_b_sound). vm_compute. reflexivity.
  - apply (Forall_checked _
             (fun n => implb (is_on n) (forallb flag_child_b (Dom.childNodes n)))).
    + intros n Hn Hon. rewrite Hon in Hn.
      apply (Forall_checked _ _ _ flag_child_b_sound), Hn.
    + vm_compute. reflexivity.
  - destruct (Hat 0%nat Samples.case_1 eq_refl) as (d1 & Hd1 & _ & Hk1).
    destruct (Hat 1%nat Samples.case_2 eq_refl) as (d2 & Hd2 & _ & Hk2).
    destruct data as [|e1 [|e2 [|e3 data]]]; try discriminate Hlen.
    cbn in Hd1, Hd2. inversion Hd1; subst e1. inversion Hd2; subst e2.
    exists d1, d2. split; [exact Hret|].
    assert ("notebook" ∈ setup_filter_keys) as Hn
      by (unfold setup_filter_keys; rewrite !elem_of_cons; tauto).
    assert ("parametric" ∈ setup_filter_keys) as Hp
      by (unfold setup_filter_keys; rewrite !elem_of_cons; tauto).
    split; [|split].
    + destruct (Hk1 "notebook" Hn) as [_ ->]; [reflexivity|].
      vm_compute. repeat constructor; discriminate.
    + destruct (Hk1 "parametric" Hp) as [-> _]. reflexivity.
    + destruct (Hk2 "notebook" Hn) as [-> _]. reflexivity.
Defined.

(** ** The symbols and the expression of the formula editor *)

Lemma find_range (c : ascii) (s : string) :
  PyStr.find c s = -1 \/ 0 <= PyStr.find c s < PyStr.len s.
Proof.
  unfold PyStr.len. induction s as [|c' s IH]; [left; reflexivity|].
  cbn [PyStr.find String.length]. destruct (Ascii.eqb c' c); [right; lia|].
  destruct IH as [->|IH]; [left; reflexivity|].
  destruct (Z.ltb_spec (PyStr.find c s) 0); [lia|]. right. lia.
Qed.

Lemma substring_prefix (n : nat) (c : ascii) (s : string) :
  String.substring 0 (S n) (String c s) = String c (String.substring 0 n s).
Proof. reflexivity. Qed.

Lemma substring_before (c : ascii) (s : string) :
  PyStr.find c s <> -1 ->
  String.substring 0 (Z.to_nat (PyStr.find c s)) s = before c s.
Proof.
  induction s as [|c' s IH]; [intros H; contradiction H; reflexivity|].
  cbn [PyStr.find before]. destruct (Ascii.eqb c' c); [reflexivity|].
  destruct (find_range c s) as [H|Hr].
  - rewrite H. intros Hf. contradiction Hf. reflexivity.
  - destruct (Z.ltb_spec (PyStr.find c s) 0) as [|_]; [lia|]. intros _.
    rewrite Z2Nat.inj_add by lia. change (Z.to_nat 1) with 1%nat.
    rewrite Nat.add_1_r, substring_prefix, IH by lia. reflexivity.
Qed.

Lemma slice_before (c : ascii) (s : string) :
  PyStr.find c s <> -1 ->
  PyStr.slice None (Some (PyStr.find c s)) s = before c s.
Proof.
  intros Hf. destruct (find_range c s) as [H|Hr]; [contradiction|].
  unfold PyStr.slice, PyStr.clamp.
  destruct (Z.ltb_spec (PyStr.find c s) 0) as [|_]; [lia|].
  rewrite Z.min_r, Z.max_r, Z.sub_0_r by lia.
  apply substring_before, Hf.
Qed.

Lemma find_before (c : ascii) (s : string) : PyStr.find c (before c s) = -1.
Proof.
  induction s as [|c' s IH]; [reflexivity|]. cbn [before].
  destruct (Ascii.eqb c' c) eqn:Hc; [reflexivity|].
  cbn [PyStr.find]. rewrite Hc, IH. reflexivity.
Qed.

Lemma before_plain (c : ascii) (s : string) : PyStr.find c s = -1 -> before c s = s.
Proof.
  induction s as [|c' s IH]; [reflexivity|]. cbn [PyStr.find before].
  destruct (Ascii.eqb c' c); [discriminate|].
  destruct (find_range c s) as [H|Hr].
  - intros _. rewrite (IH H). reflexivity.
  - destruct (Z.ltb_spec (PyStr.find c s) 0) as [|_]; lia.
Qed.

Lemma indexed_false (s : string) : indexed s = false -> PyStr.find "[" s = -1.
Proof.
  unfold indexed. intros H. apply negb_false_iff, Z.eqb_eq in H. exact H.
Qed.

Lemma indexed_true (s : string) : indexed s = true -> PyStr.find "[" s <> -1.
Proof.
  unfold indexed. intros H. apply negb_true_iff, Z.eqb_neq in H. exact H.
Qed.

(** The loop adds the entries of [kept] behind those it has. *)
Lemma sym_loop_kept (symbols : list (string * string)) :
  forall sym base, QMeg.sym_loop symbols sym base = sym ++ kept symbols base.
Proof.
  induction symbols as [|[s l] symbols IH]; intros sym base; cbn [QMeg.sym_loop kept].
  - rewrite app_nil_r. reflexivity.
  - cbn [fst]. fold (indexed s). destruct (indexed s) eqn:Hi.
    + rewrite (slice_before _ _ (indexed_true _ Hi)). fold (base_name s).
      destruct (mem (base_name s) base); cbn [negb].
      * apply IH.
      * rewrite IH, <- app_assoc. reflexivity.
    + rewrite IH, <- app_assoc. reflexivity.
Qed.

Lemma kept_plain_names (symbols : list (string * string)) :
  forall base, Forall (fun e => indexed e.1 = false) (kept symbols base).
Proof.
  induction symbols as [|[s l] symbols IH]; intros base; cbn [kept fst]; [constructor|].
  destruct (indexed s) eqn:Hi.
  - destruct (mem (base_name s) base); [apply IH|]. constructor; [|apply IH].
    unfold based, indexed, base_name. cbn [fst]. rewrite find_before. reflexivity.
  - constructor; [exact Hi|apply IH].
Qed.

Lemma based_plain (e : string * string) : indexed e.1 = false -> based e = e.
Proof.
  destruct e as [s l]. cbn [fst]. intros H. unfold based, base_name. cbn [fst snd].
  rewrite (before_plain _ _ (indexed_false _ H)). reflexivity.
Qed.

Lemma kept_sublist (symbols : list (string * string)) :
  forall base, sublist (kept symbols base) (based <$> symbols).
Proof.
  induction symbols as [|e symbols IH]; intros base; cbn [kept]; [constructor|].
  rewrite fmap_cons. destruct (indexed e.1) eqn:Hi.
  - destruct (mem (base_name e.1) base).
    + apply sublist_cons, IH.
    + apply sublist_skip, IH.
  - rewrite (based_plain e Hi). apply sublist_skip, IH.
Qed.

Lemma kept_count (n : string) (symbols : list (string * string)) :
  forall base,
  named_count n (kept symbols base)
  = (plain_count n symbols
     + if (family n symbols && negb (mem n base))%bool then 1 else 0)%nat.
Proof.
  unfold named_count, plain_count.
  induction symbols as [|e symbols IH]; intros base; [reflexivity|].
  cbn [kept family existsb List.filter]. fold (family n symbols).
  destruct (indexed e.1) eqn:Hi; cbn [negb andb orb].
  - destruct (String.eqb_spec (base_name e.1) n) as [Hn|Hn]; cbn [orb andb].
    + subst n. destruct (mem (base_name e.1) base) eqn:Hm; cbn [negb].
      * rewrite IH, Hm. cbn [negb]. rewrite andb_false_r. reflexivity.
      * cbn [List.filter based fst]. rewrite String.eqb_refl. cbn [length].
        rewrite IH. unfold mem at 1.
        rewrite bool_decide_eq_true_2
          by (apply elem_of_app; right; apply list_elem_of_singleton; reflexivity).
        cbn [negb]. rewrite andb_false_r. lia.
    + destruct (mem (base_name e.1) base) eqn:Hm.
      * apply IH.
      * cbn [List.filter based fst].
        destruct (String.eqb_spec (base_name e.1) n) as [|_]; [contradiction|].
        rewrite IH. unfold mem.
        rewrite (bool_decide_ext (n ∈ base ++ [base_name e.1]) (n ∈ base));
          [reflexivity|].
        rewrite elem_of_app, list_elem_of_singleton. split; [|tauto].
        intros [H|H]; [exact H|]. contradiction Hn. symmetry. exact H.
  - cbn [List.filter]. destruct (String.eqb_spec e.1 n) as [Hn|Hn]; cbn [length].
    + rewrite IH. lia.
    + apply IH.
Qed.

Lemma kept_first_member (pre post : list (string * string)) (e : string * string) :
  indexed e.1 = true ->
  Forall (fun e' => indexed e'.1 = true -> base_name e'.1 <> base_name e.1) pre ->
  forall base, base_name e.1 ∉ base ->
  based e ∈ kept (pre ++ e :: post) base.
Proof.
  intros Hi. induction 1 as [|e' pre He' _ IH]; intros base Hb.
  - cbn [app kept]. rewrite Hi. unfold mem. rewrite bool_decide_eq_false_2 by exact Hb.
    apply elem_of_cons. left. reflexivity.
  - cbn [app kept]. destruct (indexed e'.1) eqn:Hi'.
    + destruct (mem (base_name e'.1) base); [apply IH, Hb|].
      apply elem_of_cons. right. apply IH. specialize (He' eq_refl).
      rewrite elem_of_app, list_elem_of_singleton. intros [H|H]; [exact (Hb H)|].
      apply He'. symmetry. exact H.
    + apply elem_of_cons. right. apply IH, Hb.
Qed.

(** X16. The symbols handed to the syntax highlighter of the formula editor,
    for the predefined symbols as for the required ones. No entry holds a
    bracket; the entries are symbols of the list under their base name (the
    text in front of the first bracket), in the order of the list and with
    their own description; a name [n] is entered once for each symbol without
    index named [n], and once more when some indexed symbol has the base name
    [n], however many do: so a plain symbol and an indexed family of the same
    name give two entries; and the entry of an indexed family carries the
    description of its first member. *)
Theorem highlighted_symbols (symbols : list (string * string)) :
  QMeg.req symbols = QMeg.sym symbols
  /\ Forall (fun e => PyStr.find "[" e.1 = -1) (QMeg.sym symbols)
  /\ sublist (QMeg.sym symbols) (based <$> symbols)
  /\ (forall n,
        named_count n (QMeg.sym symbols)
        = (plain_count n symbols + if family n symbols then 1 else 0)%nat)
  /\ (forall pre e post,
        symbols = pre ++ e :: post ->
        indexed e.1 = true ->
        Forall (fun e' => indexed e'.1 = true -> base_name e'.1 <> base_name e.1) pre ->
        (base_name e.1, e.2) ∈ QMeg.sym symbols).
Proof.
  assert (QMeg.sym symbols = kept symbols []) as Hk.
  { unfold QMeg.sym. rewrite sym_loop_kept. reflexivity. }
  split; [reflexivity|]. rewrite Hk.
  split; [|split; [apply kept_sublist|split]].
  - eapply Forall_impl; [apply kept_plain_names|].
    intros e He. apply indexed_false, He.
  - intros n. rewrite kept_count. unfold mem.
    rewrite bool_decide_eq_false_2 by apply not_elem_of_nil. cbn [negb].
    rewrite andb_true_r. reflexivity.
  - intros pre e post -> Hi Hpre. apply (kept_first_member pre post e Hi Hpre).
    apply not_elem_of_nil.
Qed.

Lemma highlighted_symbols_witness :
  QMeg.sym [("x[0]", "first"); ("y", "plain"); ("x[1]", "second"); ("x", "scalar")]
  = [("x", "first"); ("y", "plain"); ("x", "scalar")]
  /\ ("x", "first")
     ∈ QMeg.sym [("x[0]", "first"); ("y", "plain"); ("x[1]", "second"); ("x", "scalar")].
Proof.
  split; [vm_compute; reflexivity|].
  destruct (highlighted_symbols
              [("x[0]", "first"); ("y", "plain"); ("x[1]", "second"); ("x", "scalar")])
    as (_ & _ & _ & _ & Hfirst).
  apply (Hfirst [] ("x[0]", "first") [("y", "plain"); ("x[1]", "second"); ("x", "scalar")]).
  - reflexivity.
  - vm_compute. reflexivity.
  - constructor.
Defined.

(** ** The expression shown first *)

Lemma append_nil_r (s : string) : (s ++ "")%string = s.
Proof.
  induction s as [|c s IH]; [reflexivity|].
  change (String c (s ++ "")%string = String c s). rewrite IH. reflexivity.
Qed.

Lemma append_cons (c : ascii) (s t : string) :
  (String c s ++ t)%string = String c (s ++ t)%string.
Proof. reflexivity. Qed.

Lemma string_rev_ind (P : string -> Prop) :
  P "" -> (forall s c, P s -> P (s ++ String c "")%string) -> forall s, P s.
Proof.
  intros Hnil Hsnoc s.
  rewrite <- (String.string_of_list_ascii_of_string s).
  induction (String.list_ascii_of_string s) as [|c l IH] using rev_ind; [exact Hnil|].
  assert (String.string_of_list_ascii (l ++ [c])
          = (String.string_of_list_ascii l ++ String c "")%string) as ->.
  { clear IH. induction l as [|a l IHl]; [reflexivity|].
    cbn [app String.string_of_list_ascii]. rewrite IHl. reflexivity. }
  apply Hsnoc, IH.
Qed.

Lemma last_snoc_string (s : string) (c : ascii) :
  last (String.list_ascii_of_string (s ++ String c "")) = Some c.
Proof.
  induction s as [|a s IH]; [reflexivity|].
  rewrite append_cons. cbn [String.list_ascii_of_string].
  destruct (String.list_ascii_of_string (s ++ String c "")) as [|b l] eqn:Hl;
    [discriminate IH|].
  rewrite last_cons_cons. exact IH.
Qed.

Lemma length_snoc_string (s : string) (c : ascii) :
  String.length (s ++ String c "") = S (String.length s).
Proof.
  induction s as [|a s IH]; [reflexivity|].
  rewrite append_cons. cbn [String.length]. rewrite IH. reflexivity.
Qed.

Lemma substring_append (s t : string) :
  String.substring 0 (String.length s) (s ++ t) = s.
Proof.
  induction s as [|a s IH]; [destruct t; reflexivity|].
  rewrite append_cons. cbn [String.length]. rewrite substring_prefix, IH. reflexivity.
Qed.

(** [expression[:-1]] drops the last character. *)
Lemma slice_drop_last (s : string) (c : ascii) :
  PyStr.slice None (Some (-1)) (s ++ String c "") = s.
Proof.
  unfold PyStr.slice, PyStr.clamp, PyStr.len. rewrite length_snoc_string.
  cbn [Z.ltb Z.compare]. rewrite Z.min_r, Z.max_r, Z.sub_0_r by lia.
  replace (Z.to_nat (-1 + Z.of_nat (S (String.length s)))) with (String.length s) by lia.
  apply substring_append.
Qed.

Lemma blanks_snoc (s : string) (c : ascii) :
  blanks (s ++ String c "") = (blanks s && QMeg.blank c)%bool.
Proof.
  induction s as [|a s IH]; [cbn [blanks]; change ("" ++ String c "")%string with (String c ""); cbn [blanks]; rewrite andb_true_r; reflexivity|].
  rewrite append_cons. cbn [blanks]. rewrite IH, andb_assoc. reflexivity.
Qed.

Lemma front_loop_blanks (s : string) : blanks s = true -> QMeg.front_loop s = QMeg.IndexError.
Proof.
  induction s as [|c s IH]; [reflexivity|]. cbn [blanks QMeg.front_loop].
  intros [Hc Hs]%andb_true_iff. rewrite Hc. apply IH, Hs.
Qed.

Lemma front_loop_core (pre core : string) :
  blanks pre = true ->
  match core with String c _ => QMeg.blank c = false | EmptyString => False end ->
  QMeg.front_loop (pre ++ core) = QMeg.Ok core.
Proof.
  intros Hpre Hcore. induction pre as [|a pre IH].
  - destruct core as [|c core]; [contradiction|].
    change ("" ++ String c core)%string with (String c core).
    cbn [QMeg.front_loop]. rewrite Hcore. reflexivity.
  - cbn [blanks] in Hpre. apply andb_true_iff in Hpre as [Ha Hpre].
    rewrite append_cons. cbn [QMeg.front_loop]. rewrite Ha. apply IH, Hpre.
Qed.

Lemma back_loop_core (core : string) :
  match last (String.list_ascii_of_string core) with
  | Some c => QMeg.blank c = false
  | None => False
  end ->
  forall post fuel,
  blanks post = true -> (String.length post < fuel)%nat ->
  QMeg.back_loop fuel (core ++ post) = Some (QMeg.Ok core).
Proof.
  intros Hcore post. induction post as [|post c IH] using string_rev_ind;
    intros fuel Hpost Hfuel.
  - rewrite append_nil_r. destruct fuel as [|fuel]; [lia|]. cbn [QMeg.back_loop].
    destruct (last (String.list_ascii_of_string core)) as [c|]; [|contradiction].
    rewrite Hcore. reflexivity.
  - rewrite blanks_snoc in Hpost. apply andb_true_iff in Hpost as [Hpost Hc].
    rewrite length_snoc_string in Hfuel.
    destruct fuel as [|fuel]; [lia|]. cbn [QMeg.back_loop].
    rewrite <- append_assoc, last_snoc_string, Hc, slice_drop_last.
    apply IH; [exact Hpost|lia].
Qed.

Lemma required_lines_fold (required : list (string * string)) :
  forall e : string,
  fold_left (fun e pq => (e ++ (fst pq ++ QMeg.assign))%string) required e
  = (e ++ required_lines required)%string.
Proof.
  unfold required_lines.
  induction required as [|pq required IH]; intros e.
  - cbn [fold_left fmap list_fmap String.concat]. rewrite append_nil_r. reflexivity.
  - cbn [fold_left]. rewrite IH, fmap_cons, append_assoc. f_equal.
    destruct required as [|pq' required]; cbn [fmap list_fmap String.concat].
    + rewrite append_nil_r. reflexivity.
    + reflexivity.
Qed.

Lemma last_cons_nonempty (c : ascii) (s : string) :
  s <> "" ->
  last (String.list_ascii_of_string (String c s)) = last (String.list_ascii_of_string s).
Proof.
  destruct s as [|a s]; [intros H; contradiction H; reflexivity|]. intros _.
  cbn [String.list_ascii_of_string]. apply last_cons_cons.
Qed.

Lemma edged_first (s : string) :
  edged s = true ->
  match s with String c _ => QMeg.blank c = false | EmptyString => False end.
Proof.
  unfold edged. destruct s as [|c s]; [discriminate|].
  intros [H _]%andb_true_iff. apply negb_true_iff, H.
Qed.

Lemma edged_last (s : string) :
  edged s = true ->
  match last (String.list_ascii_of_string s) with
  | Some c => QMeg.blank c = false
  | None => False
  end.
Proof.
  unfold edged. intros [_ H]%andb_true_iff.
  destruct (last (String.list_ascii_of_string s)); [|discriminate].
  apply negb_true_iff, H.
Qed.

(** A text is made of blanks, or has one core between blanks. *)
Lemma blanks_or_core (s : string) :
  blanks s = true
  \/ exists pre core post,
       s = (pre ++ core ++ post)%string
       /\ blanks pre = true /\ edged core = true /\ blanks post = true.
Proof.
  induction s as [|c s IH]; [left; reflexivity|].
  destruct (QMeg.blank c) eqn:Hc.
  - destruct IH as [Hs|(pre & core & post & -> & Hpre & Hcore & Hpost)].
    + left. cbn [blanks]. rewrite Hc, Hs. reflexivity.
    + right. exists (String c pre), core, post. rewrite append_cons.
      split; [reflexivity|]. cbn [blanks]. rewrite Hc, Hpre. auto.
  - right. destruct IH as [Hs|(pre & core & post & -> & Hpre & Hcore & Hpost)].
    + exists "", (String c ""), s. split; [reflexivity|].
      split; [reflexivity|]. split; [|exact Hs].
      unfold edged. cbn [String.list_ascii_of_string last]. rewrite Hc. reflexivity.
    + exists "", (String c (pre ++ core)), post.
      split; [rewrite append_cons, append_assoc; reflexivity|].
      split; [reflexivity|]. split; [|exact Hpost].
      unfold edged. rewrite Hc. cbn [negb andb].
      assert (exists a r, core = (r ++ String a "")%string /\ QMeg.blank a = false)
        as (a & r & -> & Ha).
      { apply edged_last in Hcore. revert Hcore.
        induction core as [|core a _] using string_rev_ind; [intros []|].
        rewrite last_snoc_string. intros Ha. exists a, core. auto. }
      rewrite <- append_assoc, <- append_cons, last_snoc_string, Ha. reflexivity.
Qed.

(** X17. The text that the formula editor shows first. Without an
    expression it is one line 'p = ' for each required symbol, in their
    order. An expression made of blanks only (spaces, tabs and newlines)
    raises [IndexError]: the first loop runs off the end of the text. Any
    other expression is shown without the blanks in front of its first and
    behind its last character that is not a blank, blanks inside being kept,
    and the second loop ends after one test more than there are blanks behind.
    Every expression is of one of these three kinds; a carriage return is no
    blank. *)
Theorem initial_expression_trimmed (required : list (string * string)) :
  (forall fuel,
     QMeg.initial_expression fuel "" required
     = Some (QMeg.Ok (required_lines required)))
  /\ (forall fuel expression,
        expression <> "" -> blanks expression = true ->
        QMeg.initial_expression fuel expression required = Some QMeg.IndexError)
  /\ (forall fuel pre core post,
        blanks pre = true -> edged core = true -> blanks post = true ->
        (String.length post < fuel)%nat ->
        QMeg.initial_expression fuel (pre ++ core ++ post) required
        = Some (QMeg.Ok core))
  /\ (forall expression,
        blanks expression = true
        \/ exists pre core post,
             expression = (pre ++ core ++ post)%string
             /\ blanks pre = true /\ edged core = true /\ blanks post = true)
  /\ QMeg.blank "013" = false.
Proof.
  split; [|split; [|split; [|split; [exact blanks_or_core|reflexivity]]]].
  - intros fuel. unfold QMeg.initial_expression. cbn [String.eqb].
    rewrite required_lines_fold. reflexivity.
  - intros fuel expression Hne Hb. unfold QMeg.initial_expression.
    destruct (String.eqb_spec expression "") as [|_]; [contradiction|].
    rewrite (front_loop_blanks _ Hb). reflexivity.
  - intros fuel pre core post Hpre Hcore Hpost Hfuel. unfold QMeg.initial_expression.
    destruct (String.eqb_spec (pre ++ core ++ post) "") as [He|_].
    + apply edged_first in Hcore. destruct pre; [|discriminate He].
      destruct core; [contradiction|discriminate He].
    + rewrite (front_loop_core pre (core ++ post) Hpre).
      * apply (back_loop_core core (edged_last _ Hcore) post fuel Hpost Hfuel).
      * apply edged_first in Hcore. destruct core as [|c core]; [contradiction|].
        rewrite append_cons. exact Hcore.
Qed.

Lemma initial_expression_trimmed_witness :
  QMeg.initial_expression 3 (String "009" " x = 1 ;" ++ String "010" " ")
    [("x", "abscissa")]
  = Some (QMeg.Ok "x = 1 ;")
  /\ QMeg.initial_expression 0 (String " " (String "010" "")) [("x", "abscissa")]
     = Some QMeg.IndexError.
Proof.
  destruct (initial_expression_trimmed [("x", "abscissa")]) as (_ & Hblank & Hcore & _).
  split.
  - apply (Hcore 3%nat (String "009" " ") "x = 1 ;" (String "010" " "));
      [reflexivity| reflexivity | reflexivity | vm_compute; lia].
  - apply Hblank; [discriminate|reflexivity].
Defined.
